(** * Email Productivity Agent: the pattern-matching engine and its stores

    A shallow embedding of [utils/llm_services.py], [utils/email_processor.py],
    [utils/prompt_manager.py], [utils/data_loader.py] and of the query
    handlers of [pages/_Email_Agent.py], followed by the properties of the
    specification that are stated about them.

    Text.  A Python [str] is modelled as a Rocq [string], a sequence of
    8-bit characters; a character stands for the code point of the same
    number.  The character functions ([str.lower], [str.isspace], the
    classes of [re]) are Python's on ASCII text, which is what the lexicons,
    the templates and the mock inbox are written in; a character of code 128
    or more is taken as caseless, and as neither space, digit nor word
    character. *)

From Stdlib Require Import Ascii String ZArith NArith Lia Bool.
From stdpp Require Import base option list gmap strings pretty.

Local Open Scope string_scope.

(** ** Characters *)

Definition code (c : ascii) : N := N_of_ascii c.

Definition in_range (lo hi : N) (c : ascii) : bool :=
  (lo <=? code c)%N && (code c <=? hi)%N.

Definition is_upper (c : ascii) : bool := in_range 65 90 c.
Definition is_lower (c : ascii) : bool := in_range 97 122 c.
Definition is_alpha (c : ascii) : bool := is_upper c || is_lower c.
Definition is_digit (c : ascii) : bool := in_range 48 57 c.

(** [str.isspace] and the class [\s]: tab, line feed, vertical tab, form
    feed, carriage return, the four separators 28..31 and the space. *)
Definition is_space (c : ascii) : bool :=
  in_range 9 13 c || in_range 28 32 c.

(** The class [\w]: letters, digits and the underscore. *)
Definition is_word (c : ascii) : bool :=
  is_alpha c || is_digit c || (code c =? 95)%N.

Definition lower_char (c : ascii) : ascii :=
  if is_upper c then ascii_of_N (code c + 32) else c.

Definition upper_char (c : ascii) : ascii :=
  if is_lower c then ascii_of_N (code c - 32) else c.

Definition chr_eqb (a b : ascii) : bool := (code a =? code b)%N.

Definition nl_char : ascii := "010"%char.
Definition nl : string := String nl_char "".

(** ** Strings *)

(** [s.lower()] *)
Fixpoint str_lower (s : string) : string :=
  match s with
  | "" => ""
  | String c s' => String (lower_char c) (str_lower s')
  end.

(** [s.upper()] *)
Fixpoint str_upper (s : string) : string :=
  match s with
  | "" => ""
  | String c s' => String (upper_char c) (str_upper s')
  end.

(** [s.startswith(p)] *)
Fixpoint starts_with (p s : string) : bool :=
  match p, s with
  | "", _ => true
  | String a p', String b s' => chr_eqb a b && starts_with p' s'
  | String _ _, "" => false
  end.

(** [needle in s] on strings: some suffix of [s] starts with [needle]. *)
Fixpoint str_in (needle s : string) : bool :=
  starts_with needle s ||
  match s with
  | "" => false
  | String _ s' => str_in needle s'
  end.

(** [any(word in text for word in words)] *)
Definition any_in (words : list string) (text : string) : bool :=
  existsb (fun word => str_in word text) words.

Fixpoint str_drop (n : nat) (s : string) : string :=
  match n, s with
  | S n', String _ s' => str_drop n' s'
  | _, _ => s
  end.

Fixpoint str_take (n : nat) (s : string) : string :=
  match n, s with
  | S n', String c s' => String c (str_take n' s')
  | _, _ => ""
  end.

(** [s[i:j]] for [i <= j] *)
Definition str_slice (i j : nat) (s : string) : string :=
  str_take (j - i) (str_drop i s).

Fixpoint str_lstrip (s : string) : string :=
  match s with
  | String c s' => if is_space c then str_lstrip s' else s
  | "" => ""
  end.

Fixpoint str_rstrip (s : string) : string :=
  match s with
  | "" => ""
  | String c s' =>
      match str_rstrip s' with
      | "" => if is_space c then "" else String c ""
      | r => String c r
      end
  end.

(** [s.strip()] *)
Definition str_strip (s : string) : string := str_rstrip (str_lstrip s).

(** [s.title()]: a letter that follows a letter is lowered, any other
    letter is raised. *)
Fixpoint title_from (prev_cased : bool) (s : string) : string :=
  match s with
  | "" => ""
  | String c s' =>
      String (if prev_cased then lower_char c else upper_char c)
             (title_from (is_alpha c) s')
  end.

Definition str_title (s : string) : string := title_from false s.

(** [s.split('\n')] *)
Fixpoint split_lines (s : string) : list string :=
  match s with
  | "" => [""]
  | String c s' =>
      if chr_eqb c nl_char then "" :: split_lines s'
      else match split_lines s' with
           | l :: ls => String c l :: ls
           | [] => [String c ""]
           end
  end.

(** [sep.join(parts)] *)
Fixpoint str_join (sep : string) (parts : list string) : string :=
  match parts with
  | [] => ""
  | [p] => p
  | p :: ps => p ++ sep ++ str_join sep ps
  end.

(** ** Regular expressions

    The fragment of [re] that the program's patterns are written in, with
    Python's backtracking order: a repetition takes as many characters as it
    can and gives them back one by one, an alternation tries its left branch
    first.  Every repetition in the program's patterns is over a character
    class, and no pattern has more than one capturing group. *)

Inductive regex : Type :=
| Eps
| Chr (p : ascii → bool)
| Rep (p : ascii → bool) (lo : nat) (hi : option nat)
| Cat (r1 r2 : regex)
| Alt (r1 r2 : regex)
| Grp (r : regex).

(** The concatenation of the pieces of a pattern, in order. *)
Definition cat (rs : list regex) : regex := foldr Cat Eps rs.

(** A literal character, and the same under [re.IGNORECASE]. *)
Definition chr (c : ascii) : regex := Chr (chr_eqb c).
Definition ichr (c : ascii) : regex :=
  Chr (fun x => chr_eqb (lower_char x) (lower_char c)).

Fixpoint lit (w : string) : regex :=
  match w with
  | "" => Eps
  | String c w' => Cat (chr c) (lit w')
  end.

Fixpoint ilit (w : string) : regex :=
  match w with
  | "" => Eps
  | String c w' => Cat (ichr c) (ilit w')
  end.

Definition star (p : ascii → bool) : regex := Rep p 0 None.
Definition plus (p : ascii → bool) : regex := Rep p 1 None.

Definition any_char (c : ascii) : bool := true.
Definition not_nl (c : ascii) : bool := negb (chr_eqb c nl_char).

(** The length of the longest run of [p] at the head of [s], up to [hi]. *)
Fixpoint run (p : ascii → bool) (hi : option nat) (s : string) : nat :=
  match s with
  | "" => 0
  | String c s' =>
      if p c then
        match hi with
        | Some 0 => 0
        | Some (S h) => S (run p (Some h) s')
        | None => S (run p None s')
        end
      else 0
  end.

(** The span of group 1, as offsets from the start of the match. *)
Definition span : Type := nat * nat.

Section Matcher.
Context {A : Type}.

(** The rest of the pattern: what is left of the text, how much of it
    has been matched, and the span of the group if it has closed. *)
Definition cont : Type := string → nat → option span → option A.

(** A repetition that took [n] characters hands over to [k], and gives
    up one character at a time down to [lo] when [k] fails. *)
Fixpoint backoff (n lo : nat) (s : string) (pos : nat) (g : option span)
    (k : cont) : option A :=
  if (n <? lo)%nat then None
  else match k (str_drop n s) (pos + n) g with
       | Some a => Some a
       | None => match n with
                 | 0 => None
                 | S n' => backoff n' lo s pos g k
                 end
       end.

Fixpoint rmatch (r : regex) (s : string) (pos : nat) (g : option span)
    (k : cont) : option A :=
  match r with
  | Eps => k s pos g
  | Chr p =>
      match s with
      | String c s' => if p c then k s' (S pos) g else None
      | "" => None
      end
  | Rep p lo hi => backoff (run p hi s) lo s pos g k
  | Cat r1 r2 => rmatch r1 s pos g (fun s' pos' g' => rmatch r2 s' pos' g' k)
  | Alt r1 r2 =>
      match rmatch r1 s pos g k with
      | Some a => Some a
      | None => rmatch r2 s pos g k
      end
  | Grp r1 => rmatch r1 s pos g (fun s' pos' _ => k s' pos' (Some (pos, pos')))
  end.
End Matcher.

(** A match object: [group(0)], and [group(1)] when the group took part. *)
Record rmatch_obj : Type := MatchObj {
  group0 : string;
  group1 : option string
}.

(** [re.match]-like: a match that starts at the head of [s], with its
    length. *)
Definition match_here (r : regex) (s : string) : option (nat * rmatch_obj) :=
  rmatch r s 0 None
    (fun _ n g =>
       Some (n, {| group0 := str_take n s;
                   group1 := (λ '(i, j), str_slice i j s) <$> g |})).

(** [re.search(r, s)]: the match at the leftmost position that has one. *)
Fixpoint re_search (r : regex) (s : string) : option rmatch_obj :=
  match match_here r s with
  | Some (_, m) => Some m
  | None =>
      match s with
      | "" => None
      | String _ s' => re_search r s'
      end
  end.

(** [m.group(1)] of a pattern whose group takes part in every match. *)
Definition group_one (m : rmatch_obj) : string := default "" (group1 m).

(** What [re.findall] lists for one match: the group when the pattern has
    one, the whole match otherwise. *)
Definition findall_item (m : rmatch_obj) : string :=
  match group1 m with
  | Some g => g
  | None => group0 m
  end.

(** [re.findall(r, s)]: the matches from left to right, each search
    resuming where the previous match ended; [skip] counts the characters
    of the last match still to step over. *)
Fixpoint findall_from (r : regex) (skip : nat) (s : string) : list string :=
  match skip with
  | S k =>
      match s with
      | "" => []
      | String _ s' => findall_from r k s'
      end
  | 0 =>
      match match_here r s with
      | Some (n, m) =>
          findall_item m ::
          match s with
          | "" => []
          | String _ s' => findall_from r (n - 1) s'
          end
      | None =>
          match s with
          | "" => []
          | String _ s' => findall_from r 0 s'
          end
      end
  end.

Definition re_findall (r : regex) (s : string) : list string :=
  findall_from r 0 s.

(** ** Python values and JSON text

    The values that travel through [json] and the [actions] field of an
    email.  A [dict] keeps its keys in insertion order.  There is no
    constructor for [float]: the program builds none, and a document with
    a fraction or an exponent is outside the values modelled. *)

#[local] Set Warnings "-register-all".

Inductive pyval : Type :=
| PNone
| PBool (b : bool)
| PInt (z : Z)
| PStr (s : string)
| PList (l : list pyval)
| PDict (kvs : list (string * pyval)).

(** [d.get(key)] on the items of a dict *)
Fixpoint dict_get (kvs : list (string * pyval)) (key : string) : option pyval :=
  match kvs with
  | [] => None
  | (k, v) :: kvs' => if String.eqb k key then Some v else dict_get kvs' key
  end.

(** [bool(v)] *)
Definition truthy (v : pyval) : bool :=
  match v with
  | PNone => false
  | PBool b => b
  | PInt z => negb (z =? 0)%Z
  | PStr s => negb (String.eqb s "")
  | PList l => match l with [] => false | _ => true end
  | PDict kvs => match kvs with [] => false | _ => true end
  end.

Definition quote_char : ascii := "034"%char.
Definition backslash_char : ascii := "092"%char.

Definition hex_digit (n : N) : ascii :=
  if (n <? 10)%N then ascii_of_N (48 + n) else ascii_of_N (87 + n).

(** One character of a JSON string as [json.dumps] writes it with
    [ensure_ascii]: the short escapes, the character itself from the space
    to the tilde, and [\u00xx] for the rest. *)
Definition json_escape_char (c : ascii) : string :=
  let n := code c in
  let esc x := String backslash_char (String x "") in
  if (n =? 34)%N then esc quote_char
  else if (n =? 92)%N then esc backslash_char
  else if (n =? 10)%N then esc "n"%char
  else if (n =? 13)%N then esc "r"%char
  else if (n =? 9)%N then esc "t"%char
  else if (n =? 8)%N then esc "b"%char
  else if (n =? 12)%N then esc "f"%char
  else if in_range 32 126 c then String c ""
  else String backslash_char
         (String "u"%char (String "0"%char (String "0"%char
           (String (hex_digit (n / 16)) (String (hex_digit (n mod 16)) ""))))).

Fixpoint json_escape (s : string) : string :=
  match s with
  | "" => ""
  | String c s' => json_escape_char c ++ json_escape s'
  end.

Definition json_string (s : string) : string :=
  String quote_char (json_escape s ++ String quote_char "").

Fixpoint spaces (n : nat) : string :=
  match n with
  | 0 => ""
  | S n' => String " "%char (spaces n')
  end.

(** [json.dumps(v)] with the default separators. *)
Fixpoint json_dumps (v : pyval) : string :=
  match v with
  | PNone => "null"
  | PBool true => "true"
  | PBool false => "false"
  | PInt z => pretty z
  | PStr s => json_string s
  | PList l => "[" ++ str_join ", " (map json_dumps l) ++ "]"
  | PDict kvs =>
      "{" ++ str_join ", "
               (map (fun kv => json_string (fst kv) ++ ": " ++ json_dumps (snd kv)) kvs)
          ++ "}"
  end.

(** [json.dumps(v, indent=2)] at nesting depth [depth]: one item per line,
    indented two spaces per level; an empty container stays on one line. *)
Fixpoint json_dumps_indent (depth : nat) (v : pyval) : string :=
  let inner := nl ++ spaces (2 * S depth) in
  let outer := nl ++ spaces (2 * depth) in
  match v with
  | PList [] => "[]"
  | PList l =>
      "[" ++ inner ++ str_join ("," ++ inner) (map (json_dumps_indent (S depth)) l)
          ++ outer ++ "]"
  | PDict [] => "{}"
  | PDict kvs =>
      "{" ++ inner
          ++ str_join ("," ++ inner)
               (map (fun kv => json_string (fst kv) ++ ": "
                                 ++ json_dumps_indent (S depth) (snd kv)) kvs)
          ++ outer ++ "}"
  | _ => json_dumps v
  end.

(** [repr(s)] of a string: single quotes unless the string has one and
    no double quote; the quote and the backslash escaped, [\t], [\n],
    [\r], and [\xhh] for the other characters that do not print. *)
Definition apostrophe : ascii := "039"%char.

Definition repr_char (q c : ascii) : string :=
  let n := code c in
  let esc x := String backslash_char (String x "") in
  if chr_eqb c q || (n =? 92)%N then esc c
  else if (n =? 9)%N then esc "t"%char
  else if (n =? 10)%N then esc "n"%char
  else if (n =? 13)%N then esc "r"%char
  else if (n <? 32)%N || in_range 127 160 c || (n =? 173)%N
  then String backslash_char
         (String "x"%char (String (hex_digit (n / 16))
                             (String (hex_digit (n mod 16)) "")))
  else String c "".

Fixpoint repr_chars (q : ascii) (s : string) : string :=
  match s with
  | "" => ""
  | String c s' => repr_char q c ++ repr_chars q s'
  end.

Definition repr_str (s : string) : string :=
  let q := if str_in (String apostrophe "") s
              && negb (str_in (String quote_char "") s)
           then quote_char else apostrophe in
  String q (repr_chars q s ++ String q "").

(** [repr(v)] *)
Fixpoint py_repr (v : pyval) : string :=
  match v with
  | PNone => "None"
  | PBool true => "True"
  | PBool false => "False"
  | PInt z => pretty z
  | PStr s => repr_str s
  | PList l => "[" ++ str_join ", " (map py_repr l) ++ "]"
  | PDict kvs =>
      "{" ++ str_join ", "
               (map (fun kv => repr_str (fst kv) ++ ": " ++ py_repr (snd kv)) kvs)
          ++ "}"
  end.

(** [str(v)], which is what an f-string writes for [{v}]. *)
Definition py_str (v : pyval) : string :=
  match v with
  | PStr s => s
  | _ => py_repr v
  end.

(** [json.loads] is the library's; the development takes it as given.
    [None] stands for the [ValueError] it raises on text that is not JSON. *)
Class JsonDecoder : Type := json_loads : string → option pyval.

(** * [utils/llm_services.py]: class [FreeLLMService] *)

Module FreeLLMService.

(** The dict that [_extract_email_content] builds. *)
Record content : Type := Content {
  sender : string;
  subject : string;
  body : string;
  full_text : string
}.

(** The patterns of the class, piece by piece as they are written. *)

Definition is_terminator (c : ascii) : bool :=
  chr_eqb c "."%char || chr_eqb c "!"%char || chr_eqb c "?"%char.
Definition not_terminator (c : ascii) : bool := negb (is_terminator c).
Definition not_nl_terminator (c : ascii) : bool :=
  negb (chr_eqb c nl_char || is_terminator c).

(** The class of the bullet pattern holds the dash, the star and the three
    characters U+00E2, U+20AC and U+00A2; the second has no 8-bit code. *)
Definition is_bullet (c : ascii) : bool :=
  chr_eqb c "-"%char || (code c =? 226)%N || (code c =? 162)%N
  || chr_eqb c "*"%char.

(** [r'FROM:\s*([^\n]+)'], [re.IGNORECASE] *)
Definition from_re : regex :=
  cat [ilit "FROM:"; star is_space; Grp (plus not_nl)].
(** [r'SUBJECT:\s*([^\n]+)'], [re.IGNORECASE] *)
Definition subject_re : regex :=
  cat [ilit "SUBJECT:"; star is_space; Grp (plus not_nl)].
(** [r'BODY:\s*(.+)'], [re.DOTALL | re.IGNORECASE] *)
Definition body_re : regex :=
  cat [ilit "BODY:"; star is_space; Grp (plus any_char)].

(** [r'please\s+([^.!?]+[.!?])'], [re.IGNORECASE] *)
Definition please_re : regex :=
  cat [ilit "please"; plus is_space;
       Grp (cat [plus not_terminator; Chr is_terminator])].
(** [r'(?:need to|should|must)\s+([^.!?]+[.!?])'], [re.IGNORECASE] *)
Definition need_re : regex :=
  cat [Alt (ilit "need to") (Alt (ilit "should") (ilit "must"));
       plus is_space;
       Grp (cat [plus not_terminator; Chr is_terminator])].
(** [r'[-...*]\s*([^\n.!?]+[.!?])'] *)
Definition bullet_re : regex :=
  cat [Chr is_bullet; star is_space;
       Grp (cat [plus not_nl_terminator; Chr is_terminator])].

(** [\w+\s+\d{1,2}] *)
Definition word_day : regex :=
  cat [plus is_word; plus is_space; Rep is_digit 1 (Some 2)].

(** The patterns of [_extract_deadline], in the order of the list; all
    are searched with [re.IGNORECASE]. *)
Definition deadline_patterns : list regex :=
  [ cat [ilit "by"; plus is_space; Grp word_day];
    cat [ilit "due"; plus is_space; Grp word_day];
    cat [ilit "deadline"; plus is_space; Grp word_day];
    ilit "tomorrow";
    cat [ilit "next"; plus is_space; plus is_word];
    cat [ilit "this"; plus is_space; plus is_word];
    cat [ilit "by"; plus is_space; ilit "EOD"];
    cat [ilit "by"; plus is_space; ilit "end"; plus is_space; ilit "of";
         plus is_space; ilit "day"] ].

(** [_extract_email_content] *)
Definition _extract_email_content (prompt : string) : content :=
  let sender :=
    match re_search from_re prompt with
    | Some m => str_strip (group_one m)
    | None => ""
    end in
  let subject :=
    match re_search subject_re prompt with
    | Some m => str_strip (group_one m)
    | None => ""
    end in
  let body :=
    match re_search body_re prompt with
    | Some m => str_strip (group_one m)
    | None => prompt
    end in
  {| sender := sender; subject := subject; body := body; full_text := prompt |}.

(** [_categorize_email] *)
Definition urgent_words : list string :=
  ["urgent"; "asap"; "immediately"; "deadline"; "important"; "critical"].
Definition action_words : list string :=
  ["please"; "need"; "request"; "action required"; "todo"; "task";
   "required"; "must"].
Definition newsletter_words : list string :=
  ["newsletter"; "digest"; "weekly update"; "monthly report"; "subscription"].
Definition spam_words : list string :=
  ["promotion"; "special offer"; "discount"; "buy now"; "limited time";
   "click here"].

Definition _categorize_email (email : content) : string :=
  let text := str_lower (subject email ++ " " ++ body email) in
  let sender := str_lower (sender email) in
  if any_in urgent_words text then "Important"
  else if any_in action_words text then "To-Do"
  else if any_in newsletter_words text then "Newsletter"
  else if any_in spam_words text then "Spam"
  else if any_in ["@company.com"; "@corp.com"; "manager"; "hr@"] sender
  then "Important"
  else if any_in ["newsletter@"; "digest@"; "updates@"] sender
  then "Newsletter"
  else "Important".

(** [_clean_task_text] *)
Definition _clean_task_text (text : string) : string :=
  match str_strip text with
  | String c rest => if is_lower c then String (upper_char c) rest
                     else String c rest
  | "" => ""
  end.

(** [_determine_priority] *)
Definition _determine_priority (text : string) : string :=
  let text_lower := str_lower text in
  if any_in ["urgent"; "asap"; "immediately"; "critical"] text_lower then "high"
  else if any_in ["when possible"; "at your convenience"; "no rush"] text_lower
  then "low"
  else "medium".

(** [_extract_deadline]: the first pattern that is found decides; its
    group when it has one, the whole match otherwise. *)
Fixpoint first_deadline (patterns : list regex) (text : string) : string :=
  match patterns with
  | [] => ""
  | pattern :: rest =>
      match re_search pattern text with
      | Some m =>
          str_title (match group1 m with
                     | Some g => g
                     | None => group0 m
                     end)
      | None => first_deadline rest text
      end
  end.

Definition _extract_deadline (text : string) : string :=
  first_deadline deadline_patterns text.

(** A task record, with its keys in the order they are written. *)
Definition task (text priority deadline : string) : pyval :=
  PDict [("task", PStr text); ("priority", PStr priority);
         ("deadline", PStr deadline)].

Definition please_matches (text : string) : list string :=
  re_findall please_re text.
Definition need_matches (text : string) : list string :=
  re_findall need_re text.
Definition bullet_matches (text : string) : list string :=
  re_findall bullet_re text.

(** The three loops of [_extract_actions], each with what it appends to
    [tasks]. *)
Definition please_tasks (text : string) : list pyval :=
  map (fun m => task (_clean_task_text m) (_determine_priority text)
                     (_extract_deadline text)) (please_matches text).
Definition need_tasks (text : string) : list pyval :=
  map (fun m => task (_clean_task_text m) (_determine_priority text)
                     (_extract_deadline text)) (need_matches text).
Definition bullet_tasks (text : string) : list pyval :=
  map (fun m => task (_clean_task_text m) "medium" "") (bullet_matches text).

(** The list [tasks] after the three loops. *)
Definition sweep_tasks (text : string) : list pyval :=
  please_tasks text ++ need_tasks text ++ bullet_tasks text.

Definition fallback_task : pyval :=
  task "Review this email for important information" "medium" "".

(** The list [tasks[:3]] that [_extract_actions] serialises. *)
Definition extracted_tasks (text : string) : list pyval :=
  let tasks := sweep_tasks text in
  let tasks := match tasks with [] => [fallback_task] | _ => tasks end in
  take 3 tasks.

(** [_extract_actions] *)
Definition _extract_actions (email : content) : string :=
  json_dumps (PDict [("tasks", PList (extracted_tasks (body email)))]).

(** [_summarize_email] *)
Definition key_phrases (body : string) : list string :=
  let b := str_lower body in
  (if any_in ["meeting"; "call"; "discuss"; "schedule"] b
   then ["scheduling or discussion"] else [])
  ++ (if any_in ["report"; "document"; "review"; "submit"] b
      then ["document review or submission"] else [])
  ++ (if any_in ["project"; "task"; "assignment"; "work"] b
      then ["project work or tasks"] else [])
  ++ (if any_in ["question"; "query"; "advice"; "help"] b
      then ["questions or advice needed"] else []).

Definition _summarize_email (email : content) : string :=
  let phrases := key_phrases (body email) in
  let summary :=
    match phrases with
    | [] => "This email '" ++ subject email ++ "' requires your attention. "
    | _ => "This email about '" ++ subject email ++ "' involves "
             ++ str_join ", " phrases ++ ". "
    end in
  if any_in ["urgent"; "asap"; "immediately"] (str_lower (body email))
  then summary ++ "It appears to be time-sensitive and should be addressed promptly."
  else summary ++ "Please review it when you have time.".

(** [_draft_reply] *)
Definition scheduling_reply : string :=
  "Thank you for reaching out about scheduling. " ++ nl ++ nl
  ++ "I'd be happy to connect. Please let me know what times work best for you next week."
  ++ nl ++ nl ++ "Looking forward to our discussion.".
Definition question_reply : string :=
  "Thank you for your question." ++ nl ++ nl
  ++ "I'll look into this and get back to you with more information shortly."
  ++ nl ++ nl ++ "Best regards".
Definition urgent_reply : string :=
  "Thank you for your urgent message." ++ nl ++ nl
  ++ "I've received this and will prioritize reviewing it. I'll follow up with you soon."
  ++ nl ++ nl ++ "Best regards".
Definition generic_reply : string :=
  "Thank you for your email." ++ nl ++ nl
  ++ "I have received your message and will review it shortly. I'll get back to you with a proper response."
  ++ nl ++ nl ++ "Best regards".

Definition _draft_reply (email : content) : string :=
  let b := str_lower (body email) in
  if any_in ["meeting"; "schedule"; "call"] b then scheduling_reply
  else if any_in ["question"; "help"; "advice"] b then question_reply
  else if any_in ["urgent"; "asap"; "immediately"] b then urgent_reply
  else generic_reply.

(** [_smart_pattern_matcher] *)
Definition _smart_pattern_matcher (prompt : string) : string :=
  let prompt_lower := str_lower prompt in
  let email_content := _extract_email_content prompt in
  if str_in "categorize" prompt_lower then _categorize_email email_content
  else if str_in "extract" prompt_lower && str_in "action" prompt_lower
  then _extract_actions email_content
  else if str_in "summarize" prompt_lower then _summarize_email email_content
  else if str_in "reply" prompt_lower || str_in "draft" prompt_lower
  then _draft_reply email_content
  else "I've processed your email request successfully.".

(** [generate_response]; [max_length] is not used. *)
Definition generate_response (prompt : string) : string :=
  _smart_pattern_matcher prompt.

End FreeLLMService.

(** * Effects: exceptions, the prompts file and the session

    [data/prompts.json] and [st.session_state.prompts] are the only state
    the modelled classes share.  [st.error] is kept as a list of reports;
    [st.success] only draws a banner and is left out. *)

Inductive exn : Type :=
| AttributeError (name : string)
| TypeError
| IndexError
| ValueError
| OSError.

Record world : Type := World {
  prompts_file : option string;     (* the text of the file, if it exists *)
  disk_writable : bool;             (* whether the file can be opened for writing *)
  session_prompts : option pyval;   (* [st.session_state.prompts], if set *)
  reported : list (string * exn)    (* the calls of [st.error] *)
}.

Definition set_session_prompts (p : pyval) (w : world) : world :=
  {| prompts_file := prompts_file w; disk_writable := disk_writable w;
     session_prompts := Some p; reported := reported w |}.

Definition write_prompts_file (text : string) (w : world) : world :=
  {| prompts_file := Some text; disk_writable := disk_writable w;
     session_prompts := session_prompts w; reported := reported w |}.

Definition st_error (what : string) (e : exn) (w : world) : world :=
  {| prompts_file := prompts_file w; disk_writable := disk_writable w;
     session_prompts := session_prompts w;
     reported := reported w ++ [(what, e)] |}.

(** A computation over a state [S] that returns or raises. *)
Definition M (S A : Type) : Type := S → (exn + A) * S.

Definition ret {S A : Type} (a : A) : M S A := fun s => (inr a, s).
Definition raise {S A : Type} (e : exn) : M S A := fun s => (inl e, s).
Definition bind {S A B : Type} (m : M S A) (k : A → M S B) : M S B :=
  fun s =>
    match m s with
    | (inr a, s') => k a s'
    | (inl e, s') => (inl e, s')
    end.
Definition modify {S : Type} (f : S → S) : M S unit := fun s => (inr tt, f s).
Definition get_state {S : Type} : M S S := fun s => (inr s, s).

Notation "'do' x <- m ; k" := (bind m (fun x => k))
  (at level 10, x name, m at level 100, k at level 200).
Notation "m ;; k" := (bind m (fun _ => k))
  (at level 100, k at level 200, right associativity).

(** * [utils/prompt_manager.py]: class [PromptManager] *)

Module PromptManager.
Section WithJson.
Context `{JsonDecoder}.

Definition default_prompts : pyval :=
  PDict
    [("categorization",
      PStr "Categorize this email into one of these categories: Important, Newsletter, Spam, To-Do. To-Do emails must include a direct request requiring user action. Respond with only the category name.");
     ("action_extraction",
      PStr "Extract actionable tasks from this email. Look for requests, deadlines, and required actions. Respond in JSON format with tasks array containing task, deadline, and priority.");
     ("summarization",
      PStr "Provide a concise 2-3 sentence summary of this email focusing on the main purpose and key points. Highlight any required actions or decisions.");
     ("auto_reply",
      PStr "Draft a polite and professional email reply. Keep it brief (3-4 sentences max), address the main points, and maintain a helpful tone. Do not make promises you can't keep.")].

(** [_ensure_prompts_file]: nothing guards this write, a failure is
    raised to the caller. *)
Definition _ensure_prompts_file : M world unit := fun w =>
  match prompts_file w with
  | Some _ => (inr tt, w)
  | None =>
      if disk_writable w
      then (inr tt, write_prompts_file (json_dumps_indent 0 default_prompts) w)
      else (inl OSError, w)
  end.

(** [load_prompts] *)
Definition load_prompts : M world pyval := fun w =>
  match prompts_file w with
  | Some text =>
      match json_loads text with
      | Some prompts => (inr prompts, set_session_prompts prompts w)
      | None => (inr (PDict []), st_error "Error loading prompts" ValueError w)
      end
  | None => (inr (PDict []), st_error "Error loading prompts" OSError w)
  end.

(** [save_prompts] *)
Definition save_prompts (prompts : pyval) : M world unit := fun w =>
  if disk_writable w
  then (inr tt,
        set_session_prompts prompts
          (write_prompts_file (json_dumps_indent 0 prompts) w))
  else (inr tt, st_error "Error saving prompts" OSError w).

(** [st.session_state.get('prompts', self.load_prompts())]: the default
    is evaluated before the lookup, so the file is read on every call. *)
Definition current_prompts : M world pyval :=
  do loaded <- load_prompts;
  do w <- get_state;
  ret (default loaded (session_prompts w)).

(** [get_prompt] *)
Definition get_prompt (prompt_type : string) : M world pyval :=
  do prompts <- current_prompts;
  match prompts with
  | PDict kvs => ret (default (PStr "") (dict_get kvs prompt_type))
  | _ => raise (AttributeError "get")
  end.

(** [get_all_prompts] *)
Definition get_all_prompts : M world pyval := current_prompts.

(** [reset_to_defaults] *)
Definition reset_to_defaults : M world unit := save_prompts default_prompts.

(** [__init__] *)
Definition init : M world unit :=
  _ensure_prompts_file ;; do _ <- load_prompts; ret tt.

End WithJson.
End PromptManager.

(** * Emails

    An email is a dict with the keys of the mock inbox; [category],
    [actions] and [summary] are the keys the program adds or rewrites. *)

Inductive category_field : Type :=
| NoCategory                (* the key is absent *)
| CategoryNone              (* [None], as the mock inbox has it *)
| Category (c : string).

Record email_record : Type := Email {
  email_id : Z;
  email_sender : string;
  email_subject : string;
  email_body : string;
  email_timestamp : string;
  email_read : bool;
  email_category : category_field;
  email_actions : option pyval;     (* [None]: the key is absent *)
  email_summary : option string
}.

Definition set_category (c : string) (e : email_record) : email_record :=
  {| email_id := email_id e; email_sender := email_sender e;
     email_subject := email_subject e; email_body := email_body e;
     email_timestamp := email_timestamp e; email_read := email_read e;
     email_category := Category c; email_actions := email_actions e;
     email_summary := email_summary e |}.

Definition set_actions (a : pyval) (e : email_record) : email_record :=
  {| email_id := email_id e; email_sender := email_sender e;
     email_subject := email_subject e; email_body := email_body e;
     email_timestamp := email_timestamp e; email_read := email_read e;
     email_category := email_category e; email_actions := Some a;
     email_summary := email_summary e |}.

Definition set_summary (s : string) (e : email_record) : email_record :=
  {| email_id := email_id e; email_sender := email_sender e;
     email_subject := email_subject e; email_body := email_body e;
     email_timestamp := email_timestamp e; email_read := email_read e;
     email_category := email_category e; email_actions := email_actions e;
     email_summary := Some s |}.

(** * [utils/email_processor.py]: class [EmailProcessor] *)

Module EmailProcessor.
Section WithJson.
Context `{JsonDecoder}.

Definition indent8 : string := "        ".

(** [_clean_category_response] *)
Definition valid_categories : list string :=
  ["Important"; "Newsletter"; "Spam"; "To-Do"].

Definition _clean_category_response (response : string) : string :=
  let response_lower := str_lower response in
  match filter (fun category => str_in (str_lower category) response_lower = true)
               valid_categories with
  | category :: _ => category
  | [] =>
      if any_in ["urgent"; "important"; "critical"] response_lower
      then "Important"
      else if any_in ["newsletter"; "digest"; "update"] response_lower
      then "Newsletter"
      else if any_in ["task"; "action"; "todo"; "to-do"; "please"] response_lower
      then "To-Do"
      else "Important"
  end.

(** [_categorize_email] *)
Definition categorize_context (email : email_record) : string :=
  nl ++ indent8 ++ "EMAIL DETAILS:" ++ nl
  ++ indent8 ++ "From: " ++ email_sender email ++ nl
  ++ indent8 ++ "Subject: " ++ email_subject email ++ nl
  ++ indent8 ++ "Body: " ++ email_body email ++ nl
  ++ indent8.

Definition _categorize_email (email : email_record) : M world string :=
  do categorization_prompt <- PromptManager.get_prompt "categorization";
  let full_prompt :=
    py_str categorization_prompt ++ nl ++ nl ++ categorize_context email in
  let response := FreeLLMService.generate_response full_prompt in
  ret (_clean_category_response response).

(** [_extract_actions_from_text] *)

(** [\w+ \d{1,2}] *)
Definition word_day : regex :=
  cat [plus is_word; chr " "%char; Rep is_digit 1 (Some 2)].

Definition text_deadline_patterns : list regex :=
  [ cat [lit "by "; Grp word_day];
    cat [lit "due "; Grp word_day];
    cat [lit "deadline "; Grp word_day];
    lit "tomorrow";
    cat [lit "next "; plus is_word] ].

(** Whether a pattern has a group, that is, whether [m.group(1)] exists. *)
Fixpoint has_group (r : regex) : bool :=
  match r with
  | Grp _ => true
  | Cat r1 r2 | Alt r1 r2 => has_group r1 || has_group r2
  | _ => false
  end.

(** The loop over the deadline patterns: the deadline it stores, or
    [None] when no pattern is found; [m.group(1)] raises on a pattern
    that has no group. *)
Fixpoint text_deadline (patterns : list regex) (line_lower : string)
    : exn + option string :=
  match patterns with
  | [] => inr None
  | pattern :: rest =>
      match re_search pattern line_lower with
      | Some m =>
          if has_group pattern then inr (Some (str_title (group_one m)))
          else inl IndexError
      | None => text_deadline rest line_lower
      end
  end.

(** The body of the loop for one line: nothing for a line that is
    skipped, an action otherwise. *)
Definition line_action (line : string) : exn + option pyval :=
  let line := str_strip line in
  if (String.length line <? 10)%nat then inr None
  else
    let low := str_lower line in
    if any_in ["task"; "action"; "need to"; "please"; "review"; "prepare"] low
    then
      let priority :=
        if any_in ["urgent"; "asap"; "immediately"] low then "high"
        else if any_in ["when possible"; "at your convenience"] low then "low"
        else "medium" in
      match text_deadline text_deadline_patterns low with
      | inl e => inl e
      | inr d => inr (Some (FreeLLMService.task line priority (default "" d)))
      end
    else inr None.

Fixpoint line_actions (lines : list string) : exn + list pyval :=
  match lines with
  | [] => inr []
  | line :: rest =>
      match line_action line with
      | inl e => inl e
      | inr a =>
          match line_actions rest with
          | inl e => inl e
          | inr acts => inr (option_list a ++ acts)%list
          end
      end
  end.

Definition _extract_actions_from_text (text : string) : exn + pyval :=
  match line_actions (split_lines text) with
  | inl e => inl e
  | inr [] => inr (PList [FreeLLMService.task "Review this email" "medium" ""])
  | inr actions => inr (PList actions)
  end.

(** [_parse_actions_response] *)

(** [r'\{.*\}'], [re.DOTALL] *)
Definition json_object_re : regex :=
  cat [chr "{"%char; star any_char; chr "}"%char].

Definition is_tasks_str (v : pyval) : bool :=
  match v with
  | PStr s => String.eqb s "tasks"
  | _ => false
  end.

(** The three tests on the decoded [data]: what the [try] block returns,
    or [None] when it falls through or an exception is swallowed. *)
Definition tasks_of_data (data : pyval) : option pyval :=
  match data with
  | PDict kvs =>
      match dict_get kvs "tasks" with
      | Some tasks => Some tasks
      | None => Some (PList [data])
      end
  | PList l =>
      if existsb is_tasks_str l then None   (* [data['tasks']]: TypeError *)
      else Some data
  | PStr _ => None      (* TypeError on the index, or no branch taken *)
  | _ => None           (* ['tasks' in data]: TypeError *)
  end.

Definition parsed_json (response : string) : option pyval :=
  if str_in "{" response && str_in "}" response then
    match re_search json_object_re response with
    | Some json_match =>
        match json_loads (group0 json_match) with
        | Some data => tasks_of_data data
        | None => None
        end
    | None => None
    end
  else None.

Definition _parse_actions_response (response : string) : exn + pyval :=
  match parsed_json response with
  | Some actions => inr actions
  | None => _extract_actions_from_text response
  end.

Definition lift {S A : Type} (r : exn + A) : M S A := fun s => (r, s).

(** [extract_actions] *)
Definition extract_context (email : email_record) : string :=
  nl ++ indent8 ++ "EMAIL CONTENT:" ++ nl
  ++ indent8 ++ email_body email ++ nl
  ++ indent8.

Definition extract_actions (email : email_record) : M world pyval :=
  do action_prompt <- PromptManager.get_prompt "action_extraction";
  let full_prompt :=
    py_str action_prompt ++ nl ++ nl ++ extract_context email in
  let response := FreeLLMService.generate_response full_prompt in
  lift (_parse_actions_response response).

(** [summarize_email] *)
Definition summarize_context (email : email_record) : string :=
  nl ++ indent8 ++ "FROM: " ++ email_sender email ++ nl
  ++ indent8 ++ "SUBJECT: " ++ email_subject email ++ nl
  ++ indent8 ++ "BODY: " ++ email_body email ++ nl
  ++ indent8.

Definition summarize_email (email : email_record) : M world string :=
  do summary_prompt <- PromptManager.get_prompt "summarization";
  let full_prompt :=
    py_str summary_prompt ++ nl ++ nl ++ summarize_context email in
  ret (str_strip (FreeLLMService.generate_response full_prompt)).

(** [draft_reply] *)
Definition reply_context (email : email_record) : string :=
  nl ++ indent8 ++ "ORIGINAL EMAIL:" ++ nl
  ++ indent8 ++ "From: " ++ email_sender email ++ nl
  ++ indent8 ++ "Subject: " ++ email_subject email ++ nl
  ++ indent8 ++ "Body: " ++ email_body email ++ nl
  ++ indent8.

Definition draft_reply (email : email_record) : M world string :=
  do reply_prompt <- PromptManager.get_prompt "auto_reply";
  let full_prompt :=
    py_str reply_prompt ++ nl ++ nl ++ reply_context email in
  ret (str_strip (FreeLLMService.generate_response full_prompt)).

(** [process_single_email] *)

(** The class defines [extract_actions] and [summarize_email]; the names
    [_extract_actions] and [_summarize_email] that [process_single_email]
    calls are attributes neither of the instance nor of the class, so
    looking them up raises. *)
Definition self__extract_actions (email : email_record) : M world pyval :=
  raise (AttributeError "_extract_actions").
Definition self__summarize_email (email : email_record) : M world string :=
  raise (AttributeError "_summarize_email").

(** The [try] block mutates the email as it goes, so the email is part
    of the state it runs on. *)
Definition on_email {A : Type} (f : email_record → M world A) : M (world * email_record) A :=
  fun s =>
    match f (snd s) (fst s) with
    | (r, w') => (r, (w', snd s))
    end.
Definition update_email (f : email_record → email_record) : M (world * email_record) unit :=
  modify (fun s => (fst s, f (snd s))).

Definition try_block : M (world * email_record) unit :=
  do category <- on_email _categorize_email;
  update_email (set_category category) ;;
  (if String.eqb category "To-Do"
   then do actions <- on_email self__extract_actions;
        update_email (set_actions actions)
   else update_email (set_actions (PList []))) ;;
  do summary <- on_email self__summarize_email;
  update_email (set_summary summary).

(** The email that the [except] branch returns. *)
Definition failed (email : email_record) : email_record :=
  set_summary "Failed to process email"
    (set_actions (PList []) (set_category "Error" email)).

Definition process_single_email (email : email_record) : M world email_record :=
  fun w =>
    match try_block (w, email) with
    | (inr _, (w', email')) => (inr email', w')
    | (inl e, (w', email')) =>
        (inr (failed email'), st_error "Error processing email" e w')
    end.

(** [process_batch_emails] *)
Fixpoint process_batch_emails (emails : list email_record) : M world (list email_record) :=
  match emails with
  | [] => ret []
  | email :: rest =>
      do processed_email <- process_single_email email;
      do processed_emails <- process_batch_emails rest;
      ret (processed_email :: processed_emails)
  end.

(** [get_email_stats] *)
Definition initial_stats (emails : list email_record) : gmap string nat :=
  <["total" := length emails]>
    (<["important" := 0]> (<["newsletter" := 0]> (<["spam" := 0]>
      (<["todo" := 0]> (<["unprocessed" := 0]> ∅))))).

(** [stats[key] += 1] for a key of [stats] *)
Definition increment (key : string) (stats : gmap string nat) : gmap string nat :=
  <[key := S (default 0 (stats !! key))]> stats.

(** One turn of the loop.  [email.get('category', 'unprocessed')] is the
    string ['unprocessed'] for an email without the key; [None] is a key
    of no dict of strings. *)
Definition count_email (stats : gmap string nat) (email : email_record) : gmap string nat :=
  let category :=
    match email_category email with
    | NoCategory => Some "unprocessed"
    | CategoryNone => None
    | Category c => Some c
    end in
  match category with
  | Some c =>
      match stats !! c with
      | Some _ => increment c stats
      | None => increment "unprocessed" stats
      end
  | None => increment "unprocessed" stats
  end.

Definition get_email_stats (emails : list email_record) : gmap string nat :=
  foldl count_email (initial_stats emails) emails.

End WithJson.
End EmailProcessor.

(** * [utils/data_loader.py]: class [MockDataLoader] *)

Module MockDataLoader.

Definition mock_email (id : Z) (sender subject body timestamp : string)
    (read : bool) : email_record :=
  {| email_id := id; email_sender := sender; email_subject := subject;
     email_body := body; email_timestamp := timestamp; email_read := read;
     email_category := CategoryNone; email_actions := None;
     email_summary := None |}.

(** [_generate_mock_emails] *)
Definition _generate_mock_emails : list email_record :=
  [ mock_email 1 "project.manager@company.com"
      "Weekly Project Update - Urgent Review Needed"
      "Hi team, we need to review the Q4 deliverables by tomorrow. Please prepare your status reports and be ready to discuss blockers. The meeting is scheduled for 10 AM tomorrow."
      "2024-01-15 09:30:00" false;
    mock_email 2 "newsletter@technews.com"
      "Weekly Tech Digest: AI Innovations"
      "This week in AI: New breakthroughs in language models, industry updates, and more. Read about the latest developments in machine learning and artificial intelligence."
      "2024-01-15 08:15:00" true;
    mock_email 3 "hr@company.com"
      "Benefits Enrollment Reminder"
      "Reminder: Open enrollment for health benefits ends this Friday. Please complete your selections in the portal."
      "2024-01-14 14:20:00" false;
    mock_email 4 "meeting.request@partner.com"
      "Meeting Request: Project Collaboration"
      "Would you be available for a 30-minute call next Tuesday to discuss potential collaboration? Please let me know what time works best for you."
      "2024-01-14 11:45:00" false;
    mock_email 5 "noreply@system.com"
      "Your weekly system report"
      "System generated report for the week. No action needed."
      "2024-01-14 10:00:00" true ].

(** The instance: its one attribute. *)
Record loader : Type := Loader { mock_emails : list email_record }.

(** [__init__] *)
Definition init : loader := {| mock_emails := _generate_mock_emails |}.

(** [load_emails] *)
Definition load_emails (self : loader) : list email_record := mock_emails self.

(** The loop of [get_email_by_id] over the emails still to visit. *)
Fixpoint first_with_id (emails : list email_record) (wanted_id : Z)
    : option email_record :=
  match emails with
  | [] => None
  | email :: rest =>
      if (email_id email =? wanted_id)%Z then Some email
      else first_with_id rest wanted_id
  end.

(** [get_email_by_id]; [None] is Python's [None]. *)
Definition get_email_by_id (self : loader) (wanted_id : Z) : option email_record :=
  first_with_id (mock_emails self) wanted_id.

End MockDataLoader.

(** * [pages/_Email_Agent.py]: the query handlers *)

Module EmailAgent.
Section WithJson.
Context `{JsonDecoder}.

(** The handlers that [process_agent_query] chooses between. *)
Inductive handler : Type :=
| SummaryQuery | ActionQuery | ReplyQuery | UrgentQuery | InboxQuery
| SearchQuery | GeneralQuery.

(** The dispatch of [process_agent_query]: the first test that holds
    decides.  [selected] tells whether an email is selected. *)
Definition process_agent_query_handler (query : string) (selected : bool)
    : handler :=
  let query_lower := str_lower query in
  if selected && any_in ["summarize"; "summary"; "overview"] query_lower
  then SummaryQuery
  else if selected && any_in ["task"; "action"; "todo"; "do"] query_lower
  then ActionQuery
  else if selected && any_in ["reply"; "respond"; "draft"] query_lower
  then ReplyQuery
  else if any_in ["urgent"; "important"; "priority"] query_lower
  then UrgentQuery
  else if any_in ["all"; "inbox"; "emails"] query_lower then InboxQuery
  else if any_in ["find"; "search"; "look for"] query_lower then SearchQuery
  else GeneralQuery.

(** What [for i, action in enumerate(actions, 1)] visits. *)
Fixpoint chars_of (s : string) : list pyval :=
  match s with
  | "" => []
  | String c s' => PStr (String c "") :: chars_of s'
  end.

Definition iterate (v : pyval) : exn + list pyval :=
  match v with
  | PList l => inr l
  | PDict kvs => inr (map (fun kv => PStr (fst kv)) kvs)
  | PStr s => inr (chars_of s)
  | _ => inl TypeError
  end.

(** The text that the loop adds for the action numbered [i]. *)
Definition action_line (i : nat) (action : pyval) : exn + string :=
  match action with
  | PDict kvs =>
      let head :=
        pretty i ++ ". **" ++ py_str (default (PStr "Task") (dict_get kvs "task"))
        ++ "**" in
      let deadline :=
        match dict_get kvs "deadline" with
        | Some d => if truthy d then " - Deadline: " ++ py_str d else ""
        | None => ""
        end in
      match dict_get kvs "priority" with
      | Some p =>
          if truthy p then
            match p with
            | PStr s =>
                inr (head ++ " - Priority: " ++ str_upper s ++ deadline ++ nl)
            | _ => inl (AttributeError "upper")
            end
          else inr (head ++ deadline ++ nl)
      | None => inr (head ++ deadline ++ nl)
      end
  | _ => inl (AttributeError "get")
  end.

Fixpoint action_lines (i : nat) (actions : list pyval) : exn + string :=
  match actions with
  | [] => inr ""
  | action :: rest =>
      match action_line i action with
      | inl e => inl e
      | inr line =>
          match action_lines (S i) rest with
          | inl e => inl e
          | inr lines => inr (line ++ lines)
          end
      end
  end.

(** The second half of [process_action_query]: the response for the
    actions in hand. *)
Definition render_actions (subject : string) (actions : pyval) : exn + string :=
  if truthy actions then
    match iterate actions with
    | inl e => inl e
    | inr items =>
        match action_lines 1 items with
        | inl e => inl e
        | inr lines =>
            inr ("**Actions from '" ++ subject ++ "':**" ++ nl ++ nl ++ lines)
        end
    end
  else inr ("No specific actions found in '" ++ subject
            ++ "'. This email may be informational only.").

(** The state a handler runs on: the world, the selected email, which
    the handler mutates, and, as bookkeeping of the model only, how many
    times [processor.extract_actions] has been called. *)
Record page : Type := Page {
  page_world : world;
  selected_email : email_record;
  extractor_calls : nat
}.

Definition call_extract_actions : M page pyval :=
  fun s =>
    match EmailProcessor.extract_actions (selected_email s) (page_world s) with
    | (r, w') =>
        (r, {| page_world := w'; selected_email := selected_email s;
               extractor_calls := S (extractor_calls s) |})
    end.

(** [email['actions'] = actions] *)
Definition store_actions (actions : pyval) : M page unit :=
  modify (fun s =>
    {| page_world := page_world s;
       selected_email := set_actions actions (selected_email s);
       extractor_calls := extractor_calls s |}).

(** [process_action_query], on the selected email. *)
Definition process_action_query : M page string :=
  do s <- get_state;
  let email := selected_email s in
  do actions <-
    match email_actions email with
    | Some cached =>
        if truthy cached then ret cached
        else do actions <- call_extract_actions;
             store_actions actions ;; ret actions
    | None =>
        do actions <- call_extract_actions;
        store_actions actions ;; ret actions
    end;
  EmailProcessor.lift (render_actions (email_subject email) actions).

(** [process_inbox_query]: the five numbers it writes, in the order of
    its lines, and the advice it adds.  The text around them is not
    modelled. *)
Inductive advice : Type := Prioritize | CleanUpSpam | QuietInbox.

Record overview : Type := Overview {
  shown_total : nat;
  shown_important : nat;
  shown_todo : nat;
  shown_newsletter : nat;
  shown_spam : nat;
  shown_advice : list advice
}.

Definition process_inbox_query (emails : list email_record) : overview :=
  let stats := EmailProcessor.get_email_stats emails in
  let stat key := default 0 (stats !! key) in
  {| shown_total := stat "total";
     shown_important := stat "important";
     shown_todo := stat "todo";
     shown_newsletter := stat "newsletter";
     shown_spam := stat "spam";
     shown_advice :=
       (if (3 <? stat "todo")%nat then [Prioritize] else [])
       ++ (if (5 <? stat "spam")%nat then [CleanUpSpam] else [])
       ++ (if (stat "important" =? 0)%nat && (stat "todo" =? 0)%nat
           then [QuietInbox] else []) |}.

End WithJson.
End EmailAgent.

(** * A decoder for the examples

    A reader of JSON text without fractions and exponents, written here so
    that the statements about [json.loads] can be run on concrete
    documents.  The properties below are stated for any decoder. *)

Module RefJson.

Definition is_ws (c : ascii) : bool :=
  (code c =? 32)%N || (code c =? 10)%N || (code c =? 13)%N || (code c =? 9)%N.

Fixpoint skip_ws (s : string) : string :=
  match s with
  | String c s' => if is_ws c then skip_ws s' else s
  | "" => ""
  end.

Definition hex_value (c : ascii) : option N :=
  if is_digit c then Some (code c - 48)%N
  else if in_range 97 102 c then Some (code c - 87)%N
  else if in_range 65 70 c then Some (code c - 55)%N
  else None.

Definition simple_escape (c : ascii) : option ascii :=
  if chr_eqb c quote_char then Some quote_char
  else if chr_eqb c backslash_char then Some backslash_char
  else if chr_eqb c "/"%char then Some "/"%char
  else if chr_eqb c "b"%char then Some "008"%char
  else if chr_eqb c "f"%char then Some "012"%char
  else if chr_eqb c "n"%char then Some "010"%char
  else if chr_eqb c "r"%char then Some "013"%char
  else if chr_eqb c "t"%char then Some "009"%char
  else None.

Definition cons_char (c : ascii) (r : option (string * string))
    : option (string * string) :=
  match r with
  | Some (s, rest) => Some (String c s, rest)
  | None => None
  end.

(** The characters of a string up to its closing quote. *)
Fixpoint parse_chars (s : string) : option (string * string) :=
  match s with
  | "" => None
  | String c s' =>
      if chr_eqb c quote_char then Some ("", s')
      else if chr_eqb c backslash_char then
        match s' with
        | String e s'' =>
            if chr_eqb e "u"%char then
              match s'' with
              | String h1 (String h2 (String h3 (String h4 s3))) =>
                  match hex_value h1, hex_value h2, hex_value h3, hex_value h4 with
                  | Some a, Some b, Some c3, Some d =>
                      let n := (((a * 16 + b) * 16 + c3) * 16 + d)%N in
                      if (n <? 256)%N then cons_char (ascii_of_N n) (parse_chars s3)
                      else None
                  | _, _, _, _ => None
                  end
              | _ => None
              end
            else
              match simple_escape e with
              | Some x => cons_char x (parse_chars s'')
              | None => None
              end
        | "" => None
        end
      else if (code c <? 32)%N then None
      else cons_char c (parse_chars s')
  end.

Fixpoint digits (acc : Z) (s : string) : Z * string :=
  match s with
  | String c s' =>
      if is_digit c then digits (acc * 10 + Z.of_N (code c - 48)) s'
      else (acc, s)
  | "" => (acc, "")
  end.

Definition starts_number (s : string) : bool :=
  match s with
  | String c _ => is_digit c
  | "" => false
  end.

Definition ends_integer (rest : string) : bool :=
  match rest with
  | String c _ =>
      negb (chr_eqb c "."%char || chr_eqb c "e"%char || chr_eqb c "E"%char)
  | "" => true
  end.

Definition parse_number (s : string) : option (pyval * string) :=
  let '(neg, s1) :=
    match s with
    | String c s' => if chr_eqb c "-"%char then (true, s') else (false, s)
    | "" => (false, s)
    end in
  if starts_number s1 then
    let '(n, rest) := digits 0 s1 in
    if ends_integer rest then Some (PInt (if neg then - n else n)%Z, rest)
    else None
  else None.

Definition parse_literal (s : string) : option (pyval * string) :=
  if starts_with "null" s then Some (PNone, str_drop 4 s)
  else if starts_with "true" s then Some (PBool true, str_drop 4 s)
  else if starts_with "false" s then Some (PBool false, str_drop 5 s)
  else parse_number s.

(** [d[k] = v] on the items of a dict *)
Fixpoint dict_set (k : string) (v : pyval) (kvs : list (string * pyval))
    : list (string * pyval) :=
  match kvs with
  | [] => [(k, v)]
  | (k', v') :: rest =>
      if String.eqb k' k then (k', v) :: rest
      else (k', v') :: dict_set k v rest
  end.

Definition head_is (c : ascii) (s : string) : option string :=
  match s with
  | String x s' => if chr_eqb x c then Some s' else None
  | "" => None
  end.

Fixpoint parse_value (fuel : nat) (s : string) : option (pyval * string) :=
  match fuel with
  | 0 => None
  | S fuel' =>
      let s := skip_ws s in
      match s with
      | "" => None
      | String c s' =>
          if chr_eqb c quote_char then
            match parse_chars s' with
            | Some (str, rest) => Some (PStr str, rest)
            | None => None
            end
          else if chr_eqb c "["%char then
            match head_is "]"%char (skip_ws s') with
            | Some rest => Some (PList [], rest)
            | None =>
                match parse_items fuel' s' with
                | Some (l, rest) => Some (PList l, rest)
                | None => None
                end
            end
          else if chr_eqb c "{"%char then
            match head_is "}"%char (skip_ws s') with
            | Some rest => Some (PDict [], rest)
            | None =>
                match parse_members fuel' s' with
                | Some (kvs, rest) =>
                    Some (PDict (foldl (fun d kv => dict_set (fst kv) (snd kv) d)
                                       [] kvs), rest)
                | None => None
                end
            end
          else parse_literal s
      end
  end
with parse_items (fuel : nat) (s : string) : option (list pyval * string) :=
  match fuel with
  | 0 => None
  | S fuel' =>
      match parse_value fuel' s with
      | Some (v, rest) =>
          let rest := skip_ws rest in
          match head_is ","%char rest with
          | Some rest' =>
              match parse_items fuel' rest' with
              | Some (vs, rest'') => Some (v :: vs, rest'')
              | None => None
              end
          | None =>
              match head_is "]"%char rest with
              | Some rest' => Some ([v], rest')
              | None => None
              end
          end
      | None => None
      end
  end
with parse_members (fuel : nat) (s : string)
    : option (list (string * pyval) * string) :=
  match fuel with
  | 0 => None
  | S fuel' =>
      match head_is quote_char (skip_ws s) with
      | Some s1 =>
          match parse_chars s1 with
          | Some (k, s2) =>
              match head_is ":"%char (skip_ws s2) with
              | Some s3 =>
                  match parse_value fuel' s3 with
                  | Some (v, rest) =>
                      let rest := skip_ws rest in
                      match head_is ","%char rest with
                      | Some rest' =>
                          match parse_members fuel' rest' with
                          | Some (kvs, rest'') => Some ((k, v) :: kvs, rest'')
                          | None => None
                          end
                      | None =>
                          match head_is "}"%char rest with
                          | Some rest' => Some ([(k, v)], rest')
                          | None => None
                          end
                      end
                  | None => None
                  end
              | None => None
              end
          | None => None
          end
      | None => None
      end
  end.

Definition loads (s : string) : option pyval :=
  match parse_value (S (String.length s)) s with
  | Some (v, rest) =>
      match skip_ws rest with
      | "" => Some v
      | _ => None
      end
  | None => None
  end.

Definition decoder : JsonDecoder := loads.

End RefJson.

(** * [utils/prompt_manager.py]: [update_prompt] *)

Module PromptEditing.
Section WithJson.
Context `{JsonDecoder}.

(** [prompts[key] = value]: an item assignment with a string key is for
    dicts only. *)
Definition setitem (prompts : pyval) (key : string) (value : pyval)
    : exn + pyval :=
  match prompts with
  | PDict kvs => inr (PDict (RefJson.dict_set key value kvs))
  | _ => inl TypeError
  end.

(** [update_prompt].  The dict in hand is the object that the session
    holds, when the session holds one: the assignment shows there before
    anything is saved.  With no session copy the dict is the fresh [{}]
    that the failed load returned. *)
Definition update_prompt (prompt_type new_prompt : string) : M world unit :=
  do loaded <- PromptManager.load_prompts;
  do w <- get_state;
  match session_prompts w with
  | Some prompts =>
      match setitem prompts prompt_type (PStr new_prompt) with
      | inr prompts' =>
          modify (set_session_prompts prompts') ;;
          PromptManager.save_prompts prompts'
      | inl e => raise e
      end
  | None =>
      match setitem loaded prompt_type (PStr new_prompt) with
      | inr prompts' => PromptManager.save_prompts prompts'
      | inl e => raise e
      end
  end.

End WithJson.
End PromptEditing.

(** * [pages/_Email_Agent.py]: the queries over the inbox *)

Module AgentQueries.

(** [e.get('category') in ['Important', 'To-Do']] *)
Definition is_urgent (email : email_record) : bool :=
  match email_category email with
  | Category c => String.eqb c "Important" || String.eqb c "To-Do"
  | _ => false
  end.

(** What [process_urgent_query] writes for one email: the subject, the
    sender and, for an email with a summary that is not empty, the first
    hundred characters of it. *)
Record urgent_item : Type := UrgentItem {
  item_subject : string;
  item_sender : string;
  item_summary : option string
}.

Definition urgent_item_of (email : email_record) : urgent_item :=
  {| item_subject := email_subject email;
     item_sender := email_sender email;
     item_summary :=
       match email_summary email with
       | Some summary =>
           if String.eqb summary "" then None else Some (str_take 100 summary)
       | None => None
       end |}.

(** [process_urgent_query]: the emails it lists, or the message that
    there is none.  The text around them is not modelled. *)
Inductive urgent_answer : Type :=
| NoUrgentEmails
| UrgentEmails (shown : list urgent_item).

Definition process_urgent_query (emails : list email_record) : urgent_answer :=
  match filter (fun e => is_urgent e = true) emails with
  | [] => NoUrgentEmails
  | urgent_emails => UrgentEmails (map urgent_item_of (take 8 urgent_emails))
  end.

(** [s.replace(old, '')]: the occurrences of [old] are taken out from
    left to right, each search resuming after the last one; [skip] counts
    the characters of the last occurrence still to step over. *)
Fixpoint remove_from (old : string) (skip : nat) (s : string) : string :=
  match s with
  | "" => ""
  | String c s' =>
      match skip with
      | S k => remove_from old k s'
      | 0 =>
          if starts_with old s
          then remove_from old (String.length old - 1) s'
          else String c (remove_from old 0 s')
      end
  end.

Definition str_remove (old s : string) : string := remove_from old 0 s.

(** [process_search_query]: the search terms and the emails that match. *)
Definition search_terms (query : string) : string :=
  str_strip
    (str_remove "look for"
       (str_remove "search" (str_remove "find" (str_lower query)))).

Definition matches (terms : string) (email : email_record) : bool :=
  str_in terms (str_lower (email_subject email))
  || str_in terms (str_lower (email_body email))
  || str_in terms (str_lower (email_sender email)).

Definition matching_emails (query : string) (emails : list email_record)
    : list email_record :=
  filter (fun e => matches (search_terms query) e = true) emails.

End AgentQueries.

(** * [pages/_Inbox.py]: processing and counting the inbox *)

Module Inbox.
Section WithJson.
Context `{JsonDecoder}.

(** The loop of [process_all_emails]: the emails still to visit, the
    index of the first of them, and the list in the session, in which
    each processed email replaces the one at its index. *)
Fixpoint process_from (i : nat) (to_visit : list email_record)
    (emails : list email_record) : M world (list email_record) :=
  match to_visit with
  | [] => ret emails
  | email :: rest =>
      do processed_email <- EmailProcessor.process_single_email email;
      process_from (S i) rest (<[i := processed_email]> emails)
  end.

Definition process_all_emails (emails : list email_record)
    : M world (list email_record) :=
  process_from 0 emails emails.

(** [e.get('category') == 'To-Do'] *)
Definition is_todo (email : email_record) : bool :=
  match email_category email with
  | Category c => String.eqb c "To-Do"
  | _ => false
  end.

(** [get_email_stats] of the page *)
Record stats : Type := Stats { total : nat; unread : nat; todo : nat }.

Definition get_email_stats (emails_loaded : bool) (emails : list email_record)
    : stats :=
  if negb emails_loaded then {| total := 0; unread := 0; todo := 0 |}
  else
    {| total := length emails;
       unread := length (filter (fun e => email_read e = false) emails);
       todo := length (filter (fun e => is_todo e = true) emails) |}.

End WithJson.
End Inbox.

(** * Worlds and emails for the examples *)

(** A machine on which nothing has run yet: no prompts file, a disk that
    can be written, an empty session. *)
Definition fresh_world : world :=
  {| prompts_file := None; disk_writable := true; session_prompts := None;
     reported := [] |}.

(** The world after a [PromptManager] has been constructed there. *)
Definition default_world : world :=
  snd (PromptManager.init (H := RefJson.decoder) fresh_world).

(** The world after [prompts] has been saved in the default world. *)
Definition world_with (prompts : pyval) : world :=
  snd (PromptManager.save_prompts prompts default_world).

Definition nth_mock_email (n : nat) : email_record :=
  nth n MockDataLoader._generate_mock_emails
      (MockDataLoader.mock_email 0 "" "" "" "" false).

(** A mock email as [process_single_email] leaves it in the default
    world. *)
Definition processed_mock_email (n : nat) : email_record :=
  match fst (EmailProcessor.process_single_email (H := RefJson.decoder)
               (nth_mock_email n) default_world) with
  | inr email => email
  | inl _ => nth_mock_email n
  end.

(** A page in the default world with the given email selected. *)
Definition page_on (email : email_record) : EmailAgent.page :=
  {| EmailAgent.page_world := default_world;
     EmailAgent.selected_email := email;
     EmailAgent.extractor_calls := 0 |}.

(** * Words of the specification *)

(** [word] occurs in [s] in some mix of cases: a piece of [s] is [word] up
    to the case of its letters. *)
Definition occurs_ignoring_case (word s : string) : Prop :=
  ∃ before piece after,
    s = before ++ piece ++ after ∧ str_lower piece = str_lower word.

(** The document that [_extract_actions] serialises. *)
Definition tasks_document (tasks : list pyval) : pyval :=
  PDict [("tasks", PList tasks)].

(** The labels that the program writes into [category]. *)
Definition written_labels : list string :=
  ["Important"; "Newsletter"; "Spam"; "To-Do"; "Error"].

(** What the loop of [get_email_stats] keeps true on an inbox whose
    categories are labels the program writes: the four counters stay at
    zero, and every email goes to "unprocessed". *)
Definition labels_uncounted (n : nat) (stats : gmap string nat) : Prop :=
  stats !! "important" = Some 0 ∧ stats !! "todo" = Some 0
  ∧ stats !! "newsletter" = Some 0 ∧ stats !! "spam" = Some 0
  ∧ stats !! "unprocessed" = Some n
  ∧ ∀ c, c ∈ written_labels → stats !! c = None.

(** A well-formed prompt mapping: a dict whose keys are the four prompt
    types, each once, and whose values are strings. *)
Definition prompt_types : list string :=
  ["categorization"; "action_extraction"; "summarization"; "auto_reply"].

Definition four_key_mapping (prompts : pyval) : Prop :=
  ∃ kvs,
    prompts = PDict kvs
    ∧ NoDup (map fst kvs)
    ∧ (∀ k, k ∈ map fst kvs ↔ k ∈ prompt_types)
    ∧ Forall (fun kv => ∃ text, snd kv = PStr text) kvs.

(** The words that [_smart_pattern_matcher] looks for in a prompt, and the
    labels that [_extract_email_content] looks for. *)
Definition dispatch_words : list string :=
  ["categorize"; "extract"; "action"; "summarize"; "reply"; "draft"].
Definition field_markers : list string := ["from:"; "subject:"; "body:"].

(** Two templates that hold the same dispatch words, in whatever case. *)
Definition same_dispatch_words (t1 t2 : string) : Prop :=
  ∀ word, word ∈ dispatch_words →
    str_in word (str_lower t1) = str_in word (str_lower t2).

(** A template that holds no field label, in whatever case. *)
Definition marker_free (t : string) : Prop :=
  ∀ marker, marker ∈ field_markers → str_in marker (str_lower t) = false.

(** The three operations of the email processor whose email context
    labels the body, each with the prompt it reads. *)
Inductive operation : Type := Categorization | Summarization | AutoReply.

Definition prompt_type_of (op : operation) : string :=
  match op with
  | Categorization => "categorization"
  | Summarization => "summarization"
  | AutoReply => "auto_reply"
  end.

Definition run_operation `{JsonDecoder} (op : operation) (email : email_record)
    : M world string :=
  match op with
  | Categorization => EmailProcessor._categorize_email email
  | Summarization => EmailProcessor.summarize_email email
  | AutoReply => EmailProcessor.draft_reply email
  end.

(** The default prompts with one of them replaced. *)
Definition with_prompt (prompt_type text : string) : pyval :=
  match PromptManager.default_prompts with
  | PDict kvs => PDict (RefJson.dict_set prompt_type (PStr text) kvs)
  | other => other
  end.

(** A categorisation prompt in other words, with the dispatch words of
    the default one and no field label. *)
Definition reworded_categorization : string :=
  "CATEGORIZE the message below. The only action wanted is one word.".

(** The items of a dict of strings, the text [json.dump] writes for one of
    them, and what it writes before each item at the first level. *)
Definition string_items (kvs : list (string * string)) : list (string * pyval) :=
  map (fun kv => (fst kv, PStr (snd kv))) kvs.

Definition member_text (kv : string * string) : string :=
  json_string (fst kv) ++ ": " ++ json_string (snd kv).

Definition inner1 : string := nl ++ "  ".

(** A task record as the extractors build it: the three keys in order,
    with one of the three priorities. *)
Definition is_task_record (v : pyval) : Prop :=
  ∃ text priority deadline,
    v = FreeLLMService.task text priority deadline
    ∧ priority ∈ ["high"; "medium"; "low"].

(** A pattern opens with the word [m], read without regard to case when
    [ci] is set: it matches nowhere but where the text starts with [m]. *)
Definition opens_with (ci : bool) (m : string) (r : regex) : Prop :=
  ∀ (A : Type) (s : string) (pos : nat) (g : option span) (k : @cont A),
    (if ci then starts_with (str_lower m) (str_lower s) else starts_with m s)
    = false →
    rmatch r s pos g k = None.

(** * Words of the further properties *)

(** The keys of the dict that [get_email_stats] returns. *)
Definition stat_keys : list string :=
  ["total"; "important"; "newsletter"; "spam"; "todo"; "unprocessed"].

(** The number that a dict of counts holds under a key. *)
Definition stat (stats : gmap string nat) (key : string) : nat :=
  default 0 (stats !! key).

(** The email as the [except] branch of [process_single_email] writes
    it, field by field. *)
Definition degraded (email : email_record) : email_record :=
  {| email_id := email_id email; email_sender := email_sender email;
     email_subject := email_subject email; email_body := email_body email;
     email_timestamp := email_timestamp email; email_read := email_read email;
     email_category := Category "Error"; email_actions := Some (PList []);
     email_summary := Some "Failed to process email" |}.

(** The dict holds the six keys and no other. *)
Definition six_keys (stats : gmap string nat) : Prop :=
  ∀ k, is_Some (stats !! k) ↔ k ∈ stat_keys.

(** The sum of the six numbers. *)
Definition stat_sum (stats : gmap string nat) : nat :=
  stat stats "total" + stat stats "important" + stat stats "newsletter"
  + stat stats "spam" + stat stats "todo" + stat stats "unprocessed".

(** The task that [_extract_actions_from_text] answers with when no line
    reads as an action. *)
Definition review_task : pyval :=
  FreeLLMService.task "Review this email" "medium" "".

(** A line that the loop of [_extract_actions_from_text] turns into an
    action: ten characters or more once stripped, with one of the six
    keywords. *)
Definition action_line_of (text line : string) : Prop :=
  ∃ raw, raw ∈ split_lines text ∧ line = str_strip raw
         ∧ (10 ≤ String.length line)%nat
         ∧ any_in ["task"; "action"; "need to"; "please"; "review"; "prepare"]
                  (str_lower line) = true.

(** The text of a prompt of the defaults. *)
Definition default_prompt (prompt_type : string) : pyval :=
  match PromptManager.default_prompts with
  | PDict kvs => default (PStr "") (dict_get kvs prompt_type)
  | _ => PStr ""
  end.

(** The same world with a disk that has become read-only. *)
Definition read_only (w : world) : world :=
  {| prompts_file := prompts_file w; disk_writable := false;
     session_prompts := session_prompts w; reported := reported w |}.

(** A text that holds none of the words that [_smart_pattern_matcher]
    needs for a branch, in whatever case: "categorize", "summarize",
    "reply", "draft", and "extract", without which "action" opens none. *)
Definition branch_words : list string :=
  ["categorize"; "extract"; "summarize"; "reply"; "draft"].

Definition opens_no_branch (text : string) : Prop :=
  ∀ word, word ∈ branch_words → str_in word (str_lower text) = false.

(** An email with a request in it, and one that holds the word
    "categorize". *)
Definition filing_request : email_record :=
  MockDataLoader.mock_email 6 "accounts@company.com" "Invoices"
    "Please categorize the invoices and send them to me by Friday."
    "2024-01-16 09:00:00" false.

(** The email context that each operation writes after its prompt. *)
Definition context_of (op : operation) (email : email_record) : string :=
  match op with
  | Categorization => EmailProcessor.categorize_context email
  | Summarization => EmailProcessor.summarize_context email
  | AutoReply => EmailProcessor.reply_context email
  end.

(** A field that fits on one line and is not blank. *)
Definition one_line (s : string) : Prop := str_in nl s = false.
Definition not_blank (s : string) : Prop := str_strip s ≠ "".

(** Whether [q], with whatever follows it, may start with [m]: the two
    agree as far as the shorter goes. *)
Fixpoint may_open (m q : string) : bool :=
  match m, q with
  | String a m', String b q' => chr_eqb a b && may_open m' q'
  | _, _ => true
  end.

(** No place of [p] may start with [m]. *)
Fixpoint no_opening (m p : string) : bool :=
  match p with
  | "" => true
  | String _ p' => negb (may_open m p) && no_opening m p'
  end.

(** A field pattern of [_extract_email_content]: the label, blanks, and
    the group of characters of the class [p]. *)
Definition field_re (label : string) (p : ascii → bool) : regex :=
  cat [ilit label; star is_space; Grp (plus p)].


(** The prompt that an operation builds, with its pieces apart: the
    template, what the context writes before the first label, the three
    labels as they are written, and the three fields. *)
Definition labelled_prompt (template pre lf ls lb sender subject body : string)
    : string :=
  template
  ++ String nl_char
       (pre ++ lf
        ++ String " "
             (sender
              ++ String nl_char
                   (EmailProcessor.indent8 ++ ls
                    ++ String " "
                         (subject
                          ++ String nl_char
                               (EmailProcessor.indent8 ++ lb
                                ++ String " "
                                     (body
                                      ++ String nl_char
                                           EmailProcessor.indent8)))))).

Definition opening_of (op : operation) : string :=
  match op with
  | Categorization =>
      nl ++ nl ++ EmailProcessor.indent8 ++ "EMAIL DETAILS:" ++ nl
      ++ EmailProcessor.indent8
  | Summarization => nl ++ nl ++ EmailProcessor.indent8
  | AutoReply =>
      nl ++ nl ++ EmailProcessor.indent8 ++ "ORIGINAL EMAIL:" ++ nl
      ++ EmailProcessor.indent8
  end.

Definition labels_of (op : operation) : string * string * string :=
  match op with
  | Summarization => ("FROM:", "SUBJECT:", "BODY:")
  | _ => ("From:", "Subject:", "Body:")
  end.

(** An email whose fields can be told apart in a prompt: the sender and
    the subject fit on a line, no field is blank, and no field holds the
    label of a later one. *)
Definition readable (email : email_record) : Prop :=
  one_line (email_sender email) ∧ not_blank (email_sender email)
  ∧ str_in "subject:" (str_lower (email_sender email)) = false
  ∧ str_in "body:" (str_lower (email_sender email)) = false
  ∧ one_line (email_subject email) ∧ not_blank (email_subject email)
  ∧ str_in "body:" (str_lower (email_subject email)) = false
  ∧ not_blank (email_body email).

(** The fields of an email, stripped as [_extract_email_content] stores
    them; [full_text] is read by no matcher. *)
Definition stripped_fields (email : email_record) : FreeLLMService.content :=
  {| FreeLLMService.sender := str_strip (email_sender email);
     FreeLLMService.subject := str_strip (email_subject email);
     FreeLLMService.body := str_strip (email_body email);
     FreeLLMService.full_text := "" |}.

(** * Properties *)

(** ** Strings *)

#[local] Arguments String.append !_ _ / : simpl nomatch.

(** Membership in a list that is written out. *)
Ltac in_list :=
  repeat first [apply list_elem_of_here | apply list_elem_of_further].

(** A property of every element of a list that is written out, each
    settled by evaluation. *)
Ltac each_by_evaluation H :=
  repeat (apply elem_of_cons in H as [->|H]; [vm_compute; reflexivity|]);
  by apply elem_of_nil in H.

Lemma app_empty_r (s : string) : s ++ "" = s.
Proof. induction s as [|c s IH]; [done | simpl; by f_equal]. Qed.

Lemma app_assoc_str (a b c : string) : (a ++ b) ++ c = a ++ (b ++ c).
Proof. induction a as [|x a IH]; [done | simpl; by f_equal]. Qed.

Lemma length_app_str (a b : string) :
  String.length (a ++ b) = String.length a + String.length b.
Proof. induction a as [|x a IH]; [done | simpl; by f_equal]. Qed.

Lemma chr_eqb_refl (c : ascii) : chr_eqb c c = true.
Proof. unfold chr_eqb. apply N.eqb_refl. Qed.

Lemma chr_eqb_eq (a b : ascii) : chr_eqb a b = true ↔ a = b.
Proof.
  unfold chr_eqb, code. rewrite N.eqb_eq. split; [|by intros ->].
  intros E. rewrite <- (ascii_N_embedding a), <- (ascii_N_embedding b).
  by rewrite E.
Qed.

Lemma str_lower_app (a b : string) :
  str_lower (a ++ b) = str_lower a ++ str_lower b.
Proof. induction a as [|x a IH]; [done | simpl; by f_equal]. Qed.

Lemma starts_with_refl_app (w s : string) : starts_with w (w ++ s) = true.
Proof.
  induction w as [|c w IH]; simpl; [done|].
  by rewrite chr_eqb_refl, IH.
Qed.

Lemma starts_with_app_l (w a b : string) :
  starts_with w a = true → starts_with w (a ++ b) = true.
Proof.
  revert a. induction w as [|c w IH]; intros a; [done|].
  destruct a as [|x a]; simpl; [done|].
  rewrite !andb_true_iff. intros [? ?]. auto.
Qed.

Lemma str_in_app_l (w a b : string) :
  str_in w a = true → str_in w (a ++ b) = true.
Proof.
  induction a as [|x a IH]; simpl.
  - rewrite orb_false_r. intros Hw. destruct w; [|done].
    destruct b; done.
  - rewrite !orb_true_iff. intros [Hs|Hi].
    + left. by apply (starts_with_app_l w (String x a) b).
    + right. auto.
Qed.

Lemma str_in_app_r (w a b : string) :
  str_in w b = true → str_in w (a ++ b) = true.
Proof.
  intros Hb. induction a as [|x a IH]; simpl; [done|].
  rewrite IH. apply orb_true_r.
Qed.

Lemma str_in_head (w s : string) :
  starts_with w s = true → str_in w s = true.
Proof. intros Hs. destruct s; simpl; by rewrite Hs. Qed.

Lemma str_in_middle (w a b : string) : str_in w (a ++ w ++ b) = true.
Proof. apply str_in_app_r, str_in_head, starts_with_refl_app. Qed.

(** An occurrence in some mix of cases is an occurrence of the lowered
    word in the lowered text. *)
Lemma occurs_lower (word s : string) :
  occurs_ignoring_case word s → str_in (str_lower word) (str_lower s) = true.
Proof.
  intros (before & piece & after & -> & E).
  rewrite !str_lower_app, E. apply str_in_middle.
Qed.

(** ** The pattern classifier *)

(** C1.  An email whose subject or body has the word "urgent", in any mix
    of cases, is categorised "Important" by the pattern classifier,
    whatever its sender is and whatever other lexicon its text matches. *)
Theorem urgent_is_important (email : FreeLLMService.content) :
  occurs_ignoring_case "urgent" (FreeLLMService.subject email)
  ∨ occurs_ignoring_case "urgent" (FreeLLMService.body email) →
  FreeLLMService._categorize_email email = "Important".
Proof.
  intros Hocc.
  assert (Hin : str_in "urgent"
                  (str_lower (FreeLLMService.subject email ++ " "
                              ++ FreeLLMService.body email)) = true).
  { rewrite !str_lower_app. destruct Hocc as [Hs|Hb].
    - apply str_in_app_l. exact (occurs_lower "urgent" _ Hs).
    - apply str_in_app_r, str_in_app_r. exact (occurs_lower "urgent" _ Hb). }
  unfold FreeLLMService._categorize_email, any_in, FreeLLMService.urgent_words.
  cbn [existsb]. by rewrite Hin.
Qed.

(** A subject that shouts the word, over a body that asks, advertises and
    subscribes at once. *)
Lemma urgent_is_important_witness :
  FreeLLMService._categorize_email
    {| FreeLLMService.sender := "newsletter@shop.example";
       FreeLLMService.subject := "URGENT: special offer";
       FreeLLMService.body := "Please click here to renew your subscription.";
       FreeLLMService.full_text := "" |} = "Important".
Proof.
  apply urgent_is_important. left.
  exists "", "URGENT", ": special offer". split; reflexivity.
Defined.

(** ** The matcher *)

Lemma str_drop_app (a b : string) : str_drop (String.length a) (a ++ b) = b.
Proof. induction a as [|x a IH]; simpl; [by destruct b | done]. Qed.

Lemma str_drop_all (s : string) : str_drop (String.length s) s = "".
Proof. induction s as [|x s IH]; simpl; done. Qed.

Lemma str_take_all (s : string) : str_take (String.length s) s = s.
Proof. induction s as [|x s IH]; simpl; [done | by f_equal]. Qed.

Lemma run_any_char (s : string) : run any_char None s = String.length s.
Proof. induction s as [|x s IH]; simpl; [done | by f_equal]. Qed.

(** A repetition settles on the longest length that the rest of the
    pattern accepts. *)
Lemma backoff_settles {A : Type} (n lo m : nat) s pos g (k : @cont A) a :
  (lo ≤ m ≤ n)%nat →
  k (str_drop m s) (pos + m) g = Some a →
  (∀ j, (m < j ≤ n)%nat → k (str_drop j s) (pos + j) g = None) →
  backoff n lo s pos g k = Some a.
Proof.
  intros [Hlo Hmn] Hm Hlater. induction n as [|n IH].
  - assert (m = 0) as -> by lia. cbn [backoff].
    destruct (Nat.ltb_spec 0 lo); [lia|]. by rewrite Hm.
  - destruct (decide (m = S n)) as [->|Hne].
    + cbn [backoff]. destruct (Nat.ltb_spec (S n) lo); [lia|]. by rewrite Hm.
    + cbn [backoff]. destruct (Nat.ltb_spec (S n) lo); [lia|].
      rewrite (Hlater (S n)) by lia. apply IH; [lia|].
      intros j Hj. apply Hlater. lia.
Qed.

(** When the rest of the pattern accepts no length, the repetition fails. *)
Lemma backoff_fails {A : Type} (n lo : nat) s pos g (k : @cont A) :
  (∀ j, (lo ≤ j ≤ n)%nat → k (str_drop j s) (pos + j) g = None) →
  backoff n lo s pos g k = None.
Proof.
  intros Hnone. induction n as [|n IH]; cbn [backoff].
  - destruct (Nat.ltb_spec 0 lo); [done|]. rewrite Hnone by lia. done.
  - destruct (Nat.ltb_spec (S n) lo); [done|]. rewrite Hnone by lia.
    apply IH. intros j Hj. apply Hnone. lia.
Qed.

(** The pattern for a JSON object takes a text that opens and closes with
    a brace as a whole. *)
Lemma search_braced (mid : string) :
  let s := String "{"%char (mid ++ "}") in
  re_search EmailProcessor.json_object_re s
  = Some {| group0 := s; group1 := None |}.
Proof.
  intros s. unfold s at 1. unfold re_search. fold re_search.
  assert (Hm : match_here EmailProcessor.json_object_re s
               = Some (String.length s, {| group0 := s; group1 := None |})).
  { unfold match_here, EmailProcessor.json_object_re, cat, star, chr. simpl foldr.
    unfold s at 1. cbn [rmatch]. rewrite chr_eqb_refl.
    rewrite run_any_char.
    erewrite (backoff_settles _ 0 (String.length mid)).
    - reflexivity.
    - rewrite length_app_str. lia.
    - rewrite str_drop_app. cbn [rmatch]. rewrite chr_eqb_refl.
      cbn [fmap option_fmap option_map].
      replace (1 + String.length mid) with (String.length mid + 1) by lia.
      replace (S (String.length mid + 1)) with (String.length s).
      + by rewrite str_take_all.
      + unfold s. simpl. rewrite length_app_str. simpl. lia.
    - intros j Hj. rewrite length_app_str in Hj. simpl in Hj.
      assert (j = String.length (mid ++ "}")) as ->
        by (rewrite length_app_str; simpl; lia).
      by rewrite str_drop_all. }
  fold s. by rewrite Hm.
Qed.

(** ** The action extractor *)

Lemma json_dumps_dict_braced (kvs : list (string * pyval)) :
  ∃ mid, json_dumps (PDict kvs) = String "{"%char (mid ++ "}").
Proof. eexists. cbn [json_dumps]. reflexivity. Qed.

(** The response parser gives back the task list of a document that the
    decoder reads as it was written. *)
Lemma parse_tasks_document `{JsonDecoder} (tasks : list pyval) :
  json_loads (json_dumps (tasks_document tasks)) = Some (tasks_document tasks) →
  EmailProcessor._parse_actions_response (json_dumps (tasks_document tasks))
  = inr (PList tasks).
Proof.
  intros Hloads. unfold EmailProcessor._parse_actions_response,
    EmailProcessor.parsed_json.
  destruct (json_dumps_dict_braced [("tasks", PList tasks)]) as [mid Hmid].
  unfold tasks_document in *. rewrite Hmid in *.
  assert (str_in "{" (String "{"%char (mid ++ "}")) = true) as ->
    by (apply str_in_head; reflexivity).
  assert (str_in "}" (String "{"%char (mid ++ "}")) = true) as ->.
  { change (String "{"%char (mid ++ "}")) with ("{" ++ mid ++ "}").
    rewrite <- app_assoc_str, <- (app_empty_r (("{" ++ mid) ++ "}")).
    rewrite app_assoc_str. apply str_in_middle. }
  cbn [andb]. rewrite search_braced. cbn [group0]. rewrite Hloads.
  reflexivity.
Qed.

Lemma length_extracted_tasks (text : string) :
  (length (FreeLLMService.extracted_tasks text) ≤ 3)%nat.
Proof. unfold FreeLLMService.extracted_tasks. rewrite length_take. lia. Qed.

(** C2.  The action extractor answers with a document of at most three
    tasks; they are the first three of the "please" matches followed by
    the "need to / should / must" matches followed by the bullet matches,
    or the one fallback task when no sweep matched.  The response parser
    of the email processor returns that list whenever the decoder reads
    the document back. *)
Theorem at_most_three_tasks_in_sweep_order `{JsonDecoder}
    (email : FreeLLMService.content) :
  let text := FreeLLMService.body email in
  let response := FreeLLMService._extract_actions email in
  ∃ tasks : list pyval,
    response = json_dumps (tasks_document tasks)
    ∧ (length tasks ≤ 3)%nat
    ∧ (tasks = take 3 (FreeLLMService.please_tasks text
                       ++ FreeLLMService.need_tasks text
                       ++ FreeLLMService.bullet_tasks text)
       ∨ (FreeLLMService.please_tasks text = []
          ∧ FreeLLMService.need_tasks text = []
          ∧ FreeLLMService.bullet_tasks text = []
          ∧ tasks = [FreeLLMService.fallback_task]))
    ∧ (json_loads response = Some (tasks_document tasks) →
       EmailProcessor._parse_actions_response response = inr (PList tasks)).
Proof.
  intros text response.
  exists (FreeLLMService.extracted_tasks text).
  split; [reflexivity|]. split; [apply length_extracted_tasks|]. split.
  - unfold FreeLLMService.extracted_tasks, FreeLLMService.sweep_tasks.
    destruct (FreeLLMService.please_tasks text ++ FreeLLMService.need_tasks text
              ++ FreeLLMService.bullet_tasks text)%list eqn:E.
    + right. apply app_eq_nil in E as [-> E]. apply app_eq_nil in E as [-> ->].
      done.
    + by left.
  - intros Hloads. by apply parse_tasks_document.
Qed.

(** Five matches, written bullet first: the two requests come out first,
    then the first obligation; the second obligation and the bullet are
    cut. *)
Lemma sweep_order_on_five_matches :
  FreeLLMService.extracted_tasks
    "- buy milk. You must call Bob. Please send the file. Please sign it! We should meet."
  = [FreeLLMService.task "Send the file." "medium" "";
     FreeLLMService.task "Sign it!" "medium" "";
     FreeLLMService.task "Call Bob." "medium" ""].
Proof. vm_compute. reflexivity. Qed.

(** C3.  On a body in which none of the three sweeps finds a match, the
    action extractor answers with exactly one task, the fallback, whose
    priority is "medium" and whose deadline is empty; the response parser
    returns that one task whenever the decoder reads the document back. *)
Theorem no_match_gives_one_fallback_task `{JsonDecoder}
    (email : FreeLLMService.content) :
  let text := FreeLLMService.body email in
  let response := FreeLLMService._extract_actions email in
  let fallback :=
    PDict [("task", PStr "Review this email for important information");
           ("priority", PStr "medium"); ("deadline", PStr "")] in
  FreeLLMService.please_matches text = [] →
  FreeLLMService.need_matches text = [] →
  FreeLLMService.bullet_matches text = [] →
  FreeLLMService.extracted_tasks text = [fallback]
  ∧ response = json_dumps (tasks_document [fallback])
  ∧ (json_loads response = Some (tasks_document [fallback]) →
     EmailProcessor._parse_actions_response response = inr (PList [fallback])).
Proof.
  intros text response fallback Hp Hn Hb.
  assert (E : FreeLLMService.extracted_tasks text = [fallback]).
  { unfold FreeLLMService.extracted_tasks, FreeLLMService.sweep_tasks,
      FreeLLMService.please_tasks, FreeLLMService.need_tasks,
      FreeLLMService.bullet_tasks.
    by rewrite Hp, Hn, Hb. }
  split; [exact E|].
  assert (R : response = json_dumps (tasks_document [fallback])).
  { unfold response, FreeLLMService._extract_actions. fold text.
    by rewrite E. }
  split; [exact R|].
  rewrite R. apply parse_tasks_document.
Qed.

(** The last email of the mock inbox: no request, no obligation, no
    bullet. *)
Lemma no_match_gives_one_fallback_task_witness :
  let email :=
    {| FreeLLMService.sender := "noreply@system.com";
       FreeLLMService.subject := "Your weekly system report";
       FreeLLMService.body :=
         "System generated report for the week. No action needed.";
       FreeLLMService.full_text := "" |} in
  EmailProcessor._parse_actions_response (H := RefJson.decoder)
    (FreeLLMService._extract_actions email)
  = inr (PList [FreeLLMService.fallback_task]).
Proof.
  intros email.
  refine (proj2 (proj2 (no_match_gives_one_fallback_task (H := RefJson.decoder)
                          email _ _ _)) _);
    vm_compute; reflexivity.
Defined.

(** The second fallback: a response in plain text none of whose lines
    reads as an action becomes the one task "Review this email". *)
Lemma no_action_line_gives_fallback (text : string) :
  EmailProcessor.line_actions (split_lines text) = inr [] →
  EmailProcessor._extract_actions_from_text text
  = inr (PList [FreeLLMService.task "Review this email" "medium" ""]).
Proof. intros E. unfold EmailProcessor._extract_actions_from_text. by rewrite E. Qed.

(** ** The mock inbox *)

(** C10.  [get_email_by_id] returns for every integer: the first email of
    the collection whose id is the one asked for, when there is one, and
    [None] when no email has that id. *)
Theorem get_email_by_id_first_or_none (self : MockDataLoader.loader)
    (wanted_id : Z) :
  match MockDataLoader.get_email_by_id self wanted_id with
  | Some email =>
      ∃ before after,
        MockDataLoader.mock_emails self = (before ++ email :: after)%list
        ∧ email_id email = wanted_id
        ∧ Forall (fun e => email_id e ≠ wanted_id) before
  | None =>
      Forall (fun e => email_id e ≠ wanted_id) (MockDataLoader.mock_emails self)
  end.
Proof.
  unfold MockDataLoader.get_email_by_id.
  induction (MockDataLoader.mock_emails self) as [|email rest IH];
    cbn [MockDataLoader.first_with_id]; [constructor|].
  destruct (Z.eqb_spec (email_id email) wanted_id) as [E|N].
  - exists [], rest. repeat split; [done | constructor].
  - destruct (MockDataLoader.first_with_id rest wanted_id) as [found|].
    + destruct IH as (before & after & -> & Hid & Hbefore).
      exists (email :: before), after. repeat split; [done|].
      by constructor.
    + by constructor.
Qed.

(** On the mock inbox: the third email is found by its id, and no email
    answers to the id 9. *)
Lemma get_email_by_id_mock_inbox :
  email_subject <$> MockDataLoader.get_email_by_id MockDataLoader.init 3
  = Some "Benefits Enrollment Reminder"
  ∧ MockDataLoader.get_email_by_id MockDataLoader.init 9 = None.
Proof. split; reflexivity. Qed.

(** ** The statistics of the inbox *)

(** C6 fails on the code.  The keys of [stats] are written in lower case
    and without the dash, the categories are not: an email of category
    "Important" is counted under "unprocessed", and the overview shows no
    important email. *)
Lemma important_email_is_not_counted :
  let emails :=
    [set_category "Important"
       (MockDataLoader.mock_email 1 "project.manager@company.com"
          "Weekly Project Update - Urgent Review Needed" "Please review."
          "2024-01-15 09:30:00" false)] in
  EmailProcessor.get_email_stats emails !! "important" = Some 0
  ∧ EmailProcessor.get_email_stats emails !! "unprocessed" = Some 1
  ∧ EmailAgent.shown_important (EmailAgent.process_inbox_query emails) = 0.
Proof. vm_compute. done. Qed.

Lemma count_email_label (n : nat) (stats : gmap string nat) (email : email_record) c :
  email_category email = Category c → c ∈ written_labels →
  labels_uncounted n stats →
  labels_uncounted (S n) (EmailProcessor.count_email stats email).
Proof.
  intros Hc Hl (Hi & Ht & Hn & Hs & Hu & Hnone).
  unfold EmailProcessor.count_email. rewrite Hc, (Hnone c Hl).
  unfold EmailProcessor.increment. rewrite Hu. cbn [default].
  repeat split; try (rewrite lookup_insert_ne by done; assumption).
  - by rewrite lookup_insert_eq.
  - intros c' Hl'. rewrite lookup_insert_ne; [by apply Hnone|].
    intros <-. unfold written_labels in Hl'.
    repeat (apply elem_of_cons in Hl' as [Hl'|Hl']; [discriminate|]).
    by apply elem_of_nil in Hl'.
Qed.

Lemma stats_loop_labels (emails : list email_record) :
  Forall (fun e => ∃ c, email_category e = Category c ∧ c ∈ written_labels)
         emails →
  ∀ n stats, labels_uncounted n stats →
    labels_uncounted (n + length emails)
                     (foldl EmailProcessor.count_email stats emails).
Proof.
  induction 1 as [|email rest (c & Hc & Hl) _ IH]; intros n stats Hinv.
  - cbn [foldl length]. by rewrite Nat.add_0_r.
  - cbn [foldl length]. rewrite Nat.add_succ_r.
    apply (IH (S n)). by eapply count_email_label.
Qed.

(** The same on any inbox that carries the program's own labels: none of
    the four counts that the overview shows is ever other than zero. *)
Lemma labelled_emails_are_never_counted (emails : list email_record) :
  Forall (fun e => ∃ c, email_category e = Category c ∧ c ∈ written_labels)
         emails →
  let shown := EmailAgent.process_inbox_query emails in
  EmailAgent.shown_important shown = 0 ∧ EmailAgent.shown_todo shown = 0
  ∧ EmailAgent.shown_newsletter shown = 0 ∧ EmailAgent.shown_spam shown = 0.
Proof.
  intros Hall. 
  assert (Hinit : labels_uncounted 0 (EmailProcessor.initial_stats emails)).
  { unfold labels_uncounted, EmailProcessor.initial_stats.
    repeat split; try (by simplify_map_eq).
    intros c Hl. unfold written_labels in Hl.
    repeat (apply elem_of_cons in Hl as [->|Hl]; [by simplify_map_eq|]).
    by apply elem_of_nil in Hl. }
  destruct (stats_loop_labels emails Hall 0 _ Hinit) as (Hi & Ht & Hn & Hs & _).
  cbn. unfold EmailProcessor.get_email_stats.
  rewrite Hi, Ht, Hn, Hs. done.
Qed.

(** ** Processing an email *)

(** Where the [try] block of [process_single_email] stops: at the
    categoriser when that raises; at the lookup of [_extract_actions] for
    a "To-Do" email, with the category stored; at the lookup of
    [_summarize_email] for any other, with the category and the empty
    action list stored. *)
Lemma try_block_stops `{JsonDecoder} (email : email_record) (w : world) :
  match EmailProcessor._categorize_email email w with
  | (inl e, w') => EmailProcessor.try_block (w, email) = (inl e, (w', email))
  | (inr category, w') =>
      EmailProcessor.try_block (w, email)
      = if String.eqb category "To-Do"
        then (inl (AttributeError "_extract_actions"),
              (w', set_category category email))
        else (inl (AttributeError "_summarize_email"),
              (w', set_actions (PList []) (set_category category email)))
  end.
Proof.
  unfold EmailProcessor.try_block, bind, EmailProcessor.on_email,
    EmailProcessor.update_email, modify. cbn [fst snd].
  destruct (EmailProcessor._categorize_email email w) as [[e|category] w'];
    [reflexivity|].
  destruct (String.eqb category "To-Do"); reflexivity.
Qed.

(** The [try] block never completes. *)
Lemma try_block_raises `{JsonDecoder} (email : email_record) (w : world) :
  ∃ e s, EmailProcessor.try_block (w, email) = (inl e, s).
Proof.
  pose proof (try_block_stops email w) as Hstop.
  destruct (EmailProcessor._categorize_email email w) as [[e|category] w'].
  - eauto.
  - destruct (String.eqb category "To-Do"); eauto.
Qed.

Lemma process_single_email_returns `{JsonDecoder} (email : email_record)
    (w : world) :
  ∃ processed, fst (EmailProcessor.process_single_email email w) = inr processed.
Proof.
  unfold EmailProcessor.process_single_email.
  destruct (EmailProcessor.try_block (w, email)) as [[e|[]] [w' email']];
    cbn [fst]; eauto.
Qed.

Lemma process_batch_emails_all `{JsonDecoder} (emails : list email_record)
    (w : world) :
  ∃ processed,
    fst (EmailProcessor.process_batch_emails emails w) = inr processed
    ∧ Forall2 (fun email p =>
                 ∃ w0, fst (EmailProcessor.process_single_email email w0) = inr p)
              emails processed.
Proof.
  revert w. induction emails as [|email rest IH]; intros w.
  - exists []. split; [reflexivity | constructor].
  - cbn [EmailProcessor.process_batch_emails]. unfold bind at 1.
    destruct (process_single_email_returns email w) as [p Hp].
    destruct (EmailProcessor.process_single_email email w) as [r w1] eqn:E1.
    cbn [fst] in Hp. subst r. unfold bind at 1.
    destruct (IH w1) as (ps & Hps & Hall).
    destruct (EmailProcessor.process_batch_emails rest w1) as [r w2] eqn:E2.
    cbn [fst] in Hps. subst r.
    exists (p :: ps). split; [reflexivity|].
    constructor; [|done]. exists w. by rewrite E1.
Qed.

(** C7.  When the processing of an email raises, the email comes back
    with the category "Error", no action and the summary "Failed to
    process email", its other fields as they were; and a batch returns one
    processed email for each email it was given, in order, whichever of
    them failed. *)
Theorem one_failure_never_aborts_the_batch `{JsonDecoder}
    (emails : list email_record) (w : world) :
  (∀ email w0 e w1 email1,
     EmailProcessor.try_block (w0, email) = (inl e, (w1, email1)) →
     ∃ processed,
       fst (EmailProcessor.process_single_email email w0) = inr processed
       ∧ email_category processed = Category "Error"
       ∧ email_actions processed = Some (PList [])
       ∧ email_summary processed = Some "Failed to process email"
       ∧ email_id processed = email_id email
       ∧ email_sender processed = email_sender email
       ∧ email_subject processed = email_subject email
       ∧ email_body processed = email_body email)
  ∧ ∃ processed,
      fst (EmailProcessor.process_batch_emails emails w) = inr processed
      ∧ length processed = length emails
      ∧ Forall2 (fun email p =>
                   ∃ w0, fst (EmailProcessor.process_single_email email w0) = inr p)
                emails processed.
Proof.
  split.
  - intros email w0 e w1 email1 Hraise.
    pose proof (try_block_stops email w0) as Hstop. rewrite Hraise in Hstop.
    unfold EmailProcessor.process_single_email. rewrite Hraise. cbn [fst].
    exists (EmailProcessor.failed email1). split; [reflexivity|].
    repeat split; try reflexivity;
      destruct (EmailProcessor._categorize_email email w0) as [[e'|c] w'];
      try destruct (String.eqb c "To-Do"); by simplify_eq.
  - destruct (process_batch_emails_all emails w) as (processed & Hp & Hall).
    exists processed. repeat split; [done| |done].
    symmetry. by eapply Forall2_length.
Qed.

(** The mock inbox goes through as a whole, five emails in and five out. *)
Lemma one_failure_never_aborts_the_batch_witness :
  ∃ processed,
    fst (EmailProcessor.process_batch_emails (H := RefJson.decoder)
           MockDataLoader._generate_mock_emails default_world) = inr processed
    ∧ length processed = 5.
Proof.
  destruct (proj2 (one_failure_never_aborts_the_batch (H := RefJson.decoder)
                     MockDataLoader._generate_mock_emails default_world))
    as (processed & Hp & Hl & _).
  exists processed. split; [exact Hp | exact Hl].
Defined.

(** C9.  For an email that the categoriser labels "Important",
    "Newsletter" or "Spam", [process_single_email] does not look for the
    extractor: its [try] block stores the empty list under [actions] and
    goes on to the summary; the email it returns has the empty list of
    actions. *)
Theorem only_todo_emails_reach_the_extractor `{JsonDecoder}
    (email : email_record) (w w' : world) (category : string) :
  EmailProcessor._categorize_email email w = (inr category, w') →
  category ∈ ["Important"; "Newsletter"; "Spam"] →
  EmailProcessor.try_block (w, email)
  = (inl (AttributeError "_summarize_email"),
     (w', set_actions (PList []) (set_category category email)))
  ∧ ∃ processed,
      fst (EmailProcessor.process_single_email email w) = inr processed
      ∧ email_actions processed = Some (PList []).
Proof.
  intros Hcat Hlabel.
  pose proof (try_block_stops email w) as Hstop. rewrite Hcat in Hstop.
  assert (String.eqb category "To-Do" = false) as Hne.
  { repeat (apply elem_of_cons in Hlabel as [->|Hlabel]; [reflexivity|]).
    by apply elem_of_nil in Hlabel. }
  rewrite Hne in Hstop. split; [exact Hstop|].
  unfold EmailProcessor.process_single_email. rewrite Hstop. cbn [fst].
  eexists. split; reflexivity.
Qed.

(** The first email of the mock inbox, which is labelled "Important". *)
Lemma only_todo_emails_reach_the_extractor_witness :
  ∃ processed,
    fst (EmailProcessor.process_single_email (H := RefJson.decoder)
           (nth_mock_email 0) default_world) = inr processed
    ∧ email_actions processed = Some (PList []).
Proof.
  refine (proj2 (only_todo_emails_reach_the_extractor (H := RefJson.decoder)
                   (nth_mock_email 0) default_world
                   (snd (EmailProcessor._categorize_email (H := RefJson.decoder)
                           (nth_mock_email 0) default_world))
                   "Important" _ _)).
  - vm_compute. reflexivity.
  - apply list_elem_of_here.
Defined.

(** ** The configuration store *)

(** C8.  Saving a well-formed four-key mapping and loading it again
    returns that mapping, on a disk that can be written and with a decoder
    that reads the saved document back; the session then holds the
    mapping too. *)
Theorem save_then_load_returns_the_mapping `{JsonDecoder}
    (prompts : pyval) (w : world) :
  four_key_mapping prompts →
  disk_writable w = true →
  json_loads (json_dumps_indent 0 prompts) = Some prompts →
  let saved := snd (PromptManager.save_prompts prompts w) in
  fst (PromptManager.load_prompts saved) = inr prompts
  ∧ session_prompts (snd (PromptManager.load_prompts saved)) = Some prompts
  ∧ reported (snd (PromptManager.load_prompts saved)) = reported w.
Proof.
  intros _ Hdisk Hloads saved. unfold saved, PromptManager.save_prompts.
  rewrite Hdisk. cbn [snd]. unfold PromptManager.load_prompts.
  cbn [prompts_file set_session_prompts write_prompts_file].
  rewrite Hloads. cbn. done.
Qed.

Lemma default_prompts_four_keys : four_key_mapping PromptManager.default_prompts.
Proof.
  eexists. split; [reflexivity|]. split; [|split].
  - cbn [map fst]. compute_done.
  - intros k. cbn. unfold prompt_types. done.
  - repeat (constructor; [by eexists|]). constructor.
Qed.

(** The default prompts, saved over whatever the default world held. *)
Lemma save_then_load_returns_the_mapping_witness :
  fst (PromptManager.load_prompts (H := RefJson.decoder)
         (snd (PromptManager.save_prompts PromptManager.default_prompts
                 default_world)))
  = inr PromptManager.default_prompts.
Proof.
  refine (proj1 (save_then_load_returns_the_mapping (H := RefJson.decoder)
                   PromptManager.default_prompts default_world
                   default_prompts_four_keys _ _)).
  - vm_compute. reflexivity.
  - vm_compute. reflexivity.
Defined.

(** ** The task/action branch of the query router *)

(** A query on an email with a non-empty [actions] answers from it and
    changes nothing. *)
Lemma action_query_cached `{JsonDecoder} (s : EmailAgent.page) (cached : pyval) :
  email_actions (EmailAgent.selected_email s) = Some cached →
  truthy cached = true →
  EmailAgent.process_action_query s
  = (EmailAgent.render_actions
       (email_subject (EmailAgent.selected_email s)) cached, s).
Proof.
  intros Hc Ht. unfold EmailAgent.process_action_query, bind, get_state.
  rewrite Hc, Ht. reflexivity.
Qed.

(** A query on an email without [actions], or with an empty one, calls
    the extractor once and stores what it returns. *)
Lemma action_query_extracts `{JsonDecoder} (s : EmailAgent.page)
    (actions : pyval) (w' : world) :
  (email_actions (EmailAgent.selected_email s) = None
   ∨ ∃ cached, email_actions (EmailAgent.selected_email s) = Some cached
               ∧ truthy cached = false) →
  EmailProcessor.extract_actions (EmailAgent.selected_email s)
    (EmailAgent.page_world s) = (inr actions, w') →
  EmailAgent.process_action_query s
  = (EmailAgent.render_actions
       (email_subject (EmailAgent.selected_email s)) actions,
     {| EmailAgent.page_world := w';
        EmailAgent.selected_email :=
          set_actions actions (EmailAgent.selected_email s);
        EmailAgent.extractor_calls := S (EmailAgent.extractor_calls s) |}).
Proof.
  intros Hc He.
  unfold EmailAgent.process_action_query, bind, get_state,
    EmailAgent.call_extract_actions, EmailAgent.store_actions, modify, ret.
  destruct Hc as [Hc|(cached & Hc & Ht)]; rewrite Hc; [|rewrite Ht];
    rewrite He; reflexivity.
Qed.

(** C5, as the code has it.  The task/action branch tests the truth value
    of [actions]: an email with a non-empty [actions] is answered from it,
    the extractor is not called and nothing changes; an email without the
    field, or with an empty one, has the extractor called once and its
    result stored, and when that result is not empty the next query is
    answered from it without another call. *)
Theorem actions_are_cached_when_not_empty `{JsonDecoder} (s : EmailAgent.page) :
  let email := EmailAgent.selected_email s in
  (∀ cached,
     email_actions email = Some cached → truthy cached = true →
     EmailAgent.process_action_query s
     = (EmailAgent.render_actions (email_subject email) cached, s))
  ∧ (∀ actions w',
       (email_actions email = None
        ∨ ∃ cached, email_actions email = Some cached ∧ truthy cached = false) →
       EmailProcessor.extract_actions email (EmailAgent.page_world s)
       = (inr actions, w') →
       let after := snd (EmailAgent.process_action_query s) in
       fst (EmailAgent.process_action_query s)
       = EmailAgent.render_actions (email_subject email) actions
       ∧ email_actions (EmailAgent.selected_email after) = Some actions
       ∧ EmailAgent.extractor_calls after = S (EmailAgent.extractor_calls s)
       ∧ (truthy actions = true →
          EmailAgent.process_action_query after
          = (EmailAgent.render_actions (email_subject email) actions, after))).
Proof.
  intros email. split.
  - intros cached Hc Ht. by apply action_query_cached.
  - intros actions w' Hc He after. unfold after.
    rewrite (action_query_extracts s actions w' Hc He). cbn [fst snd].
    repeat split. intros Ht.
    by rewrite (action_query_cached _ actions).
Qed.

(** C5 fails as stated.  The third email of the mock inbox, once
    processed, carries an [actions] field, the empty list; a task query on
    it calls the extractor all the same. *)
Lemma empty_actions_are_extracted_again :
  let email := processed_mock_email 2 in
  email_actions email = Some (PList [])
  ∧ EmailAgent.extractor_calls
      (snd (EmailAgent.process_action_query (H := RefJson.decoder)
              (page_on email))) = 1.
Proof. vm_compute. done. Qed.

(** The third email of the mock inbox, fresh from the loader: the first
    query extracts and stores one task, the second is answered from it. *)
Lemma actions_are_cached_when_not_empty_witness :
  let s := page_on (nth_mock_email 2) in
  let after := snd (EmailAgent.process_action_query (H := RefJson.decoder) s) in
  EmailAgent.extractor_calls after = 1
  ∧ snd (EmailAgent.process_action_query (H := RefJson.decoder) after) = after.
Proof.
  intros s after.
  pose (r := EmailProcessor.extract_actions (H := RefJson.decoder)
               (EmailAgent.selected_email s) (EmailAgent.page_world s)).
  pose (actions := match fst r with inr a => a | inl _ => PNone end).
  destruct (proj2 (actions_are_cached_when_not_empty (H := RefJson.decoder) s)
              actions (snd r) (or_introl eq_refl))
    as (_ & _ & Hcalls & Hnext).
  { vm_compute. reflexivity. }
  split; [exact Hcalls|].
  unfold after. rewrite Hnext; [reflexivity|].
  vm_compute. reflexivity.
Defined.

(** ** Prompts and matchers *)

(** C4 fails as stated.  The second email of the mock inbox is a
    "Newsletter" under the default prompts.  Under a categorisation prompt
    without the word "categorize" the dispatcher takes another branch and
    the email becomes "Important"; under one that keeps the word and adds a
    subject line of its own, the classifier reads that line and the email
    becomes "Important" as well. *)
Lemma edited_prompt_changes_the_category :
  let email := nth_mock_email 1 in
  let categorize prompts :=
    fst (EmailProcessor._categorize_email (H := RefJson.decoder) email
           (world_with prompts)) in
  categorize PromptManager.default_prompts = inr "Newsletter"
  ∧ categorize (with_prompt "categorization" "Label this email.")
    = inr "Important"
  ∧ categorize (with_prompt "categorization"
                  "Categorize this email. Subject: urgent matters")
    = inr "Important".
Proof. vm_compute. done. Qed.

(** The extractor scans the template itself when the email body has no
    label of its own: a request written into the action prompt comes back
    as a task of every email. *)
Lemma action_prompt_is_scanned_for_tasks :
  let email := nth_mock_email 4 in
  let extract prompts :=
    fst (EmailProcessor.extract_actions (H := RefJson.decoder) email
           (world_with prompts)) in
  extract PromptManager.default_prompts
  = inr (PList [FreeLLMService.task
                  "Review this email for important information" "medium" ""])
  ∧ extract (with_prompt "action_extraction"
               "Extract the action items. Please answer in JSON.")
    = inr (PList [FreeLLMService.task "Answer in JSON." "medium" ""]).
Proof. vm_compute. done. Qed.

(** A template is joined to the email context by a blank line; no word or
    label that the matchers look for holds a line feed, so none can
    straddle the joint. *)

Lemma chr_eqb_sym (a b : ascii) : chr_eqb a b = chr_eqb b a.
Proof. unfold chr_eqb. apply N.eqb_sym. Qed.

Lemma str_in_char_cons (c y : ascii) (w : string) :
  str_in (String c "") (String y w) = false →
  chr_eqb y c = false ∧ str_in (String c "") w = false.
Proof.
  cbn [str_in starts_with]. rewrite andb_true_r, orb_false_iff.
  rewrite (chr_eqb_sym c y). done.
Qed.

Lemma starts_with_sep (w a b : string) (c : ascii) :
  str_in (String c "") w = false →
  starts_with w (a ++ String c b) = starts_with w a.
Proof.
  revert a. induction w as [|y w IH]; intros a Hc; [by destruct a|].
  apply str_in_char_cons in Hc as [Hy Hw].
  destruct a as [|x a]; cbn [String.append starts_with].
  - by rewrite Hy.
  - by rewrite IH.
Qed.

Lemma str_in_sep (w a b : string) (c : ascii) :
  str_in (String c "") w = false →
  str_in w (a ++ String c b) = str_in w a || str_in w (String c b).
Proof.
  intros Hc. induction a as [|x a IH].
  - cbn [String.append]. destruct w as [|y w]; [reflexivity|].
    reflexivity.
  - change (String x a ++ String c b) with (String x (a ++ String c b)).
    cbn [str_in]. rewrite IH.
    change (String x (a ++ String c b)) with (String x a ++ String c b).
    rewrite starts_with_sep by done. by rewrite orb_assoc.
Qed.

Lemma lower_char_nl : lower_char nl_char = nl_char.
Proof. reflexivity. Qed.

(** The dispatcher's test on a prompt made of a template, a blank line
    and a context is the test on the template or the test on the rest. *)
Lemma str_in_lower_joined (w t rest : string) :
  str_in nl w = false →
  str_in w (str_lower (t ++ nl ++ rest))
  = str_in w (str_lower t) || str_in w (str_lower (nl ++ rest)).
Proof.
  intros Hw. rewrite str_lower_app.
  change (str_lower (nl ++ rest)) with (String nl_char (str_lower rest)).
  by apply str_in_sep.
Qed.

Lemma str_in_false_cons (w : string) (x : ascii) (t : string) :
  str_in w (String x t) = false →
  starts_with w (String x t) = false ∧ str_in w t = false.
Proof. cbn [str_in]. by rewrite orb_false_iff. Qed.

(** A literal under [re.IGNORECASE] matches where the lowered text starts
    with the lowered literal, and nowhere else. *)
Lemma rmatch_ilit {A : Type} (m s : string) (pos : nat) (g : option span)
    (k : @cont A) :
  rmatch (ilit m) s pos g k
  = if starts_with (str_lower m) (str_lower s)
    then k (str_drop (String.length m) s) (pos + String.length m) g
    else None.
Proof.
  revert s pos. induction m as [|c m IH]; intros s pos.
  - cbn. by rewrite Nat.add_0_r.
  - cbn [ilit rmatch ichr]. destruct s as [|x s]; [reflexivity|].
    cbn [str_lower starts_with String.length str_drop].
    rewrite (chr_eqb_sym (lower_char c)).
    destruct (chr_eqb (lower_char x) (lower_char c)); [|reflexivity].
    cbn [andb]. rewrite IH. by rewrite Nat.add_succ_r.
Qed.

(** A pattern that opens with a literal finds nothing that starts inside
    a template which does not hold the literal: its search over the
    template, a line feed and the rest is its search from the line feed. *)
Lemma search_skips_template (m : string) (r : regex) (t rest : string) :
  str_in nl (str_lower m) = false →
  str_in (str_lower m) (str_lower t) = false →
  re_search (Cat (ilit m) r) (t ++ nl ++ rest)
  = re_search (Cat (ilit m) r) (nl ++ rest).
Proof.
  intros Hnl. induction t as [|x t IH]; intros Ht; [reflexivity|].
  change (str_lower (String x t)) with (String (lower_char x) (str_lower t)) in Ht.
  apply str_in_false_cons in Ht as [Hstart Hin].
  change (String x t ++ nl ++ rest) with (String x (t ++ nl ++ rest)).
  cbn [re_search].
  assert (Hhere : match_here (Cat (ilit m) r) (String x (t ++ nl ++ rest)) = None).
  { unfold match_here. cbn [rmatch]. rewrite rmatch_ilit.
    change (String x (t ++ nl ++ rest)) with (String x t ++ nl ++ rest).
    rewrite str_lower_app.
    change (str_lower (nl ++ rest)) with (String nl_char (str_lower rest)).
    rewrite starts_with_sep by done.
    change (str_lower (String x t)) with (String (lower_char x) (str_lower t)).
    by rewrite Hstart. }
  rewrite Hhere. by apply IH.
Qed.

(** The three searches of [_extract_email_content] do not see a template
    that is free of labels. *)
Lemma searches_skip_template (t ctx : string) :
  marker_free t →
  re_search FreeLLMService.from_re (t ++ nl ++ nl ++ ctx)
  = re_search FreeLLMService.from_re (nl ++ nl ++ ctx)
  ∧ re_search FreeLLMService.subject_re (t ++ nl ++ nl ++ ctx)
    = re_search FreeLLMService.subject_re (nl ++ nl ++ ctx)
  ∧ re_search FreeLLMService.body_re (t ++ nl ++ nl ++ ctx)
    = re_search FreeLLMService.body_re (nl ++ nl ++ ctx).
Proof.
  intros Hfree.
  assert (Hf : str_in "from:" (str_lower t) = false)
    by (apply Hfree; unfold field_markers; in_list).
  assert (Hs : str_in "subject:" (str_lower t) = false)
    by (apply Hfree; unfold field_markers; in_list).
  assert (Hb : str_in "body:" (str_lower t) = false)
    by (apply Hfree; unfold field_markers; in_list).
  repeat split.
  - apply (search_skips_template "FROM:"); [reflexivity | exact Hf].
  - apply (search_skips_template "SUBJECT:"); [reflexivity | exact Hs].
  - apply (search_skips_template "BODY:"); [reflexivity | exact Hb].
Qed.

(** Two label-free templates over a context that labels its body give
    contents with the same sender, subject and body. *)
Lemma same_content_fields (t1 t2 ctx : string) :
  marker_free t1 → marker_free t2 →
  is_Some (re_search FreeLLMService.body_re (nl ++ nl ++ ctx)) →
  let c1 := FreeLLMService._extract_email_content (t1 ++ nl ++ nl ++ ctx) in
  let c2 := FreeLLMService._extract_email_content (t2 ++ nl ++ nl ++ ctx) in
  FreeLLMService.sender c1 = FreeLLMService.sender c2
  ∧ FreeLLMService.subject c1 = FreeLLMService.subject c2
  ∧ FreeLLMService.body c1 = FreeLLMService.body c2.
Proof.
  intros H1 H2 [m Hm] c1 c2. unfold c1, c2, FreeLLMService._extract_email_content.
  destruct (searches_skip_template t1 ctx H1) as (-> & -> & ->).
  destruct (searches_skip_template t2 ctx H2) as (-> & -> & ->).
  cbn [FreeLLMService.sender FreeLLMService.subject FreeLLMService.body].
  rewrite Hm. done.
Qed.

(** The matchers read the sender, the subject and the body of a content,
    and not its full text. *)
Lemma matchers_read_fields (c1 c2 : FreeLLMService.content) :
  FreeLLMService.sender c1 = FreeLLMService.sender c2 →
  FreeLLMService.subject c1 = FreeLLMService.subject c2 →
  FreeLLMService.body c1 = FreeLLMService.body c2 →
  FreeLLMService._categorize_email c1 = FreeLLMService._categorize_email c2
  ∧ FreeLLMService._extract_actions c1 = FreeLLMService._extract_actions c2
  ∧ FreeLLMService._summarize_email c1 = FreeLLMService._summarize_email c2
  ∧ FreeLLMService._draft_reply c1 = FreeLLMService._draft_reply c2.
Proof.
  intros Hs Hj Hb.
  unfold FreeLLMService._categorize_email, FreeLLMService._extract_actions,
    FreeLLMService._summarize_email, FreeLLMService._draft_reply.
  by rewrite Hs, Hj, Hb.
Qed.

(** The response to a prompt made of a label-free template, a blank line
    and a context that labels its body depends on the template through
    its dispatch words only. *)
Lemma response_depends_on_dispatch_words (t1 t2 ctx : string) :
  same_dispatch_words t1 t2 → marker_free t1 → marker_free t2 →
  is_Some (re_search FreeLLMService.body_re (nl ++ nl ++ ctx)) →
  FreeLLMService.generate_response (t1 ++ nl ++ nl ++ ctx)
  = FreeLLMService.generate_response (t2 ++ nl ++ nl ++ ctx).
Proof.
  intros Hsame H1 H2 Hbody.
  destruct (same_content_fields t1 t2 ctx H1 H2 Hbody) as (Hs & Hj & Hb).
  destruct (matchers_read_fields _ _ Hs Hj Hb) as (Ec & Ea & Em & Er).
  unfold FreeLLMService.generate_response, FreeLLMService._smart_pattern_matcher.
  rewrite Ec, Ea, Em, Er.
  rewrite !(str_in_lower_joined _ t1), !(str_in_lower_joined _ t2) by reflexivity.
  rewrite !(Hsame _) by (unfold dispatch_words; in_list).
  reflexivity.
Qed.

(** The contexts of the three operations label the body. *)

Lemma re_search_unfold (r : regex) (s : string) :
  re_search r s
  = match match_here r s with
    | Some (_, m) => Some m
    | None => match s with
              | "" => None
              | String _ s' => re_search r s'
              end
    end.
Proof. by destruct s. Qed.

Lemma search_finds (r : regex) (a s : string) :
  is_Some (match_here r s) → is_Some (re_search r (a ++ s)).
Proof.
  intros [[n m] Hm]. induction a as [|x a IH].
  - cbn [String.append]. rewrite re_search_unfold, Hm. eauto.
  - change (String x a ++ s) with (String x (a ++ s)).
    rewrite re_search_unfold.
    destruct (match_here r (String x (a ++ s))) as [[n' m']|]; eauto.
Qed.

Lemma backoff_some {A : Type} (n lo j : nat) s pos g (k : @cont A) :
  (lo ≤ j ≤ n)%nat →
  is_Some (k (str_drop j s) (pos + j) g) →
  is_Some (backoff n lo s pos g k).
Proof.
  intros [Hlo Hjn] Hj. induction n as [|n IH]; cbn [backoff].
  - assert (j = 0) as -> by lia.
    destruct (Nat.ltb_spec 0 lo); [lia|].
    destruct (k (str_drop 0 s) (pos + 0) g); [eauto | by destruct Hj].
  - destruct (Nat.ltb_spec (S n) lo); [lia|].
    destruct (k (str_drop (S n) s) (pos + S n) g) eqn:E; [eauto|].
    apply IH. destruct (decide (j = S n)) as [->|]; [|lia].
    rewrite E in Hj. by destruct Hj.
Qed.

Lemma str_lower_length (s : string) : String.length (str_lower s) = String.length s.
Proof. induction s as [|c s IH]; [done | cbn; by f_equal]. Qed.

(** The body pattern matches at a body label that a space follows. *)
Lemma body_label_matches (label tail : string) :
  str_lower label = "body:" →
  is_Some (match_here FreeLLMService.body_re (label ++ " " ++ tail)).
Proof.
  intros Hlabel.
  assert (Hlen : String.length label = 5)
    by (rewrite <- str_lower_length, Hlabel; reflexivity).
  unfold match_here, FreeLLMService.body_re, cat. cbn [foldr rmatch].
  rewrite rmatch_ilit, str_lower_app, Hlabel.
  change (str_lower "BODY:") with "body:". rewrite starts_with_refl_app.
  change (String.length "BODY:") with 5. rewrite <- Hlen, str_drop_app.
  unfold star. apply (backoff_some _ 0 0); [lia|].
  change (str_drop 0 (" " ++ tail)) with (String " "%char tail).
  unfold plus. cbn [rmatch]. rewrite run_any_char.
  apply (backoff_some _ 1 (String.length (String " "%char tail)));
    [cbn; lia|].
  eauto.
Qed.

Lemma context_labels_body (before label body after : string) :
  str_lower label = "body:" →
  is_Some (re_search FreeLLMService.body_re
             (nl ++ nl ++ before ++ label ++ " " ++ body ++ after)).
Proof.
  intros Hlabel.
  replace (nl ++ nl ++ before ++ label ++ " " ++ body ++ after)
    with ((nl ++ nl ++ before) ++ label ++ " " ++ (body ++ after))
    by (by rewrite !app_assoc_str).
  apply search_finds, body_label_matches, Hlabel.
Qed.

Lemma categorize_context_labels_body (email : email_record) :
  is_Some (re_search FreeLLMService.body_re
             (nl ++ nl ++ EmailProcessor.categorize_context email)).
Proof.
  unfold EmailProcessor.categorize_context.
  pose proof (context_labels_body
    (nl ++ EmailProcessor.indent8 ++ "EMAIL DETAILS:" ++ nl
     ++ EmailProcessor.indent8 ++ "From: " ++ email_sender email ++ nl
     ++ EmailProcessor.indent8 ++ "Subject: " ++ email_subject email ++ nl
     ++ EmailProcessor.indent8)
    "Body:" (email_body email) (nl ++ EmailProcessor.indent8) eq_refl) as Hfound.
  rewrite !app_assoc_str in Hfound. exact Hfound.
Qed.

Lemma summarize_context_labels_body (email : email_record) :
  is_Some (re_search FreeLLMService.body_re
             (nl ++ nl ++ EmailProcessor.summarize_context email)).
Proof.
  unfold EmailProcessor.summarize_context.
  pose proof (context_labels_body
    (nl ++ EmailProcessor.indent8 ++ "FROM: " ++ email_sender email ++ nl
     ++ EmailProcessor.indent8 ++ "SUBJECT: " ++ email_subject email ++ nl
     ++ EmailProcessor.indent8)
    "BODY:" (email_body email) (nl ++ EmailProcessor.indent8) eq_refl) as Hfound.
  rewrite !app_assoc_str in Hfound. exact Hfound.
Qed.

Lemma reply_context_labels_body (email : email_record) :
  is_Some (re_search FreeLLMService.body_re
             (nl ++ nl ++ EmailProcessor.reply_context email)).
Proof.
  unfold EmailProcessor.reply_context.
  pose proof (context_labels_body
    (nl ++ EmailProcessor.indent8 ++ "ORIGINAL EMAIL:" ++ nl
     ++ EmailProcessor.indent8 ++ "From: " ++ email_sender email ++ nl
     ++ EmailProcessor.indent8 ++ "Subject: " ++ email_subject email ++ nl
     ++ EmailProcessor.indent8)
    "Body:" (email_body email) (nl ++ EmailProcessor.indent8) eq_refl) as Hfound.
  rewrite !app_assoc_str in Hfound. exact Hfound.
Qed.

(** C4, as the code has it.  Categorisation, summarisation and reply
    drafting give the same result under two prompt sets whose templates
    for the operation hold the same dispatch words ("categorize",
    "extract", "action", "summarize", "reply", "draft") and none of the
    field labels ("from:", "subject:", "body:"), in whatever case. *)
Theorem prompts_matter_by_their_keywords_only `{JsonDecoder}
    (op : operation) (email : email_record) (w1 w2 w1' w2' : world)
    (t1 t2 : string) :
  PromptManager.get_prompt (prompt_type_of op) w1 = (inr (PStr t1), w1') →
  PromptManager.get_prompt (prompt_type_of op) w2 = (inr (PStr t2), w2') →
  same_dispatch_words t1 t2 →
  marker_free t1 →
  marker_free t2 →
  fst (run_operation op email w1) = fst (run_operation op email w2).
Proof.
  intros Hp1 Hp2 Hsame Hfree1 Hfree2.
  destruct op; cbn [run_operation prompt_type_of] in *;
    unfold EmailProcessor._categorize_email, EmailProcessor.summarize_email,
      EmailProcessor.draft_reply, bind;
    rewrite Hp1, Hp2; cbn [py_str ret fst]; do 2 f_equal;
    apply response_depends_on_dispatch_words;
    auto using categorize_context_labels_body, summarize_context_labels_body,
      reply_context_labels_body.
Qed.

(** The second email of the mock inbox under the default categorisation
    prompt and under a rewording of it. *)
Lemma prompts_matter_by_their_keywords_only_witness :
  let w1 := world_with PromptManager.default_prompts in
  let w2 := world_with (with_prompt "categorization" reworded_categorization) in
  fst (run_operation (H := RefJson.decoder) Categorization (nth_mock_email 1) w1)
  = fst (run_operation (H := RefJson.decoder) Categorization (nth_mock_email 1) w2).
Proof.
  intros w1 w2.
  refine (prompts_matter_by_their_keywords_only (H := RefJson.decoder)
            Categorization (nth_mock_email 1) w1 w2
            (snd (PromptManager.get_prompt (H := RefJson.decoder)
                    "categorization" w1))
            (snd (PromptManager.get_prompt (H := RefJson.decoder)
                    "categorization" w2))
            "Categorize this email into one of these categories: Important, Newsletter, Spam, To-Do. To-Do emails must include a direct request requiring user action. Respond with only the category name."
            reworded_categorization _ _ _ _ _).
  - vm_compute. reflexivity.
  - vm_compute. reflexivity.
  - intros word Hin. unfold dispatch_words in Hin. each_by_evaluation Hin.
  - intros marker Hin. unfold field_markers in Hin. each_by_evaluation Hin.
  - intros marker Hin. unfold field_markers in Hin. each_by_evaluation Hin.
Defined.

(** ** The decoder of the examples

    The decoder written for the examples reads back what [save_prompts]
    writes for any dict of strings, so the assumption made of the decoder
    in C8 can be met for every well-formed mapping. *)

(** An escaped character reads back as the character. *)
Lemma parse_chars_escape_char (c : ascii) (rest : string) :
  RefJson.parse_chars (json_escape_char c ++ rest)
  = RefJson.cons_char c (RefJson.parse_chars rest).
Proof.
  destruct c as [[] [] [] [] [] [] [] []]; reflexivity.
Qed.

Lemma parse_chars_json_escape (s rest : string) :
  RefJson.parse_chars (json_escape s ++ String quote_char rest) = Some (s, rest).
Proof.
  induction s as [|c s IH].
  - reflexivity.
  - cbn [json_escape]. rewrite app_assoc_str, parse_chars_escape_char, IH.
    reflexivity.
Qed.

(** The text of a string value after its opening quote. *)
Lemma json_string_unfold (s rest : string) :
  json_string s ++ rest
  = String quote_char (json_escape s ++ String quote_char rest).
Proof.
  unfold json_string. cbn [String.append]. by rewrite app_assoc_str.
Qed.

Lemma member_shape (k v Z : string) :
  inner1 ++ member_text (k, v) ++ Z
  = String nl_char (String " " (String " " (String quote_char
      (json_escape k ++ String quote_char (String ":" (String " "
         (String quote_char (json_escape v ++ String quote_char Z)))))))).
Proof.
  unfold member_text, inner1, json_string. cbn [fst snd nl String.append].
  rewrite !app_assoc_str. cbn [String.append]. rewrite !app_assoc_str.
  reflexivity.
Qed.

Lemma head_is_same (c : ascii) (s : string) :
  RefJson.head_is c (String c s) = Some s.
Proof. unfold RefJson.head_is. by rewrite chr_eqb_refl. Qed.

Lemma parse_members_S (fuel : nat) (s : string) :
  RefJson.parse_members (S fuel) s
  = match RefJson.head_is quote_char (RefJson.skip_ws s) with
    | Some s1 =>
        match RefJson.parse_chars s1 with
        | Some (k, s2) =>
            match RefJson.head_is ":"%char (RefJson.skip_ws s2) with
            | Some s3 =>
                match RefJson.parse_value fuel s3 with
                | Some (v, rest) =>
                    match RefJson.head_is ","%char (RefJson.skip_ws rest) with
                    | Some rest' =>
                        match RefJson.parse_members fuel rest' with
                        | Some (kvs, rest'') => Some ((k, v) :: kvs, rest'')
                        | None => None
                        end
                    | None =>
                        match RefJson.head_is "}"%char (RefJson.skip_ws rest) with
                        | Some rest' => Some ([(k, v)], rest')
                        | None => None
                        end
                    end
                | None => None
                end
            | None => None
            end
        | None => None
        end
    | None => None
    end.
Proof. reflexivity. Qed.

Lemma parse_value_string (fuel : nat) (Y : string) :
  RefJson.parse_value (S fuel) (String " " (String quote_char Y))
  = match RefJson.parse_chars Y with
    | Some (str, rest) => Some (PStr str, rest)
    | None => None
    end.
Proof. reflexivity. Qed.

Lemma parse_member (fuel : nat) (k v Z : string) :
  RefJson.parse_members (S (S fuel)) (inner1 ++ member_text (k, v) ++ Z)
  = match RefJson.head_is ","%char (RefJson.skip_ws Z) with
    | Some rest' =>
        match RefJson.parse_members (S fuel) rest' with
        | Some (kvs, rest'') => Some ((k, PStr v) :: kvs, rest'')
        | None => None
        end
    | None =>
        match RefJson.head_is "}"%char (RefJson.skip_ws Z) with
        | Some rest' => Some ([(k, PStr v)], rest')
        | None => None
        end
    end.
Proof.
  rewrite member_shape, parse_members_S.
  change (RefJson.skip_ws (String nl_char (String " " (String " " (String quote_char ?X)))))
    with (String quote_char X).
  rewrite head_is_same, parse_chars_json_escape.
  change (RefJson.skip_ws (String ":" ?X)) with (String ":"%char X).
  rewrite head_is_same, parse_value_string, parse_chars_json_escape.
  reflexivity.
Qed.

Lemma parse_members_strings (kv : string * string) (kvs : list (string * string))
    (fuel : nat) (rest : string) :
  (length kvs + 2 ≤ fuel)%nat →
  RefJson.parse_members fuel
    (inner1 ++ str_join ("," ++ inner1) (map member_text (kv :: kvs))
     ++ nl ++ "}" ++ rest)
  = Some (string_items (kv :: kvs), rest).
Proof.
  revert kv fuel. induction kvs as [|kv' kvs IH]; intros [k v] fuel Hfuel.
  - destruct fuel as [|[|fuel]]; [cbn in Hfuel; lia..|].
    cbn [map str_join]. rewrite parse_member. reflexivity.
  - destruct fuel as [|[|fuel]]; [cbn in Hfuel; lia..|].
    specialize (IH kv' (S fuel) ltac:(cbn in *; lia)).
    change (str_join ("," ++ inner1) (map member_text ((k, v) :: kv' :: kvs)))
      with (member_text (k, v) ++ ("," ++ inner1)
            ++ str_join ("," ++ inner1) (map member_text (kv' :: kvs))).
    rewrite !app_assoc_str, parse_member.
    change (RefJson.skip_ws ("," ++ ?X)) with ("," ++ X).
    change ("," ++ ?X) with (String ","%char X).
    rewrite head_is_same, IH. reflexivity.
Qed.

Lemma foldl_dict_set_fresh (kvs acc : list (string * pyval)) :
  NoDup (map fst (acc ++ kvs)%list) →
  foldl (fun d kv => RefJson.dict_set (fst kv) (snd kv) d) acc kvs
  = (acc ++ kvs)%list.
Proof.
  revert acc. induction kvs as [|[k v] kvs IH]; intros acc Hnd.
  - by rewrite app_nil_r.
  - cbn [foldl fst snd].
    assert (Hset : RefJson.dict_set k v acc = (acc ++ [(k, v)])%list).
    { rewrite map_app, NoDup_app in Hnd. destruct Hnd as (_ & Hdis & _).
      assert (Hk : k ∉ map fst acc).
      { intros Hin. apply (Hdis k Hin). cbn. left. }
      clear -Hk. induction acc as [|[k' v'] acc IHa]; [reflexivity|].
      cbn [RefJson.dict_set app]. cbn in Hk.
      destruct (String.eqb_spec k' k) as [->|Hne].
      - exfalso. apply Hk. left.
      - f_equal. apply IHa. intros Hin. apply Hk. by right. }
    rewrite Hset, IH; rewrite <- app_assoc; [reflexivity | exact Hnd].
Qed.

Lemma dumps_indent_strings (kv : string * string) (kvs : list (string * string)) :
  json_dumps_indent 0 (PDict (string_items (kv :: kvs)))
  = String "{"%char
      (inner1 ++ str_join ("," ++ inner1) (map member_text (kv :: kvs))
       ++ nl ++ "}" ++ "").
Proof.
  unfold string_items. cbn [map json_dumps_indent].
  rewrite map_map. cbn [fst snd json_dumps_indent json_dumps].
  reflexivity.
Qed.

Lemma length_member_text (kv : string * string) :
  (1 ≤ String.length (member_text kv))%nat.
Proof. unfold member_text, json_string. cbn. lia. Qed.

Lemma length_joined_members (sep : string) (kvs : list (string * string)) :
  (length kvs ≤ String.length (str_join sep (map member_text kvs)))%nat.
Proof.
  induction kvs as [|kv [|kv' kvs] IH].
  - cbn. lia.
  - cbn [map str_join length]. apply length_member_text.
  - change (str_join sep (map member_text (kv :: kv' :: kvs)))
      with (member_text kv ++ sep ++ str_join sep (map member_text (kv' :: kvs))).
    rewrite !length_app_str. pose proof (length_member_text kv).
    cbn [length] in *. lia.
Qed.

Lemma joined_members_head (sep : string) (kv : string * string)
    (kvs : list (string * string)) (T : string) :
  ∃ Z, str_join sep (map member_text (kv :: kvs)) ++ T = member_text kv ++ Z.
Proof.
  destruct kvs as [|kv' kvs].
  - by exists T.
  - eexists. 
    change (str_join sep (map member_text (kv :: kv' :: kvs)))
      with (member_text kv ++ sep ++ str_join sep (map member_text (kv' :: kvs))).
    rewrite app_assoc_str. reflexivity.
Qed.

Lemma parse_value_object (fuel : nat) (s' : string) :
  RefJson.parse_value (S fuel) (String "{"%char s')
  = match RefJson.head_is "}"%char (RefJson.skip_ws s') with
    | Some rest => Some (PDict [], rest)
    | None =>
        match RefJson.parse_members fuel s' with
        | Some (kvs, rest) =>
            Some (PDict (foldl (fun d kv => RefJson.dict_set (fst kv) (snd kv) d)
                               [] kvs), rest)
        | None => None
        end
    end.
Proof. reflexivity. Qed.

Lemma string_items_keys (kvs : list (string * string)) :
  map fst (string_items kvs) = map fst kvs.
Proof. unfold string_items. rewrite map_map. reflexivity. Qed.

(** The decoder of the examples reads back every dict of strings that
    [json.dump(..., indent=2)] writes. *)
Lemma ref_json_reads_string_dicts (kvs : list (string * string)) :
  NoDup (map fst kvs) →
  RefJson.loads (json_dumps_indent 0 (PDict (string_items kvs)))
  = Some (PDict (string_items kvs)).
Proof.
  intros Hnd. destruct kvs as [|kv kvs]; [reflexivity|].
  rewrite dumps_indent_strings. unfold RefJson.loads.
  set (text := inner1 ++ _).
  rewrite parse_value_object.
  assert (Hopen : RefJson.head_is "}"%char (RefJson.skip_ws text) = None).
  { unfold text.
    destruct (joined_members_head ("," ++ inner1) kv kvs (nl ++ "}" ++ ""))
      as [Z ->].
    destruct kv as [k v]. rewrite member_shape. reflexivity. }
  rewrite Hopen.
  unfold text. rewrite parse_members_strings.
  - rewrite foldl_dict_set_fresh; [reflexivity|].
    cbn [app]. by rewrite string_items_keys.
  - cbn [String.length]. fold text. unfold text.
    rewrite !length_app_str.
    pose proof (length_joined_members ("," ++ inner1) (kv :: kvs)).
    cbn [length] in *. lia.
Qed.

Lemma four_key_mapping_strings (prompts : pyval) :
  four_key_mapping prompts →
  ∃ kvs, prompts = PDict (string_items kvs) ∧ NoDup (map fst kvs).
Proof.
  intros (items & -> & Hnd & _ & Hstr).
  assert (∃ kvs, items = string_items kvs) as [kvs ->].
  { clear Hnd. induction Hstr as [|[k v] items [text Hv] _ [kvs ->]].
    - by exists [].
    - cbn in Hv. subst v. by exists ((k, text) :: kvs). }
  exists kvs. split; [reflexivity|]. by rewrite string_items_keys in Hnd.
Qed.

(** With the decoder of the examples, saving any well-formed mapping on a
    disk that can be written and loading it again returns the mapping. *)
Lemma ref_json_save_then_load (prompts : pyval) (w : world) :
  four_key_mapping prompts →
  disk_writable w = true →
  fst (PromptManager.load_prompts (H := RefJson.decoder)
         (snd (PromptManager.save_prompts prompts w)))
  = inr prompts.
Proof.
  intros Hwf Hdisk.
  destruct (four_key_mapping_strings prompts Hwf) as (kvs & -> & Hnd).
  unfold PromptManager.save_prompts. rewrite Hdisk. cbn [snd].
  unfold PromptManager.load_prompts.
  cbn [prompts_file set_session_prompts write_prompts_file].
  unfold json_loads, RefJson.decoder.
  by rewrite ref_json_reads_string_dicts.
Qed.

(** * Further properties of the code *)

(** ** More on the pattern classifier *)

Lemma classifier_labels (email : FreeLLMService.content) :
  FreeLLMService._categorize_email email ∈ EmailProcessor.valid_categories.
Proof.
  unfold FreeLLMService._categorize_email, EmailProcessor.valid_categories.
  repeat case_match; in_list.
Qed.

Lemma cleaner_labels (response : string) :
  EmailProcessor._clean_category_response response
  ∈ EmailProcessor.valid_categories.
Proof.
  unfold EmailProcessor._clean_category_response.
  destruct (filter _ EmailProcessor.valid_categories) as [|c rest] eqn:E.
  - unfold EmailProcessor.valid_categories. repeat case_match; in_list.
  - assert (Hin : c ∈ filter
        (λ category, str_in (str_lower category) (str_lower response) = true)
        EmailProcessor.valid_categories) by (rewrite E; left).
    by apply list_elem_of_filter in Hin as [_ Hin].
Qed.

(** X2.  The pattern classifier answers with one of the four labels, and
    the category cleaner of the email processor leaves its answer as it
    is. *)
Theorem cleaner_keeps_classifier_answer (email : FreeLLMService.content) :
  FreeLLMService._categorize_email email ∈ ["Important"; "Newsletter"; "Spam"; "To-Do"]
  ∧ EmailProcessor._clean_category_response (FreeLLMService._categorize_email email)
    = FreeLLMService._categorize_email email.
Proof.
  pose proof (classifier_labels email) as Hin. split; [exact Hin|].
  unfold EmailProcessor.valid_categories in Hin.
  repeat (apply elem_of_cons in Hin as [->|Hin]; [reflexivity|]).
  by apply elem_of_nil in Hin.
Qed.

(** X1.  Whatever the prompts and the email, a categorisation that
    returns gives one of the four labels "Important", "Newsletter", "Spam"
    and "To-Do". *)
Theorem categorization_yields_a_label `{JsonDecoder} (email : email_record)
    (w w' : world) (category : string) :
  EmailProcessor._categorize_email email w = (inr category, w') →
  category ∈ ["Important"; "Newsletter"; "Spam"; "To-Do"].
Proof.
  unfold EmailProcessor._categorize_email, bind, ret.
  destruct (PromptManager.get_prompt "categorization" w) as [[e|p] w1];
    [discriminate|].
  intros [= <- _]. apply cleaner_labels.
Qed.

(** The first email of the mock inbox under the default prompts. *)
Lemma categorization_yields_a_label_witness :
  "Important" ∈ ["Important"; "Newsletter"; "Spam"; "To-Do"].
Proof.
  refine (categorization_yields_a_label (H := RefJson.decoder)
            (nth_mock_email 0) default_world
            (snd (EmailProcessor._categorize_email (H := RefJson.decoder)
                    (nth_mock_email 0) default_world))
            "Important" _).
  vm_compute. reflexivity.
Defined.

(** ** Priority *)


(** X3.  A priority is "high", "medium" or "low"; it is "high" as soon as
    one of "urgent", "asap", "immediately", "critical" occurs in the text,
    in any mix of cases, whatever else the text says. *)
Theorem priority_levels (text : string) :
  FreeLLMService._determine_priority text ∈ ["high"; "medium"; "low"]
  ∧ ∀ word, word ∈ ["urgent"; "asap"; "immediately"; "critical"] →
      occurs_ignoring_case word text →
      FreeLLMService._determine_priority text = "high".
Proof.
  split.
  - unfold FreeLLMService._determine_priority. repeat case_match; in_list.
  - intros word Hword Hocc. apply occurs_lower in Hocc.
    assert (Hlow : str_lower word = word).
    { pose proof Hword as Hw.
      repeat (apply elem_of_cons in Hw as [->|Hw]; [reflexivity|]).
      by apply elem_of_nil in Hw. }
    rewrite Hlow in Hocc.
    unfold FreeLLMService._determine_priority.
    assert (any_in ["urgent"; "asap"; "immediately"; "critical"]
                   (str_lower text) = true) as ->; [|reflexivity].
    apply existsb_exists. exists word. split; [|exact Hocc].
    by apply list_elem_of_In.
Qed.

(** A request that is pressing and patient at once. *)
Lemma priority_levels_witness :
  FreeLLMService._determine_priority "Reply ASAP, no rush otherwise." = "high".
Proof.
  refine (proj2 (priority_levels "Reply ASAP, no rush otherwise.") "asap" _ _).
  - in_list.
  - exists "Reply ", "ASAP", ", no rush otherwise.". split; reflexivity.
Defined.

(** ** Cleaning a task text *)








(** ** The shape of the extractor's answer *)

Lemma priority_level (text : string) :
  FreeLLMService._determine_priority text ∈ ["high"; "medium"; "low"].
Proof. unfold FreeLLMService._determine_priority. repeat case_match; in_list. Qed.

Lemma extracted_tasks_bounds (text : string) :
  (1 ≤ length (FreeLLMService.extracted_tasks text) ≤ 3)%nat.
Proof.
  split; [|apply length_extracted_tasks].
  unfold FreeLLMService.extracted_tasks.
  destruct (FreeLLMService.sweep_tasks text) as [|t [|t2 [|t3 ts]]]; cbn; lia.
Qed.

(** X5.  The extractor's task list is never empty and never longer than
    three; each of its elements is a record with the keys "task",
    "priority", "deadline" and one of the three priorities; a task that
    comes from a bullet has priority "medium" and no deadline. *)
Theorem extracted_tasks_well_formed (text : string) :
  (1 ≤ length (FreeLLMService.extracted_tasks text) ≤ 3)%nat
  ∧ Forall is_task_record (FreeLLMService.extracted_tasks text)
  ∧ Forall (fun v => ∃ task_text, v = FreeLLMService.task task_text "medium" "")
           (FreeLLMService.bullet_tasks text).
Proof.
  assert (Hsweep : Forall is_task_record (FreeLLMService.sweep_tasks text)).
  { unfold FreeLLMService.sweep_tasks, FreeLLMService.please_tasks,
      FreeLLMService.need_tasks, FreeLLMService.bullet_tasks.
    rewrite !Forall_app. repeat split; apply Forall_map, Forall_true; intros m;
      (eexists _, _, _; split; [reflexivity|]);
      first [apply priority_level | in_list]. }
  split; [|split].
  - apply extracted_tasks_bounds.
  - unfold FreeLLMService.extracted_tasks.
    destruct (FreeLLMService.sweep_tasks text) as [|t ts].
    + repeat constructor. eexists _, _, _. split; [reflexivity | in_list].
    + apply Forall_take. exact Hsweep.
  - unfold FreeLLMService.bullet_tasks. apply Forall_map, Forall_true.
    intros m. by eexists.
Qed.

(** ** Patterns that open with a literal *)

Lemma rmatch_lit {A : Type} (m s : string) (pos : nat) (g : option span)
    (k : @cont A) :
  rmatch (lit m) s pos g k
  = if starts_with m s
    then k (str_drop (String.length m) s) (pos + String.length m) g
    else None.
Proof.
  revert s pos. induction m as [|c m IH]; intros s pos.
  - cbn. by rewrite Nat.add_0_r.
  - cbn [lit rmatch chr]. destruct s as [|x s]; [reflexivity|].
    cbn [starts_with String.length str_drop].
    destruct (chr_eqb c x); [|reflexivity].
    cbn [andb]. rewrite IH. by rewrite Nat.add_succ_r.
Qed.

Lemma ilit_opens (m : string) : opens_with true m (ilit m).
Proof. intros A s pos g k Hs. by rewrite rmatch_ilit, Hs. Qed.

Lemma cat_ilit_opens (m : string) (r : regex) : opens_with true m (Cat (ilit m) r).
Proof. intros A s pos g k Hs. cbn [rmatch]. by rewrite rmatch_ilit, Hs. Qed.

Lemma lit_opens (m : string) : opens_with false m (lit m).
Proof. intros A s pos g k Hs. by rewrite rmatch_lit, Hs. Qed.

Lemma cat_lit_opens (m : string) (r : regex) : opens_with false m (Cat (lit m) r).
Proof. intros A s pos g k Hs. cbn [rmatch]. by rewrite rmatch_lit, Hs. Qed.

(** A pattern that opens with a word is not found in a text that does
    not hold the word. *)
Lemma search_needs_word (ci : bool) (m : string) (r : regex) (s : string) :
  opens_with ci m r →
  (if ci then str_in (str_lower m) (str_lower s) else str_in m s) = false →
  re_search r s = None.
Proof.
  intros Hopen. induction s as [|x s IH]; intros Hin.
  - cbn [re_search]. unfold match_here. rewrite Hopen; [reflexivity|].
    destruct ci; cbn [str_lower str_in] in Hin; by rewrite orb_false_r in Hin.
  - cbn [re_search]. unfold match_here.
    destruct ci.
    + change (str_lower (String x s))
        with (String (lower_char x) (str_lower s)) in Hin.
      apply str_in_false_cons in Hin as [Hs Hrest].
      rewrite Hopen by exact Hs. by apply IH.
    + apply str_in_false_cons in Hin as [Hs Hrest].
      rewrite Hopen by exact Hs. by apply IH.
Qed.

(** X6.  No deadline comes out of a text that has none of the words the
    deadline patterns open with: "by", "due", "deadline", "tomorrow",
    "next", "this". *)
Theorem no_deadline_without_trigger_word (text : string) :
  (∀ word, word ∈ ["by"; "due"; "deadline"; "tomorrow"; "next"; "this"] →
           str_in word (str_lower text) = false) →
  FreeLLMService._extract_deadline text = "".
Proof.
  intros Hnone.
  assert (Hsearch : ∀ m r, opens_with true m r →
            str_lower m ∈ ["by"; "due"; "deadline"; "tomorrow"; "next"; "this"] →
            re_search r text = None).
  { intros m r Hopen Hm. apply (search_needs_word true m r text Hopen).
    by apply Hnone. }
  unfold FreeLLMService._extract_deadline, FreeLLMService.deadline_patterns, cat.
  cbn [FreeLLMService.first_deadline foldr].
  rewrite (Hsearch "by" _ (cat_ilit_opens _ _)) by in_list.
  rewrite (Hsearch "due" _ (cat_ilit_opens _ _)) by in_list.
  rewrite (Hsearch "deadline" _ (cat_ilit_opens _ _)) by in_list.
  rewrite (Hsearch "tomorrow" _ (ilit_opens _)) by in_list.
  rewrite (Hsearch "next" _ (cat_ilit_opens _ _)) by in_list.
  rewrite (Hsearch "this" _ (cat_ilit_opens _ _)) by in_list.
  rewrite (Hsearch "by" _ (cat_ilit_opens _ _)) by in_list.
  rewrite (Hsearch "by" _ (cat_ilit_opens _ _)) by in_list.
  reflexivity.
Qed.

(** A request without a date. *)
Lemma no_deadline_without_trigger_word_witness :
  FreeLLMService._extract_deadline "Send the report to Anna." = "".
Proof.
  apply no_deadline_without_trigger_word.
  intros word Hin. each_by_evaluation Hin.
Defined.

(** ** Reading the fields out of a prompt *)

(** X7.  [_extract_email_content] keeps the prompt as [full_text]; without
    a "from:" label the sender is empty, without a "subject:" label the
    subject is empty, and without a "body:" label the body is the whole
    prompt. *)
Theorem content_defaults (prompt : string) :
  let content := FreeLLMService._extract_email_content prompt in
  FreeLLMService.full_text content = prompt
  ∧ (str_in "from:" (str_lower prompt) = false →
     FreeLLMService.sender content = "")
  ∧ (str_in "subject:" (str_lower prompt) = false →
     FreeLLMService.subject content = "")
  ∧ (str_in "body:" (str_lower prompt) = false →
     FreeLLMService.body content = prompt).
Proof.
  unfold FreeLLMService._extract_email_content. cbn.
  split; [reflexivity|]. repeat split; intros Hno.
  - unfold FreeLLMService.from_re, cat. cbn [foldr].
    by rewrite (search_needs_word true "FROM:" _ prompt (cat_ilit_opens _ _)).
  - unfold FreeLLMService.subject_re, cat. cbn [foldr].
    by rewrite (search_needs_word true "SUBJECT:" _ prompt (cat_ilit_opens _ _)).
  - unfold FreeLLMService.body_re, cat. cbn [foldr].
    by rewrite (search_needs_word true "BODY:" _ prompt (cat_ilit_opens _ _)).
Qed.

(** A prompt without any label. *)
Lemma content_defaults_witness :
  FreeLLMService.body (FreeLLMService._extract_email_content "Summarize briefly")
  = "Summarize briefly".
Proof.
  refine (proj2 (proj2 (proj2 (content_defaults "Summarize briefly"))) _).
  reflexivity.
Defined.

(** ** The dispatcher *)

(** X8.  A prompt that holds "categorize", in any mix of cases, is
    answered with one of the four labels whatever else it holds; a prompt
    without it that holds "extract" and "action" is answered with a
    document of one to three tasks. *)
Theorem dispatcher_priorities (prompt : string) :
  (occurs_ignoring_case "categorize" prompt →
   FreeLLMService.generate_response prompt
   ∈ ["Important"; "Newsletter"; "Spam"; "To-Do"])
  ∧ (str_in "categorize" (str_lower prompt) = false →
     occurs_ignoring_case "extract" prompt →
     occurs_ignoring_case "action" prompt →
     ∃ tasks,
       FreeLLMService.generate_response prompt = json_dumps (tasks_document tasks)
       ∧ (1 ≤ length tasks ≤ 3)%nat).
Proof.
  unfold FreeLLMService.generate_response, FreeLLMService._smart_pattern_matcher.
  split.
  - intros Hc. apply occurs_lower in Hc. change (str_lower "categorize")
      with "categorize" in Hc. rewrite Hc. apply classifier_labels.
  - intros Hc He Ha. apply occurs_lower in He, Ha.
    change (str_lower "extract") with "extract" in He.
    change (str_lower "action") with "action" in Ha.
    rewrite Hc, He, Ha. cbn [andb].
    eexists. split; [reflexivity|].
    apply extracted_tasks_bounds.
Qed.

(** A prompt that names two branches. *)
Lemma dispatcher_priorities_witness :
  FreeLLMService.generate_response "Categorize, then extract the action items."
  ∈ ["Important"; "Newsletter"; "Spam"; "To-Do"].
Proof.
  refine (proj1 (dispatcher_priorities
                   "Categorize, then extract the action items.") _).
  exists "", "Categorize", ", then extract the action items.". split; reflexivity.
Defined.

(** ** Reply drafts *)

(** X9.  A drafted reply is one of the four fixed templates; it is the
    scheduling template as soon as the body holds "meeting", "schedule" or
    "call", in any mix of cases. *)
Theorem reply_is_a_fixed_template (email : FreeLLMService.content) :
  FreeLLMService._draft_reply email
  ∈ [FreeLLMService.scheduling_reply; FreeLLMService.question_reply;
     FreeLLMService.urgent_reply; FreeLLMService.generic_reply]
  ∧ ∀ word, word ∈ ["meeting"; "schedule"; "call"] →
      occurs_ignoring_case word (FreeLLMService.body email) →
      FreeLLMService._draft_reply email = FreeLLMService.scheduling_reply.
Proof.
  split.
  - unfold FreeLLMService._draft_reply. repeat case_match; in_list.
  - intros word Hword Hocc. apply occurs_lower in Hocc.
    assert (Hlow : str_lower word = word).
    { pose proof Hword as Hw.
      repeat (apply elem_of_cons in Hw as [->|Hw]; [reflexivity|]).
      by apply elem_of_nil in Hw. }
    rewrite Hlow in Hocc. unfold FreeLLMService._draft_reply.
    assert (any_in ["meeting"; "schedule"; "call"]
                   (str_lower (FreeLLMService.body email)) = true) as ->;
      [|reflexivity].
    apply existsb_exists. exists word. split; [|exact Hocc].
    by apply list_elem_of_In.
Qed.

(** An urgent question about a meeting. *)
Lemma reply_is_a_fixed_template_witness :
  FreeLLMService._draft_reply
    {| FreeLLMService.sender := "meeting.request@partner.com";
       FreeLLMService.subject := "Meeting Request";
       FreeLLMService.body := "URGENT question: can we Schedule a review?";
       FreeLLMService.full_text := "" |}
  = FreeLLMService.scheduling_reply.
Proof.
  refine (proj2 (reply_is_a_fixed_template _) "schedule" _ _).
  - in_list.
  - exists "URGENT question: can we ", "Schedule", " a review?".
    split; reflexivity.
Defined.

(** * Further properties: processing, statistics, prompts, queries *)

(** ** Every email is processed to an error *)

Lemma process_single_email_degrades `{JsonDecoder} (email : email_record)
    (w : world) :
  ∃ e w1,
    EmailProcessor.process_single_email email w
    = (inr (degraded email), st_error "Error processing email" e w1)
    ∧ prompts_file w1 = prompts_file w.
Proof.
  pose proof (try_block_stops email w) as Hstop.
  unfold EmailProcessor.process_single_email.
  assert (Hfile : ∀ r w', EmailProcessor._categorize_email email w = (r, w') →
                          prompts_file w' = prompts_file w).
  { intros r w'. unfold EmailProcessor._categorize_email, PromptManager.get_prompt,
      PromptManager.current_prompts, PromptManager.load_prompts, bind, get_state,
      ret, raise.
    destruct (prompts_file w) as [text|] eqn:Ef;
      [destruct (json_loads text) as [p|]|];
      cbn [session_prompts set_session_prompts st_error default];
      repeat case_match; intros; simplify_eq; cbn; done. }
  destruct (EmailProcessor._categorize_email email w) as [[e|category] w'] eqn:E.
  - rewrite Hstop. exists e, w'. split; [reflexivity | by eapply Hfile].
  - destruct (String.eqb category "To-Do"); rewrite Hstop;
      eexists _, w'; (split; [reflexivity | by eapply Hfile]).
Qed.

(** X10.  [process_single_email] never raises and never succeeds: whatever
    the email and the state, it returns the email with the category
    "Error", the empty list of actions and the summary "Failed to process
    email", its id, sender, subject, body, timestamp and read flag as they
    were; the last report it leaves is "Error processing email"; and
    processing the result again returns it unchanged. *)
Theorem every_email_is_processed_to_an_error `{JsonDecoder}
    (email : email_record) (w : world) :
  ∃ processed,
    fst (EmailProcessor.process_single_email email w) = inr processed
    ∧ email_category processed = Category "Error"
    ∧ email_actions processed = Some (PList [])
    ∧ email_summary processed = Some "Failed to process email"
    ∧ (email_id processed, email_sender processed, email_subject processed,
       email_body processed, email_timestamp processed, email_read processed)
      = (email_id email, email_sender email, email_subject email,
         email_body email, email_timestamp email, email_read email)
    ∧ (∃ e, last (reported (snd (EmailProcessor.process_single_email email w)))
            = Some ("Error processing email", e))
    ∧ ∀ w2, fst (EmailProcessor.process_single_email processed w2) = inr processed.
Proof.
  destruct (process_single_email_degrades email w) as (e & w1 & E & _).
  exists (degraded email). rewrite E. cbn [fst snd].
  repeat split.
  - exists e. cbn [st_error reported]. apply last_snoc.
  - intros w2.
    destruct (process_single_email_degrades (degraded email) w2)
      as (e2 & w3 & E2 & _).
    rewrite E2. reflexivity.
Qed.

Lemma process_batch_emails_degrades `{JsonDecoder} (emails : list email_record)
    (w : world) :
  fst (EmailProcessor.process_batch_emails emails w) = inr (map degraded emails).
Proof.
  revert w. induction emails as [|email rest IH]; intros w; [reflexivity|].
  cbn [EmailProcessor.process_batch_emails map]. unfold bind at 1.
  destruct (process_single_email_degrades email w) as (e & w1 & -> & _).
  unfold bind at 1. specialize (IH (st_error "Error processing email" e w1)).
  destruct (EmailProcessor.process_batch_emails rest _) as [r w2].
  cbn [fst] in IH. subst r. reflexivity.
Qed.

(** ** What the statistics add up to *)

Lemma stat_keys_spec (k : string) :
  k ∈ stat_keys ↔
  k = "total" ∨ k = "important" ∨ k = "newsletter" ∨ k = "spam" ∨ k = "todo"
  ∨ k = "unprocessed".
Proof.
  unfold stat_keys. rewrite !elem_of_cons, elem_of_nil. tauto.
Qed.

Lemma initial_stats_keys (emails : list email_record) :
  six_keys (EmailProcessor.initial_stats emails).
Proof.
  intros k. rewrite stat_keys_spec. unfold EmailProcessor.initial_stats. split.
  - intros [v Hv].
    repeat (apply lookup_insert_Some in Hv as [[<- _]|[_ Hv]]; [tauto|]).
    by rewrite lookup_empty in Hv.
  - intros Hk. destruct_or!; subst k; by simplify_map_eq.
Qed.

Lemma increment_keys (k : string) (stats : gmap string nat) :
  six_keys stats → k ∈ stat_keys → six_keys (EmailProcessor.increment k stats).
Proof.
  intros Hkeys Hk k'. unfold EmailProcessor.increment.
  destruct (decide (k' = k)) as [->|Hne].
  - rewrite lookup_insert_eq. split; [done | by eexists].
  - rewrite lookup_insert_ne by done. apply Hkeys.
Qed.

Lemma increment_sum (k : string) (stats : gmap string nat) :
  k ∈ stat_keys →
  stat_sum (EmailProcessor.increment k stats) = S (stat_sum stats).
Proof.
  intros Hk. apply stat_keys_spec in Hk.
  unfold stat_sum, stat, EmailProcessor.increment.
  destruct_or!; subst k; simplify_map_eq; lia.
Qed.

(** One turn of the loop adds one under one of the six keys, and under
    "total" only for an email whose category is the string "total". *)
Lemma count_email_key (stats : gmap string nat) (email : email_record) :
  six_keys stats →
  ∃ k, k ∈ stat_keys
       ∧ EmailProcessor.count_email stats email = EmailProcessor.increment k stats
       ∧ (k = "total" → email_category email = Category "total").
Proof.
  intros Hkeys. unfold EmailProcessor.count_email.
  assert (Hu : "unprocessed" ∈ stat_keys) by (unfold stat_keys; in_list).
  destruct (email_category email) as [| |c] eqn:Ec.
  - assert (is_Some (stats !! "unprocessed")) as [v ->] by by apply Hkeys.
    exists "unprocessed". done.
  - exists "unprocessed". done.
  - destruct (stats !! c) as [v|] eqn:Ev.
    + exists c. split; [apply Hkeys; by eexists|]. split; [done|]. by intros ->.
    + exists "unprocessed". done.
Qed.

Lemma stats_loop_sum (emails : list email_record) (stats : gmap string nat) :
  six_keys stats →
  six_keys (foldl EmailProcessor.count_email stats emails)
  ∧ stat_sum (foldl EmailProcessor.count_email stats emails)
    = stat_sum stats + length emails
  ∧ (Forall (fun e => email_category e ≠ Category "total") emails →
     foldl EmailProcessor.count_email stats emails !! "total" = stats !! "total").
Proof.
  revert stats. induction emails as [|email rest IH]; intros stats Hkeys.
  - cbn [foldl length]. rewrite Nat.add_0_r. done.
  - cbn [foldl length].
    destruct (count_email_key stats email Hkeys) as (k & Hk & -> & Htotal).
    destruct (IH _ (increment_keys k stats Hkeys Hk)) as (IH1 & IH2 & IH3).
    split; [exact IH1|]. split.
    + rewrite IH2, increment_sum by done. lia.
    + intros Hall. apply Forall_cons in Hall as [Hne Hall].
      rewrite IH3 by done. unfold EmailProcessor.increment.
      apply lookup_insert_ne. intros ->. by apply Hne, Htotal.
Qed.

(** X12.  [get_email_stats] returns a dict with the six keys "total",
    "important", "newsletter", "spam", "todo", "unprocessed" and no other;
    its six numbers add up to twice the number of emails, since each email
    adds one under exactly one key; and on an inbox in which no email has
    the category "total", the number under "total" is the number of emails
    and the five counters add up to it. *)
Theorem stats_add_up (emails : list email_record) :
  let stats := EmailProcessor.get_email_stats emails in
  (∀ k, is_Some (stats !! k) ↔ k ∈ stat_keys)
  ∧ stat stats "total" + stat stats "important" + stat stats "newsletter"
    + stat stats "spam" + stat stats "todo" + stat stats "unprocessed"
    = 2 * length emails
  ∧ (Forall (fun e => email_category e ≠ Category "total") emails →
     stat stats "total" = length emails
     ∧ stat stats "important" + stat stats "newsletter" + stat stats "spam"
       + stat stats "todo" + stat stats "unprocessed" = length emails).
Proof.
  intros stats. unfold stats, EmailProcessor.get_email_stats.
  destruct (stats_loop_sum emails _ (initial_stats_keys emails))
    as (Hkeys & Hsum & Htotal).
  assert (Hinit : stat_sum (EmailProcessor.initial_stats emails) = length emails).
  { unfold stat_sum, stat, EmailProcessor.initial_stats. simplify_map_eq. lia. }
  rewrite Hinit in Hsum. unfold stat_sum in Hsum.
  split; [exact Hkeys|]. split; [lia|].
  intros Hall. specialize (Htotal Hall).
  assert (Ht : stat (foldl EmailProcessor.count_email
                       (EmailProcessor.initial_stats emails) emails) "total"
               = length emails).
  { unfold stat. rewrite Htotal. unfold EmailProcessor.initial_stats.
    by simplify_map_eq. }
  split; [exact Ht | lia].
Qed.

(** The mock inbox as the loader gives it. *)
Lemma stats_add_up_witness :
  let stats := EmailProcessor.get_email_stats MockDataLoader._generate_mock_emails in
  stat stats "total" = 5
  ∧ stat stats "important" + stat stats "newsletter" + stat stats "spam"
    + stat stats "todo" + stat stats "unprocessed" = 5.
Proof.
  refine (proj2 (proj2 (stats_add_up MockDataLoader._generate_mock_emails)) _).
  repeat constructor; discriminate.
Defined.

(** X11.  A batch always comes back whole and in error: every email of
    the result has the category "Error", and [get_email_stats] of the
    result counts every email under "unprocessed" and none under
    "important", "todo", "newsletter" or "spam", with "total" the number
    of emails. *)
Theorem processed_inbox_counts_as_unprocessed `{JsonDecoder}
    (emails : list email_record) (w : world) :
  ∃ processed,
    fst (EmailProcessor.process_batch_emails emails w) = inr processed
    ∧ length processed = length emails
    ∧ Forall (fun p => email_category p = Category "Error") processed
    ∧ let stats := EmailProcessor.get_email_stats processed in
      stats !! "total" = Some (length emails)
      ∧ stats !! "unprocessed" = Some (length emails)
      ∧ stats !! "important" = Some 0 ∧ stats !! "todo" = Some 0
      ∧ stats !! "newsletter" = Some 0 ∧ stats !! "spam" = Some 0.
Proof.
  exists (map degraded emails).
  split; [apply process_batch_emails_degrades|].
  split; [apply length_map|].
  assert (Herr : Forall (fun p => email_category p = Category "Error")
                        (map degraded emails)).
  { apply Forall_forall. intros p Hp. apply list_elem_of_fmap in Hp as (e & -> & _).
    reflexivity. }
  split; [exact Herr|]. intros stats.
  assert (Hlab : Forall (fun e => ∃ c, email_category e = Category c
                                       ∧ c ∈ written_labels) (map degraded emails)).
  { eapply Forall_impl; [exact Herr|]. intros p Hp. exists "Error".
    split; [exact Hp | unfold written_labels; in_list]. }
  assert (Hinit : labels_uncounted 0 (EmailProcessor.initial_stats (map degraded emails))).
  { unfold labels_uncounted, EmailProcessor.initial_stats.
    repeat split; try (by simplify_map_eq).
    intros c Hl. unfold written_labels in Hl.
    repeat (apply elem_of_cons in Hl as [->|Hl]; [by simplify_map_eq|]).
    by apply elem_of_nil in Hl. }
  destruct (stats_loop_labels _ Hlab 0 _ Hinit) as (Hi & Ht & Hn & Hs & Hu & _).
  destruct (stats_loop_sum (map degraded emails) _
              (initial_stats_keys (map degraded emails))) as (_ & _ & Htotal).
  unfold stats, EmailProcessor.get_email_stats.
  rewrite Htotal, Hi, Ht, Hn, Hs, Hu.
  - unfold EmailProcessor.initial_stats. rewrite lookup_insert_eq, length_map.
    done.
  - eapply Forall_impl; [exact Herr|]. intros p Hp. rewrite Hp. discriminate.
Qed.

(** ** Actions out of plain text *)

Lemma text_deadline_exn (patterns : list regex) (low : string) (e : exn) :
  EmailProcessor.text_deadline patterns low = inl e → e = IndexError.
Proof.
  induction patterns as [|p ps IH]; cbn [EmailProcessor.text_deadline]; [done|].
  destruct (re_search p low); [|exact IH].
  destruct (EmailProcessor.has_group p); congruence.
Qed.

Lemma line_action_shape (raw : string) :
  match EmailProcessor.line_action raw with
  | inl e => e = IndexError
  | inr None => True
  | inr (Some a) =>
      ∃ priority deadline,
        a = FreeLLMService.task (str_strip raw) priority deadline
        ∧ priority ∈ ["high"; "medium"; "low"]
        ∧ (10 ≤ String.length (str_strip raw))%nat
        ∧ any_in ["task"; "action"; "need to"; "please"; "review"; "prepare"]
                 (str_lower (str_strip raw)) = true
  end.
Proof.
  unfold EmailProcessor.line_action.
  destruct (String.length (str_strip raw) <? 10)%nat eqn:El; [done|].
  apply Nat.ltb_ge in El.
  destruct (any_in _ (str_lower (str_strip raw))) eqn:Ek; [|done].
  destruct (EmailProcessor.text_deadline _ _) as [e|d] eqn:Ed.
  - by eapply text_deadline_exn.
  - eexists _, _. split; [reflexivity|]. split; [|done].
    repeat case_match; in_list.
Qed.

Lemma line_actions_shape (text : string) (lines : list string) :
  (∀ raw, raw ∈ lines → raw ∈ split_lines text) →
  match EmailProcessor.line_actions lines with
  | inl e => e = IndexError
  | inr actions =>
      Forall (fun a => ∃ line priority deadline,
                a = FreeLLMService.task line priority deadline
                ∧ priority ∈ ["high"; "medium"; "low"]
                ∧ action_line_of text line) actions
      ∧ (length actions ≤ length lines)%nat
  end.
Proof.
  induction lines as [|raw rest IH]; intros Hsub;
    cbn [EmailProcessor.line_actions]; [split; [constructor | done]|].
  pose proof (line_action_shape raw) as Hraw.
  destruct (EmailProcessor.line_action raw) as [e|a]; [exact Hraw|].
  assert (Hrest : ∀ r, r ∈ rest → r ∈ split_lines text)
    by (intros r Hr; apply Hsub; by apply list_elem_of_further).
  specialize (IH Hrest).
  destruct (EmailProcessor.line_actions rest) as [e|actions]; [exact IH|].
  destruct IH as [IH Hlen].
  destruct a as [a|]; simpl; [|split; [exact IH | lia]].
  split; [|lia]. constructor; [|exact IH].
  destruct Hraw as (priority & deadline & -> & Hp & Hl & Hk).
  exists (str_strip raw), priority, deadline. repeat split; try done.
  exists raw. repeat split; try done. apply Hsub, list_elem_of_here.
Qed.

(** X13.  [_extract_actions_from_text] raises nothing but [IndexError];
    when it returns, it returns a list that is not empty and no longer
    than the text has lines, of task records with a priority among
    "high", "medium", "low": either the one task "Review this email", or
    tasks each of which is a stripped line of the text, of ten characters
    or more, that holds one of the six keywords. *)
Theorem text_actions_shape (text : string) :
  match EmailProcessor._extract_actions_from_text text with
  | inl e => e = IndexError
  | inr v =>
      ∃ actions,
        v = PList actions
        ∧ (1 ≤ length actions ≤ length (split_lines text))%nat
        ∧ Forall is_task_record actions
        ∧ (actions = [review_task]
           ∨ Forall (fun a => ∃ line priority deadline,
                       a = FreeLLMService.task line priority deadline
                       ∧ action_line_of text line) actions)
  end.
Proof.
  unfold EmailProcessor._extract_actions_from_text.
  pose proof (line_actions_shape text (split_lines text) (fun _ Hin => Hin))
    as Hshape.
  destruct (EmailProcessor.line_actions (split_lines text)) as [e|actions];
    [exact Hshape|].
  destruct Hshape as [Hall Hlen].
  assert (Hlines : (1 ≤ length (split_lines text))%nat).
  { destruct text as [|c s]; cbn [split_lines]; [cbn; lia|].
    destruct (chr_eqb c nl_char); [cbn; lia|].
    destruct (split_lines s); cbn; lia. }
  destruct actions as [|a actions].
  - exists [review_task]. split; [reflexivity|]. split; [cbn; lia|].
    split; [|by left].
    constructor; [|constructor]. eexists _, _, _. split; [reflexivity | in_list].
  - exists (a :: actions). split; [reflexivity|].
    split; [cbn [length] in *; lia|]. split.
    + eapply Forall_impl; [exact Hall|].
      intros x (line & priority & deadline & -> & Hp & _). by eexists _, _, _.
    + right. eapply Forall_impl; [exact Hall|].
      intros x (line & priority & deadline & -> & _ & Hl). by eexists _, _, _.
Qed.

(** A literal is found wherever the text holds it. *)
Lemma search_lit_found (m s : string) :
  str_in m s = true → is_Some (re_search (lit m) s).
Proof.
  induction s as [|x s IH]; intros Hin.
  - cbn [str_in] in Hin. rewrite orb_false_r in Hin.
    rewrite re_search_unfold. unfold match_here. rewrite rmatch_lit, Hin. by eexists.
  - cbn [str_in] in Hin. rewrite re_search_unfold. unfold match_here.
    rewrite rmatch_lit.
    destruct (starts_with m (String x s)); [by eexists|].
    cbn [orb] in Hin. by apply IH.
Qed.

Lemma line_actions_raise (lines : list string) (raw : string) :
  raw ∈ lines →
  EmailProcessor.line_action raw = inl IndexError →
  EmailProcessor.line_actions lines = inl IndexError.
Proof.
  induction lines as [|l rest IH]; intros Hin Hraise;
    [by apply elem_of_nil in Hin|].
  cbn [EmailProcessor.line_actions].
  pose proof (line_action_shape l) as Hl.
  destruct (EmailProcessor.line_action l) as [e|a] eqn:El; [by subst e|].
  apply elem_of_cons in Hin as [->|Hin]; [congruence|].
  by rewrite (IH Hin Hraise).
Qed.

(** X14.  A line that is kept as an action and holds "tomorrow", with no
    "by", "due" or "deadline" followed by a word and a day before it in
    the pattern list, makes [_extract_actions_from_text] raise
    [IndexError]: the pattern "tomorrow" has no group for [group(1)]. *)
Theorem tomorrow_raises_index_error (text raw : string) :
  let line := str_strip raw in
  let low := str_lower line in
  raw ∈ split_lines text →
  (10 ≤ String.length line)%nat →
  any_in ["task"; "action"; "need to"; "please"; "review"; "prepare"] low = true →
  str_in "tomorrow" low = true →
  (∀ pattern, pattern ∈ take 3 EmailProcessor.text_deadline_patterns →
              re_search pattern low = None) →
  EmailProcessor._extract_actions_from_text text = inl IndexError.
Proof.
  intros line low Hin Hlen Hkey Htom Hnone.
  unfold EmailProcessor._extract_actions_from_text.
  rewrite (line_actions_raise (split_lines text) raw Hin); [reflexivity|].
  unfold EmailProcessor.line_action. fold line. fold low.
  apply Nat.ltb_ge in Hlen. rewrite Hlen, Hkey.
  unfold EmailProcessor.text_deadline_patterns in *.
  cbn [take] in Hnone. cbn [EmailProcessor.text_deadline].
  rewrite !Hnone by in_list.
  destruct (search_lit_found "tomorrow" low Htom) as [m ->].
  reflexivity.
Qed.

(** The opening of the first email of the mock inbox. *)
Lemma tomorrow_raises_index_error_witness :
  EmailProcessor._extract_actions_from_text
    "Hi team, we need to review the Q4 deliverables by tomorrow. Please prepare your status reports."
  = inl IndexError.
Proof.
  apply (tomorrow_raises_index_error _
    "Hi team, we need to review the Q4 deliverables by tomorrow. Please prepare your status reports.").
  - apply list_elem_of_here.
  - vm_compute. lia.
  - vm_compute. reflexivity.
  - vm_compute. reflexivity.
  - intros pattern Hp. unfold EmailProcessor.text_deadline_patterns in Hp.
    cbn [take] in Hp. each_by_evaluation Hp.
Defined.

(** ** The extractor behind the prompt *)

Lemma occurs_in_full_prompt (word template before body after : string) :
  occurs_ignoring_case word template ∨ occurs_ignoring_case word body →
  str_in (str_lower word)
         (str_lower (template ++ before ++ body ++ after)) = true.
Proof.
  intros [Ht|Hb].
  - rewrite str_lower_app. apply str_in_app_l. by apply occurs_lower.
  - rewrite !str_lower_app. apply str_in_app_r, str_in_app_r, str_in_app_l.
    by apply occurs_lower.
Qed.

Lemma extract_context_split (email : email_record) :
  nl ++ nl ++ EmailProcessor.extract_context email
  = (nl ++ nl ++ nl ++ EmailProcessor.indent8 ++ "EMAIL CONTENT:" ++ nl
     ++ EmailProcessor.indent8)
    ++ email_body email ++ (nl ++ EmailProcessor.indent8).
Proof.
  unfold EmailProcessor.extract_context. by rewrite !app_assoc_str.
Qed.

Lemma label_is_no_action `{JsonDecoder} (label : string) :
  label ∈ EmailProcessor.valid_categories →
  EmailProcessor._parse_actions_response label = inr (PList [review_task]).
Proof.
  unfold EmailProcessor.valid_categories. intros Hl.
  repeat (apply elem_of_cons in Hl as [->|Hl]; [reflexivity|]).
  by apply elem_of_nil in Hl.
Qed.

(** X15.  When the word "categorize" occurs, in whatever case, in the
    action prompt or in the body of the email, [extract_actions] returns
    the single task "Review this email" with priority "medium" and no
    deadline, whatever requests the body holds: the dispatcher answers
    with a category label, which the response parser reads as a text
    without actions. *)
Theorem categorize_hides_the_tasks `{JsonDecoder} (email : email_record)
    (w w' : world) (action_prompt : pyval) :
  PromptManager.get_prompt "action_extraction" w = (inr action_prompt, w') →
  occurs_ignoring_case "categorize" (py_str action_prompt)
  ∨ occurs_ignoring_case "categorize" (email_body email) →
  EmailProcessor.extract_actions email w
  = (inr (PList [FreeLLMService.task "Review this email" "medium" ""]), w').
Proof.
  intros Hget Hocc. unfold EmailProcessor.extract_actions, bind.
  rewrite Hget. unfold EmailProcessor.lift. f_equal.
  unfold FreeLLMService.generate_response, FreeLLMService._smart_pattern_matcher.
  rewrite extract_context_split.
  rewrite (occurs_in_full_prompt "categorize" _ _ _ _ Hocc).
  apply label_is_no_action, classifier_labels.
Qed.

(** A request to file invoices, under the default prompts. *)
Lemma categorize_hides_the_tasks_witness :
  fst (EmailProcessor.extract_actions (H := RefJson.decoder) filing_request
         default_world)
  = inr (PList [FreeLLMService.task "Review this email" "medium" ""]).
Proof.
  refine (f_equal fst
            (categorize_hides_the_tasks (H := RefJson.decoder) filing_request
               default_world
               (snd (PromptManager.get_prompt (H := RefJson.decoder)
                       "action_extraction" default_world))
               (match PromptManager.default_prompts with
                | PDict kvs => default (PStr "") (dict_get kvs "action_extraction")
                | _ => PStr ""
                end) _ _)).
  - vm_compute. reflexivity.
  - right. exists "Please ", "categorize", " the invoices and send them to me by Friday.".
    split; reflexivity.
Defined.

(** X16.  When the action prompt is a string and the full prompt holds
    "extract" and "action" but not "categorize", [extract_actions]
    returns the tasks that the sweeps find in the body that
    [_extract_email_content] reads out of the full prompt, between one and
    three of them, provided the decoder reads the document of these tasks
    back. *)
Theorem extract_actions_answers_with_the_sweep `{JsonDecoder}
    (email : email_record) (w w' : world) (template : string) :
  let full_prompt :=
    template ++ nl ++ nl ++ EmailProcessor.extract_context email in
  let swept :=
    FreeLLMService.body (FreeLLMService._extract_email_content full_prompt) in
  let tasks := FreeLLMService.extracted_tasks swept in
  PromptManager.get_prompt "action_extraction" w = (inr (PStr template), w') →
  str_in "categorize" (str_lower full_prompt) = false →
  str_in "extract" (str_lower full_prompt) = true →
  str_in "action" (str_lower full_prompt) = true →
  json_loads (json_dumps (tasks_document tasks)) = Some (tasks_document tasks) →
  EmailProcessor.extract_actions email w = (inr (PList tasks), w')
  ∧ (1 ≤ length tasks ≤ 3)%nat.
Proof.
  intros full_prompt swept tasks Hget Hcat Hext Hact Hloads.
  split; [|apply extracted_tasks_bounds].
  unfold EmailProcessor.extract_actions, bind. rewrite Hget.
  cbn [py_str]. fold full_prompt. unfold EmailProcessor.lift. f_equal.
  unfold FreeLLMService.generate_response, FreeLLMService._smart_pattern_matcher.
  rewrite Hcat, Hext, Hact. cbn [andb].
  unfold FreeLLMService._extract_actions. fold swept. fold tasks.
  by apply parse_tasks_document.
Qed.

(** The third email of the mock inbox, under the default prompts. *)
Lemma extract_actions_answers_with_the_sweep_witness :
  ∃ tasks,
    fst (EmailProcessor.extract_actions (H := RefJson.decoder) (nth_mock_email 2)
           default_world) = inr (PList tasks)
    ∧ (1 ≤ length tasks ≤ 3)%nat.
Proof.
  eexists.
  pose proof (extract_actions_answers_with_the_sweep (H := RefJson.decoder)
                (nth_mock_email 2) default_world
                (snd (PromptManager.get_prompt (H := RefJson.decoder)
                        "action_extraction" default_world))
                (match PromptManager.default_prompts with
                 | PDict kvs => py_str (default (PStr "")
                                          (dict_get kvs "action_extraction"))
                 | _ => ""
                 end)) as Hx.
  cbv zeta in Hx.
  destruct Hx as [Hx Hlen]; [vm_compute; reflexivity..|].
  split; [exact (f_equal fst Hx) | exact Hlen].
Defined.

(** ** Summaries under a prompt that names no branch *)

Lemma str_in_past_char (w : string) (c : ascii) (s : string) :
  w ≠ "" → str_in (String c "") w = false →
  str_in w (String c s) = str_in w s.
Proof.
  intros Hw Hc. cbn [str_in].
  destruct w as [|x w]; [done|].
  cbn [starts_with]. cbn [str_in starts_with] in Hc.
  destruct (chr_eqb c x) eqn:E; [by rewrite andb_true_l in Hc|].
  rewrite chr_eqb_sym, E. reflexivity.
Qed.

(** A word without the character [c] is in a text cut at [c] when it is
    in one of the two pieces. *)
Lemma str_in_cut (w a b : string) (c : ascii) :
  w ≠ "" → str_in (String c "") w = false →
  str_in w (a ++ String c b) = str_in w a || str_in w b.
Proof.
  intros Hw Hc. rewrite str_in_sep by exact Hc.
  by rewrite str_in_past_char.
Qed.

(** The same down a text of four fields, each closed by a newline and
    opened by a label that ends with a blank. *)
Lemma str_in_four_fields (w t m1 a m2 b m3 c m4 : string) :
  w ≠ "" → str_in nl w = false → str_in " " w = false →
  str_in w
    (t ++ String nl_char
            (m1 ++ String " "
                     (a ++ String nl_char
                             (m2 ++ String " "
                                      (b ++ String nl_char
                                              (m3 ++ String " "
                                                       (c ++ String nl_char m4)))))))
  = str_in w t
    || (str_in w m1
        || (str_in w a
            || (str_in w m2
                || (str_in w b || (str_in w m3 || (str_in w c || str_in w m4)))))).
Proof. intros Hw Hnl Hsp. by rewrite !str_in_cut. Qed.

Lemma summarize_prompt_shape (template : string) (email : email_record) :
  str_lower (template ++ nl ++ nl ++ EmailProcessor.summarize_context email)
  = str_lower template
    ++ String nl_char
         ((nl ++ nl ++ EmailProcessor.indent8 ++ "from:")
          ++ String " "
               (str_lower (email_sender email)
                ++ String nl_char
                     ((EmailProcessor.indent8 ++ "subject:")
                      ++ String " "
                           (str_lower (email_subject email)
                            ++ String nl_char
                                 ((EmailProcessor.indent8 ++ "body:")
                                  ++ String " "
                                       (str_lower (email_body email)
                                        ++ String nl_char
                                             EmailProcessor.indent8)))))).
Proof.
  unfold EmailProcessor.summarize_context. rewrite !str_lower_app. reflexivity.
Qed.

Lemma no_branch_word_in_summarize_prompt (template : string)
    (email : email_record) (word : string) :
  word ∈ branch_words →
  opens_no_branch template →
  opens_no_branch (email_sender email) →
  opens_no_branch (email_subject email) →
  opens_no_branch (email_body email) →
  str_in word
    (str_lower (template ++ nl ++ nl ++ EmailProcessor.summarize_context email))
  = false.
Proof.
  intros Hw Ht Hs Hj Hb.
  specialize (Ht word Hw). specialize (Hs word Hw).
  specialize (Hj word Hw). specialize (Hb word Hw).
  rewrite summarize_prompt_shape.
  unfold branch_words in Hw.
  repeat (apply elem_of_cons in Hw as [->|Hw];
          [rewrite str_in_four_fields by done; rewrite Ht, Hs, Hj, Hb;
           reflexivity|]).
  by apply elem_of_nil in Hw.
Qed.

(** X19.  When neither the summarisation prompt nor the sender, the
    subject or the body of the email holds one of the words "categorize",
    "extract", "summarize", "reply", "draft", in whatever case,
    [summarize_email] returns the sentence "I've processed your email
    request successfully." and no summary. *)
Theorem summary_is_canned_without_a_branch_word `{JsonDecoder}
    (email : email_record) (w w' : world) (template : string) :
  PromptManager.get_prompt "summarization" w = (inr (PStr template), w') →
  opens_no_branch template →
  opens_no_branch (email_sender email) →
  opens_no_branch (email_subject email) →
  opens_no_branch (email_body email) →
  EmailProcessor.summarize_email email w
  = (inr "I've processed your email request successfully.", w').
Proof.
  intros Hget Ht Hs Hj Hb.
  unfold EmailProcessor.summarize_email, bind. rewrite Hget. cbn [py_str].
  unfold ret. f_equal. f_equal.
  unfold FreeLLMService.generate_response, FreeLLMService._smart_pattern_matcher.
  assert (Hno : ∀ word, word ∈ branch_words →
            str_in word
              (str_lower (template ++ nl ++ nl
                          ++ EmailProcessor.summarize_context email)) = false)
    by (intros word Hw; by apply no_branch_word_in_summarize_prompt).
  rewrite (Hno "categorize"), (Hno "extract"), (Hno "summarize"),
    (Hno "reply"), (Hno "draft") by (unfold branch_words; in_list).
  reflexivity.
Qed.

(** The third email of the mock inbox under the default prompts, whose
    summarisation prompt says "summary" and not "summarize". *)
Lemma summary_is_canned_without_a_branch_word_witness :
  fst (EmailProcessor.summarize_email (H := RefJson.decoder) (nth_mock_email 2)
         default_world)
  = inr "I've processed your email request successfully.".
Proof.
  refine (f_equal fst
            (summary_is_canned_without_a_branch_word (H := RefJson.decoder)
               (nth_mock_email 2) default_world
               (snd (PromptManager.get_prompt (H := RefJson.decoder)
                       "summarization" default_world))
               (match PromptManager.default_prompts with
                | PDict kvs => py_str (default (PStr "")
                                         (dict_get kvs "summarization"))
                | _ => ""
                end) _ _ _ _ _)).
  - vm_compute. reflexivity.
  - intros word Hw. unfold branch_words in Hw. each_by_evaluation Hw.
  - intros word Hw. unfold branch_words in Hw. each_by_evaluation Hw.
  - intros word Hw. unfold branch_words in Hw. each_by_evaluation Hw.
  - intros word Hw. unfold branch_words in Hw. each_by_evaluation Hw.
Defined.

(** ** Reading a prompt *)

Lemma get_prompt_from_file `{JsonDecoder} (prompt_type text : string)
    (kvs : list (string * pyval)) (w : world) :
  prompts_file w = Some text →
  json_loads text = Some (PDict kvs) →
  PromptManager.get_prompt prompt_type w
  = (inr (default (PStr "") (dict_get kvs prompt_type)),
     set_session_prompts (PDict kvs) w).
Proof.
  intros Hfile Hloads.
  unfold PromptManager.get_prompt, PromptManager.current_prompts,
    PromptManager.load_prompts, bind, get_state, ret.
  by rewrite Hfile, Hloads.
Qed.

(** X17.  When the prompts file decodes to a dict, [get_prompt] answers
    from the file, with the empty string for a key the file does not
    have, and replaces the session copy by the content of the file,
    whatever the session held; it reports nothing and leaves the file as
    it was. *)
Theorem file_wins_over_session `{JsonDecoder} (prompt_type text : string)
    (kvs : list (string * pyval)) (w : world) :
  prompts_file w = Some text →
  json_loads text = Some (PDict kvs) →
  fst (PromptManager.get_prompt prompt_type w)
  = inr (default (PStr "") (dict_get kvs prompt_type))
  ∧ session_prompts (snd (PromptManager.get_prompt prompt_type w))
    = Some (PDict kvs)
  ∧ prompts_file (snd (PromptManager.get_prompt prompt_type w)) = Some text
  ∧ reported (snd (PromptManager.get_prompt prompt_type w)) = reported w.
Proof.
  intros Hfile Hloads.
  rewrite (get_prompt_from_file prompt_type text kvs w Hfile Hloads).
  cbn [fst snd set_session_prompts session_prompts prompts_file reported]. done.
Qed.

(** A session copy that differs from the file of the default world. *)
Lemma file_wins_over_session_witness :
  let w := set_session_prompts (PDict [("summarization", PStr "Summarize briefly")])
             default_world in
  fst (PromptManager.get_prompt (H := RefJson.decoder) "summarization" w)
  = inr (default_prompt "summarization").
Proof.
  intros w.
  refine (proj1 (file_wins_over_session (H := RefJson.decoder) "summarization"
                   (default "" (prompts_file w))
                   (match PromptManager.default_prompts with
                    | PDict kvs => kvs | _ => [] end) w _ _));
    vm_compute; reflexivity.
Defined.

(** X18.  When the prompts file is missing or does not decode,
    [get_prompt] reports "Error loading prompts" and answers from the
    session copy: the entry of a dict, the empty string for a key it does
    not have or when the session holds no copy; a session copy that is
    not a dict has no [get]. *)
Theorem unreadable_file_falls_back_on_session `{JsonDecoder}
    (prompt_type : string) (w : world) :
  (prompts_file w = None
   ∨ ∃ text, prompts_file w = Some text ∧ json_loads text = None) →
  let answer := PromptManager.get_prompt prompt_type w in
  fst answer
  = match session_prompts w with
    | Some (PDict kvs) => inr (default (PStr "") (dict_get kvs prompt_type))
    | Some _ => inl (AttributeError "get")
    | None => inr (PStr "")
    end
  ∧ (∃ e, snd answer = st_error "Error loading prompts" e w).
Proof.
  intros Hfile answer. unfold answer.
  unfold PromptManager.get_prompt, PromptManager.current_prompts,
    PromptManager.load_prompts, bind, get_state, ret, raise.
  destruct Hfile as [->|(text & -> & ->)];
    cbn [st_error session_prompts];
    (destruct (session_prompts w) as [[]|]; cbn [default fst snd dict_get];
     (split; [reflexivity | eexists; reflexivity])).
Qed.

(** A machine on which nothing has been written yet. *)
Lemma unreadable_file_falls_back_on_session_witness :
  fst (PromptManager.get_prompt (H := RefJson.decoder) "categorization" fresh_world)
  = inr (PStr "").
Proof.
  refine (proj1 (unreadable_file_falls_back_on_session (H := RefJson.decoder)
                   "categorization" fresh_world _)).
  left. reflexivity.
Defined.

(** ** Constructing the manager *)

(** X20.  Constructing a [PromptManager] leaves an existing prompts file
    as it is; without a file and on a disk that cannot be written it
    raises [OSError]; without a file and on a disk that can be written it
    writes the defaults and reports nothing, and each prompt then reads
    as its default, provided the decoder reads the defaults back. *)
Theorem init_keeps_or_writes_defaults `{JsonDecoder} (w : world) :
  (∀ text, prompts_file w = Some text →
     fst (PromptManager.init w) = inr tt
     ∧ prompts_file (snd (PromptManager.init w)) = Some text)
  ∧ (prompts_file w = None → disk_writable w = false →
     PromptManager.init w = (inl OSError, w))
  ∧ (prompts_file w = None → disk_writable w = true →
     json_loads (json_dumps_indent 0 PromptManager.default_prompts)
     = Some PromptManager.default_prompts →
     let w1 := snd (PromptManager.init w) in
     fst (PromptManager.init w) = inr tt
     ∧ prompts_file w1 = Some (json_dumps_indent 0 PromptManager.default_prompts)
     ∧ reported w1 = reported w
     ∧ ∀ prompt_type,
         fst (PromptManager.get_prompt prompt_type w1)
         = inr (default_prompt prompt_type)).
Proof.
  unfold PromptManager.init, PromptManager._ensure_prompts_file, bind, ret.
  split; [|split].
  - intros text Hfile. rewrite Hfile.
    unfold PromptManager.load_prompts. rewrite Hfile.
    destruct (json_loads text); cbn; done.
  - intros Hfile Hdisk. by rewrite Hfile, Hdisk.
  - intros Hfile Hdisk Hloads. rewrite Hfile, Hdisk.
    unfold PromptManager.load_prompts.
    cbn [write_prompts_file prompts_file]. rewrite Hloads. cbn [fst snd].
    repeat split.
    intros prompt_type. unfold PromptManager.default_prompts in Hloads.
    erewrite get_prompt_from_file; [reflexivity | reflexivity | exact Hloads].
Qed.

(** The last of the four prompts on a fresh machine. *)
Lemma init_keeps_or_writes_defaults_witness :
  fst (PromptManager.get_prompt (H := RefJson.decoder) "auto_reply"
         (snd (PromptManager.init (H := RefJson.decoder) fresh_world)))
  = inr (default_prompt "auto_reply").
Proof.
  refine (proj2 (proj2 (proj2 (proj2 (proj2
            (init_keeps_or_writes_defaults (H := RefJson.decoder) fresh_world))
            _ _ _))) "auto_reply");
    vm_compute; reflexivity.
Defined.

(** ** Editing one prompt *)

Lemma dict_get_set_same (k : string) (v : pyval) (kvs : list (string * pyval)) :
  dict_get (RefJson.dict_set k v kvs) k = Some v.
Proof.
  induction kvs as [|[k' v'] kvs IH]; cbn [RefJson.dict_set dict_get].
  - by rewrite String.eqb_refl.
  - destruct (String.eqb k' k) eqn:E; cbn [dict_get]; rewrite E; [done | exact IH].
Qed.

Lemma dict_get_set_other (k k2 : string) (v : pyval) (kvs : list (string * pyval)) :
  k2 ≠ k →
  dict_get (RefJson.dict_set k v kvs) k2 = dict_get kvs k2.
Proof.
  intros Hne. induction kvs as [|[k' v'] kvs IH]; cbn [RefJson.dict_set dict_get].
  - destruct (String.eqb_spec k k2); [congruence | done].
  - destruct (String.eqb_spec k' k) as [->|Hk]; cbn [dict_get].
    + destruct (String.eqb_spec k k2); [congruence | done].
    + destruct (String.eqb k' k2); [done | exact IH].
Qed.

Lemma update_prompt_from_file `{JsonDecoder} (prompt_type new_prompt text : string)
    (kvs : list (string * pyval)) (w : world) :
  prompts_file w = Some text →
  json_loads text = Some (PDict kvs) →
  let edited := PDict (RefJson.dict_set prompt_type (PStr new_prompt) kvs) in
  PromptEditing.update_prompt prompt_type new_prompt w
  = PromptManager.save_prompts edited (set_session_prompts edited w).
Proof.
  intros Hfile Hloads edited.
  unfold PromptEditing.update_prompt, PromptManager.load_prompts, bind,
    get_state, modify.
  rewrite Hfile, Hloads. cbn [set_session_prompts session_prompts PromptEditing.setitem].
  reflexivity.
Qed.

(** X21.  On a disk that can be written and with a prompts file that
    decodes to a dict, [update_prompt] returns, the prompt it was given
    then reads as the new text and every other prompt reads as before,
    and nothing is reported, provided the decoder reads the edited dict
    back. *)
Theorem update_prompt_changes_one_prompt `{JsonDecoder}
    (prompt_type new_prompt text : string) (kvs : list (string * pyval))
    (w : world) :
  let edited := PDict (RefJson.dict_set prompt_type (PStr new_prompt) kvs) in
  prompts_file w = Some text →
  json_loads text = Some (PDict kvs) →
  disk_writable w = true →
  json_loads (json_dumps_indent 0 edited) = Some edited →
  let w1 := snd (PromptEditing.update_prompt prompt_type new_prompt w) in
  fst (PromptEditing.update_prompt prompt_type new_prompt w) = inr tt
  ∧ fst (PromptManager.get_prompt prompt_type w1) = inr (PStr new_prompt)
  ∧ (∀ other, other ≠ prompt_type →
       fst (PromptManager.get_prompt other w1)
       = fst (PromptManager.get_prompt other w))
  ∧ reported w1 = reported w.
Proof.
  intros edited Hfile Hloads Hdisk Hback w1. unfold w1.
  rewrite (update_prompt_from_file _ _ text kvs w Hfile Hloads). fold edited.
  unfold PromptManager.save_prompts.
  cbn [set_session_prompts disk_writable]. rewrite Hdisk. cbn [fst snd].
  split; [reflexivity|].
  set (w2 := set_session_prompts edited (write_prompts_file _ _)).
  assert (Hget : ∀ k, PromptManager.get_prompt k w2
            = (inr (default (PStr "")
                      (dict_get (RefJson.dict_set prompt_type (PStr new_prompt) kvs) k)),
               set_session_prompts edited w2)).
  { intros k. eapply get_prompt_from_file; [reflexivity | exact Hback]. }
  split; [|split].
  - rewrite Hget. cbn [fst]. by rewrite dict_get_set_same.
  - intros other Hne. rewrite Hget.
    rewrite (get_prompt_from_file other text kvs w Hfile Hloads). cbn [fst].
    by rewrite dict_get_set_other.
  - reflexivity.
Qed.

(** A new summarisation prompt in the default world. *)
Lemma update_prompt_changes_one_prompt_witness :
  let w1 := snd (PromptEditing.update_prompt (H := RefJson.decoder)
                   "summarization" "Summarize briefly" default_world) in
  fst (PromptManager.get_prompt (H := RefJson.decoder) "summarization" w1)
  = inr (PStr "Summarize briefly").
Proof.
  intros w1.
  refine (proj1 (proj2 (update_prompt_changes_one_prompt (H := RefJson.decoder)
                   "summarization" "Summarize briefly"
                   (default "" (prompts_file default_world))
                   (match PromptManager.default_prompts with
                    | PDict kvs => kvs | _ => [] end)
                   default_world _ _ _ _)));
    vm_compute; reflexivity.
Defined.

(** X22.  On a disk that cannot be written, [update_prompt] returns
    after reporting "Error saving prompts"; the file keeps its text; the
    session copy shows the edit, but every prompt reads as before, since
    [get_prompt] reads the file again. *)
Theorem update_prompt_is_lost_on_a_read_only_disk `{JsonDecoder}
    (prompt_type new_prompt text : string) (kvs : list (string * pyval))
    (w : world) :
  prompts_file w = Some text →
  json_loads text = Some (PDict kvs) →
  disk_writable w = false →
  let w1 := snd (PromptEditing.update_prompt prompt_type new_prompt w) in
  fst (PromptEditing.update_prompt prompt_type new_prompt w) = inr tt
  ∧ prompts_file w1 = Some text
  ∧ session_prompts w1
    = Some (PDict (RefJson.dict_set prompt_type (PStr new_prompt) kvs))
  ∧ reported w1 = (reported w ++ [("Error saving prompts", OSError)])%list
  ∧ ∀ any, fst (PromptManager.get_prompt any w1)
           = fst (PromptManager.get_prompt any w).
Proof.
  intros Hfile Hloads Hdisk w1. unfold w1.
  rewrite (update_prompt_from_file _ _ text kvs w Hfile Hloads).
  unfold PromptManager.save_prompts.
  cbn [set_session_prompts disk_writable]. rewrite Hdisk. cbn [fst snd].
  repeat split; try done.
  intros any.
  rewrite (get_prompt_from_file any text kvs w Hfile Hloads).
  erewrite get_prompt_from_file; [reflexivity | exact Hfile | exact Hloads].
Qed.

(** The same edit on a read-only disk. *)
Lemma update_prompt_is_lost_on_a_read_only_disk_witness :
  let w := read_only default_world in
  let w1 := snd (PromptEditing.update_prompt (H := RefJson.decoder)
                   "summarization" "Summarize briefly" w) in
  fst (PromptManager.get_prompt (H := RefJson.decoder) "summarization" w1)
  = fst (PromptManager.get_prompt (H := RefJson.decoder) "summarization" w).
Proof.
  intros w w1.
  refine (proj2 (proj2 (proj2 (proj2
            (update_prompt_is_lost_on_a_read_only_disk (H := RefJson.decoder)
               "summarization" "Summarize briefly"
               (default "" (prompts_file default_world))
               (match PromptManager.default_prompts with
                | PDict kvs => kvs | _ => [] end)
               w _ _ _)))) "summarization");
    vm_compute; reflexivity.
Defined.

(** X23.  On a disk that can be written, after [reset_to_defaults]
    [get_all_prompts] returns the default prompts and each prompt reads
    as its default, whatever the file and the session held, provided the
    decoder reads the defaults back. *)
Theorem reset_restores_every_default `{JsonDecoder} (w : world) :
  disk_writable w = true →
  json_loads (json_dumps_indent 0 PromptManager.default_prompts)
  = Some PromptManager.default_prompts →
  let w1 := snd (PromptManager.reset_to_defaults w) in
  fst (PromptManager.get_all_prompts w1) = inr PromptManager.default_prompts
  ∧ ∀ prompt_type,
      fst (PromptManager.get_prompt prompt_type w1)
      = inr (default_prompt prompt_type).
Proof.
  intros Hdisk Hloads w1. unfold w1, PromptManager.reset_to_defaults,
    PromptManager.save_prompts. rewrite Hdisk. cbn [snd]. split.
  - unfold PromptManager.get_all_prompts, PromptManager.current_prompts,
      PromptManager.load_prompts, bind, get_state, ret.
    cbn [set_session_prompts write_prompts_file prompts_file].
    rewrite Hloads. reflexivity.
  - intros prompt_type. unfold PromptManager.default_prompts in Hloads.
    erewrite get_prompt_from_file; [reflexivity | reflexivity | exact Hloads].
Qed.

(** A world whose categorisation prompt had been reworded. *)
Lemma reset_restores_every_default_witness :
  let w := world_with (with_prompt "categorization" reworded_categorization) in
  fst (PromptManager.get_prompt (H := RefJson.decoder) "categorization"
         (snd (PromptManager.reset_to_defaults w)))
  = inr (default_prompt "categorization").
Proof.
  intros w.
  refine (proj2 (reset_restores_every_default (H := RefJson.decoder) w _ _)
            "categorization");
    vm_compute; reflexivity.
Defined.

(** ** The query router *)

Lemma any_in_occurs (words : list string) (word query : string) :
  word ∈ words → str_lower word = word →
  occurs_ignoring_case word query →
  any_in words (str_lower query) = true.
Proof.
  intros Hin Hlow Hocc. unfold any_in. apply existsb_exists.
  exists word. split; [by apply list_elem_of_In|].
  rewrite <- Hlow. by apply occurs_lower.
Qed.

(** X24.  [process_agent_query] without a selected email only ever
    chooses the urgent, inbox, search or general handler; with a selected
    email, a query that holds "summarize", "summary" or "overview", in
    whatever case, goes to the summary handler whatever else it holds;
    and a query that holds the letters "do" goes to the summary or the
    action handler, never to the reply, urgent, inbox or search
    handler. *)
Theorem router_priorities (query : string) (selected : bool) :
  let chosen := EmailAgent.process_agent_query_handler query selected in
  (selected = false →
   chosen ∈ [EmailAgent.UrgentQuery; EmailAgent.InboxQuery;
             EmailAgent.SearchQuery; EmailAgent.GeneralQuery])
  ∧ (selected = true →
     (∃ word, word ∈ ["summarize"; "summary"; "overview"]
              ∧ occurs_ignoring_case word query) →
     chosen = EmailAgent.SummaryQuery)
  ∧ (selected = true → occurs_ignoring_case "do" query →
     chosen ∈ [EmailAgent.SummaryQuery; EmailAgent.ActionQuery]).
Proof.
  intros chosen. unfold chosen, EmailAgent.process_agent_query_handler.
  split; [|split].
  - intros ->. cbn [andb]. repeat case_match; in_list.
  - intros -> (word & Hin & Hocc). cbn [andb].
    rewrite (any_in_occurs _ word query Hin); [reflexivity| |exact Hocc].
    repeat (apply elem_of_cons in Hin as [->|Hin]; [reflexivity|]).
    by apply elem_of_nil in Hin.
  - intros -> Hocc. cbn [andb].
    rewrite (any_in_occurs ["task"; "action"; "todo"; "do"] "do" query);
      [|in_list|reflexivity|exact Hocc].
    case_match; in_list.
Qed.

(** A search for documents, with an email selected. *)
Lemma router_priorities_witness :
  EmailAgent.process_agent_query_handler "Find the documents" true
  ∈ [EmailAgent.SummaryQuery; EmailAgent.ActionQuery].
Proof.
  refine (proj2 (proj2 (router_priorities "Find the documents" true))
            eq_refl _).
  exists "Find the ", "do", "cuments". split; reflexivity.
Defined.

(** ** Writing out the actions *)

Lemma task_record_line (i : nat) (action : pyval) :
  is_task_record action → ∃ line, EmailAgent.action_line i action = inr line.
Proof.
  intros (text & priority & deadline & -> & Hp).
  unfold EmailAgent.action_line, FreeLLMService.task.
  cbn [dict_get String.eqb Ascii.eqb Bool.eqb default].
  destruct (truthy (PStr priority)); by eexists.
Qed.

Lemma task_records_lines (i : nat) (actions : list pyval) :
  Forall is_task_record actions →
  ∃ lines, EmailAgent.action_lines i actions = inr lines.
Proof.
  intros Hall. revert i.
  induction Hall as [|action rest Ha _ IH]; intros i;
    cbn [EmailAgent.action_lines]; [by eexists|].
  destruct (task_record_line i action Ha) as [line ->].
  destruct (IH (S i)) as [lines ->]. by eexists.
Qed.

(** X25.  The loop of [process_action_query] writes out any list of
    task records without raising: the message that no action was found
    for the empty list, and otherwise the heading with the subject
    followed by the lines of the actions. *)
Theorem task_records_are_written_out (subject : string) (actions : list pyval) :
  Forall is_task_record actions →
  ∃ response,
    EmailAgent.render_actions subject (PList actions) = inr response
    ∧ (actions = [] →
       response = "No specific actions found in '" ++ subject
                  ++ "'. This email may be informational only.")
    ∧ (actions ≠ [] →
       ∃ lines, response = "**Actions from '" ++ subject ++ "':**" ++ nl ++ nl
                           ++ lines).
Proof.
  intros Hall. unfold EmailAgent.render_actions.
  destruct actions as [|a rest]; cbn [truthy EmailAgent.iterate].
  - eexists. split; [reflexivity|]. split; [done|]. by intros [].
  - destruct (task_records_lines 1 (a :: rest) Hall) as [lines ->].
    eexists. split; [reflexivity|]. split; [done|]. intros _. by exists lines.
Qed.

(** The tasks swept from the body of the third email of the mock
    inbox. *)
Lemma task_records_are_written_out_witness :
  ∃ response,
    EmailAgent.render_actions "Benefits Enrollment Reminder"
      (PList (FreeLLMService.extracted_tasks
                "Please complete your selections in the portal."))
    = inr response.
Proof.
  destruct (task_records_are_written_out "Benefits Enrollment Reminder"
              (FreeLLMService.extracted_tasks
                 "Please complete your selections in the portal."))
    as (response & Hr & _).
  - vm_compute. repeat constructor.
    all: eexists _, _, _; (split; [reflexivity | in_list]).
  - exists response. exact Hr.
Defined.

(** ** After the inbox has been processed *)

Lemma process_from_degrades `{JsonDecoder} (done to_visit : list email_record)
    (w : world) :
  fst (Inbox.process_from (length done) to_visit (done ++ to_visit)%list w)
  = inr (done ++ map degraded to_visit)%list.
Proof.
  revert done w. induction to_visit as [|email rest IH]; intros done w.
  - cbn [Inbox.process_from map]. reflexivity.
  - cbn [Inbox.process_from map]. unfold bind at 1.
    destruct (process_single_email_degrades email w) as (e & w1 & -> & _).
    replace (<[length done := degraded email]> (done ++ email :: rest)%list)
      with ((done ++ [degraded email]) ++ rest)%list.
    + replace (S (length done)) with (length (done ++ [degraded email])%list)
        by (rewrite length_app; cbn; lia).
      rewrite IH. by rewrite <- app_assoc.
    + rewrite insert_app_r_alt by lia. rewrite Nat.sub_diag.
      cbn. by rewrite <- app_assoc.
Qed.

Lemma degraded_not_urgent (emails : list email_record) :
  filter (fun e => AgentQueries.is_urgent e = true) (map degraded emails) = [].
Proof.
  induction emails as [|email rest IH]; [reflexivity|].
  cbn [map]. rewrite filter_cons_False; [exact IH|]. by cbn.
Qed.

Lemma degraded_not_todo (emails : list email_record) :
  filter (fun e => Inbox.is_todo e = true) (map degraded emails) = [].
Proof.
  induction emails as [|email rest IH]; [reflexivity|].
  cbn [map]. rewrite filter_cons_False; [exact IH|]. by cbn.
Qed.

Lemma degraded_unread (emails : list email_record) :
  length (filter (fun e => email_read e = false) (map degraded emails))
  = length (filter (fun e => email_read e = false) emails).
Proof.
  induction emails as [|email rest IH]; [reflexivity|].
  cbn [map]. rewrite !filter_cons. cbn [degraded email_read].
  destruct (decide (email_read email = false)); cbn [length]; by rewrite IH.
Qed.

(** X26.  After [process_all_emails] the inbox has as many emails as
    before, [process_urgent_query] finds no urgent email in it, and the
    statistics of the inbox page show no "To-Do" email, the same total
    and the same number of unread emails. *)
Theorem nothing_is_urgent_after_processing `{JsonDecoder}
    (emails : list email_record) (w : world) :
  ∃ processed,
    fst (Inbox.process_all_emails emails w) = inr processed
    ∧ length processed = length emails
    ∧ AgentQueries.process_urgent_query processed = AgentQueries.NoUrgentEmails
    ∧ Inbox.todo (Inbox.get_email_stats true processed) = 0
    ∧ Inbox.total (Inbox.get_email_stats true processed) = length emails
    ∧ Inbox.unread (Inbox.get_email_stats true processed)
      = Inbox.unread (Inbox.get_email_stats true emails).
Proof.
  exists (map degraded emails). split.
  - apply (process_from_degrades [] emails w).
  - split; [apply length_map|]. split.
    + unfold AgentQueries.process_urgent_query. by rewrite degraded_not_urgent.
    + unfold Inbox.get_email_stats. cbn [negb Inbox.todo Inbox.total Inbox.unread].
      rewrite degraded_not_todo, degraded_unread, length_map. done.
Qed.

(** ** Searching the inbox *)

(** X27.  A query whose search terms are empty, once "find", "search"
    and "look for" are taken out and the rest is stripped, matches every
    email of the inbox. *)
Theorem empty_search_lists_every_email (query : string)
    (emails : list email_record) :
  AgentQueries.search_terms query = "" →
  AgentQueries.matching_emails query emails = emails.
Proof.
  intros Hterms. unfold AgentQueries.matching_emails. rewrite Hterms.
  induction emails as [|email rest IH]; [reflexivity|].
  rewrite filter_cons_True; [by rewrite IH|].
  unfold AgentQueries.matches.
  destruct (str_lower (email_subject email)); reflexivity.
Qed.

(** Nothing but the verb. *)
Lemma empty_search_lists_every_email_witness :
  AgentQueries.matching_emails "Find " MockDataLoader._generate_mock_emails
  = MockDataLoader._generate_mock_emails.
Proof.
  apply empty_search_lists_every_email. vm_compute. reflexivity.
Defined.

(** ** Looking an email up *)

(** X28.  In a loader whose emails have ids that differ from one
    another, [get_email_by_id] returns each email of [load_emails] for
    its own id. *)
Theorem every_email_is_found_by_its_id (self : MockDataLoader.loader)
    (email : email_record) :
  NoDup (map email_id (MockDataLoader.mock_emails self)) →
  email ∈ MockDataLoader.load_emails self →
  MockDataLoader.get_email_by_id self (email_id email) = Some email.
Proof.
  unfold MockDataLoader.get_email_by_id, MockDataLoader.load_emails.
  induction (MockDataLoader.mock_emails self) as [|first rest IH];
    intros Hnodup Hin; [by apply elem_of_nil in Hin|].
  cbn [map] in Hnodup. apply NoDup_cons in Hnodup as [Hfresh Hnodup].
  cbn [MockDataLoader.first_with_id].
  apply elem_of_cons in Hin as [->|Hin]; [by rewrite Z.eqb_refl|].
  destruct (Z.eqb_spec (email_id first) (email_id email)) as [E|_];
    [|by apply IH].
  exfalso. apply Hfresh. rewrite E. by apply list_elem_of_fmap_2.
Qed.

(** The fourth email of the mock inbox. *)
Lemma every_email_is_found_by_its_id_witness :
  MockDataLoader.get_email_by_id MockDataLoader.init 4 = Some (nth_mock_email 3).
Proof.
  apply (every_email_is_found_by_its_id MockDataLoader.init (nth_mock_email 3)).
  - compute_done.
  - unfold MockDataLoader.load_emails. vm_compute. in_list.
Defined.

(** ** Reading the fields back out of the prompt *)

Lemma may_open_false (m q s : string) :
  may_open m q = false → starts_with m (q ++ s) = false.
Proof.
  revert q. induction m as [|a m IH]; intros q Hq; [by destruct q|].
  destruct q as [|b q]; [done|].
  cbn [may_open] in Hq. cbn [String.append starts_with].
  destruct (chr_eqb a b); [|reflexivity].
  cbn [andb] in *. by apply IH.
Qed.

(** A pattern that opens with a word is searched for past a stretch of
    text no place of which may start with the word. *)
Lemma search_past_prefix (m : string) (r : regex) (p s : string) :
  no_opening (str_lower m) (str_lower p) = true →
  re_search (Cat (ilit m) r) (p ++ s) = re_search (Cat (ilit m) r) s.
Proof.
  induction p as [|x p IH]; intros Hp; [reflexivity|].
  change (str_lower (String x p)) with (String (lower_char x) (str_lower p)) in Hp.
  cbn [no_opening] in Hp. apply andb_prop in Hp as [Hhere Hrest].
  apply negb_true_iff in Hhere.
  change (String x p ++ s) with (String x (p ++ s)).
  rewrite re_search_unfold.
  assert (Hnone : match_here (Cat (ilit m) r) (String x (p ++ s)) = None).
  { unfold match_here. cbn [rmatch]. rewrite rmatch_ilit.
    change (String x (p ++ s)) with (String x p ++ s).
    rewrite str_lower_app.
    change (str_lower (String x p)) with (String (lower_char x) (str_lower p)).
    by rewrite (may_open_false _ _ _ Hhere). }
  rewrite Hnone. by apply IH.
Qed.

(** And past a piece of text that does not hold the word, up to a
    character that the word does not hold. *)
Lemma search_skips_piece (m : string) (r : regex) (a : string) (c : ascii)
    (rest : string) :
  str_in (String (lower_char c) "") (str_lower m) = false →
  str_in (str_lower m) (str_lower a) = false →
  re_search (Cat (ilit m) r) (a ++ String c rest)
  = re_search (Cat (ilit m) r) (String c rest).
Proof.
  intros Hc. induction a as [|x a IH]; intros Ha; [reflexivity|].
  change (str_lower (String x a)) with (String (lower_char x) (str_lower a)) in Ha.
  apply str_in_false_cons in Ha as [Hstart Hin].
  change (String x a ++ String c rest) with (String x (a ++ String c rest)).
  rewrite re_search_unfold.
  assert (Hnone : match_here (Cat (ilit m) r) (String x (a ++ String c rest)) = None).
  { unfold match_here. cbn [rmatch]. rewrite rmatch_ilit.
    change (String x (a ++ String c rest)) with (String x a ++ String c rest).
    rewrite str_lower_app.
    change (str_lower (String c rest)) with (String (lower_char c) (str_lower rest)).
    rewrite starts_with_sep by done.
    change (str_lower (String x a)) with (String (lower_char x) (str_lower a)).
    by rewrite Hstart. }
  rewrite Hnone. by apply IH.
Qed.

Lemma drop_run_space (s : string) :
  str_drop (run is_space None s) s = str_lstrip s.
Proof.
  induction s as [|c s IH]; [reflexivity|].
  cbn [run str_lstrip]. destruct (is_space c); [exact IH | reflexivity].
Qed.

Lemma str_drop_add (a b : nat) (s : string) :
  str_drop (a + b) s = str_drop b (str_drop a s).
Proof.
  revert s. induction a as [|a IH]; intros s.
  - cbn [Nat.add]. by destruct s.
  - destruct s as [|c s]; cbn [Nat.add str_drop]; [by destruct b | apply IH].
Qed.

Lemma backoff_first {A : Type} (n lo : nat) s pos g (k : @cont A) a :
  (lo ≤ n)%nat →
  k (str_drop n s) (pos + n) g = Some a →
  backoff n lo s pos g k = Some a.
Proof.
  intros Hlo Hk. apply (backoff_settles n lo n); [lia | exact Hk|].
  intros j Hj. lia.
Qed.

(** Where the label stands, the pattern matches, and its group is the run
    of the class that follows the blanks. *)
Lemma match_field (label written : string) (p : ascii → bool) (s1 : string) :
  str_lower written = str_lower label →
  (1 ≤ run p None (str_lstrip s1))%nat →
  ∃ n g0,
    match_here (field_re label p) (written ++ s1)
    = Some (n, {| group0 := g0;
                  group1 := Some (str_take (run p None (str_lstrip s1))
                                           (str_lstrip s1)) |}).
Proof.
  intros Hlabel Hrun.
  assert (Hlen : String.length written = String.length label)
    by (rewrite <- (str_lower_length written), Hlabel; apply str_lower_length).
  assert (Hslice :
    str_slice (0 + String.length written + run is_space None s1)
      (0 + String.length written + run is_space None s1
       + run p None (str_lstrip s1)) (written ++ s1)
    = str_take (run p None (str_lstrip s1)) (str_lstrip s1)).
  { unfold str_slice.
    replace (0 + String.length written + run is_space None s1
             + run p None (str_lstrip s1)
             - (0 + String.length written + run is_space None s1))
      with (run p None (str_lstrip s1)) by lia.
    f_equal. cbn [Nat.add]. rewrite str_drop_add, str_drop_app.
    apply drop_run_space. }
  unfold match_here, field_re, cat. cbn [foldr rmatch].
  rewrite rmatch_ilit, str_lower_app, Hlabel, starts_with_refl_app.
  rewrite <- Hlen, str_drop_app.
  unfold star, plus. cbn [rmatch].
  eexists _, _.
  apply backoff_first; [lia|]. rewrite drop_run_space.
  apply backoff_first; [exact Hrun|].
  cbn [fmap option_fmap option_map]. rewrite Hslice. reflexivity.
Qed.

Lemma search_field (label written : string) (p : ascii → bool) (s1 : string) :
  str_lower written = str_lower label →
  (1 ≤ run p None (str_lstrip s1))%nat →
  group_one <$> re_search (field_re label p) (written ++ s1)
  = Some (str_take (run p None (str_lstrip s1)) (str_lstrip s1)).
Proof.
  intros Hlabel Hrun.
  destruct (match_field label written p s1 Hlabel Hrun) as (n & g0 & Hm).
  rewrite re_search_unfold, Hm. reflexivity.
Qed.

(** *** Stripping *)

Lemma lstrip_app (s x : string) :
  str_lstrip s ≠ "" → str_lstrip (s ++ x) = str_lstrip s ++ x.
Proof.
  induction s as [|c s IH]; intros Hs; [done|].
  cbn [String.append str_lstrip] in *.
  destruct (is_space c); [by apply IH | reflexivity].
Qed.

Lemma rstrip_empty_lstrip (s : string) : str_rstrip s = "" → str_lstrip s = "".
Proof.
  induction s as [|c s IH]; [done|]. cbn [str_rstrip str_lstrip].
  destruct (str_rstrip s) eqn:E; [|done].
  destruct (is_space c); [intros _; by apply IH | done].
Qed.

Lemma not_blank_lstrip (s : string) : not_blank s → str_lstrip s ≠ "".
Proof.
  unfold not_blank, str_strip. intros Hs E. apply Hs. by rewrite E.
Qed.

Lemma lstrip_idem (s : string) : str_lstrip (str_lstrip s) = str_lstrip s.
Proof.
  induction s as [|c s IH]; [done|]. cbn [str_lstrip].
  destruct (is_space c) eqn:E; [exact IH|]. cbn [str_lstrip]. by rewrite E.
Qed.

Lemma strip_lstrip (s : string) : str_strip (str_lstrip s) = str_strip s.
Proof. unfold str_strip. by rewrite lstrip_idem. Qed.

Lemma rstrip_app_blank (s x : string) :
  str_rstrip x = "" → str_rstrip (s ++ x) = str_rstrip s.
Proof.
  intros Hx. induction s as [|c s IH]; [exact Hx|].
  cbn [String.append str_rstrip]. by rewrite IH.
Qed.

Lemma strip_app_blank (s x : string) :
  not_blank s → str_rstrip x = "" → str_strip (s ++ x) = str_strip s.
Proof.
  intros Hs Hx. unfold str_strip.
  rewrite lstrip_app by by apply not_blank_lstrip.
  by apply rstrip_app_blank.
Qed.

(** *** Runs *)

Lemma run_line (s rest : string) :
  str_in nl s = false →
  run not_nl None (s ++ String nl_char rest) = String.length s.
Proof.
  induction s as [|c s IH]; intros Hs.
  - cbn [String.append run]. reflexivity.
  - apply str_in_false_cons in Hs as [Hc Hs].
    unfold nl in Hc. cbn [starts_with] in Hc. rewrite andb_true_r in Hc.
    cbn [String.append run String.length]. unfold not_nl at 1.
    rewrite chr_eqb_sym, Hc. cbn [negb]. by rewrite IH.
Qed.

Lemma str_take_app (a b : string) : str_take (String.length a) (a ++ b) = a.
Proof. induction a as [|x a IH]; cbn; [by destruct b | by f_equal]. Qed.

Lemma one_line_lstrip (s : string) : one_line s → one_line (str_lstrip s).
Proof.
  unfold one_line. induction s as [|c s IH]; intros Hs; [done|].
  cbn [str_lstrip]. destruct (is_space c); [|exact Hs].
  apply IH. by apply str_in_false_cons in Hs as [_ Hs].
Qed.

Lemma length_pos (s : string) : s ≠ "" → (1 ≤ String.length s)%nat.
Proof. destruct s; [done | cbn; lia]. Qed.

(** The group of a one-line field: the field without its leading
    blanks. *)
Lemma line_field (label written value rest : string) :
  str_lower written = str_lower label →
  one_line value → not_blank value →
  group_one <$> re_search (field_re label not_nl)
                  (written ++ String " " (value ++ String nl_char rest))
  = Some (str_lstrip value).
Proof.
  intros Hlabel Hline Hblank.
  pose proof (not_blank_lstrip value Hblank) as Hl.
  assert (Hs1 : str_lstrip (String " " (value ++ String nl_char rest))
                = str_lstrip value ++ String nl_char rest).
  { change (str_lstrip (String " " (value ++ String nl_char rest)))
      with (str_lstrip (value ++ String nl_char rest)).
    by apply lstrip_app. }
  rewrite search_field; [|exact Hlabel|].
  - rewrite Hs1, run_line by by apply one_line_lstrip.
    by rewrite str_take_app.
  - rewrite Hs1, run_line by by apply one_line_lstrip.
    by apply length_pos.
Qed.

(** The group of the last field: all that follows the blanks. *)
Lemma rest_field (label written value : string) :
  str_lower written = str_lower label →
  str_lstrip value ≠ "" →
  group_one <$> re_search (field_re label any_char) (written ++ String " " value)
  = Some (str_lstrip value).
Proof.
  intros Hlabel Hl.
  change (Some (str_lstrip value))
    with (Some (str_lstrip (String " " value))).
  rewrite search_field; [|exact Hlabel|].
  - by rewrite run_any_char, str_take_all.
  - rewrite run_any_char. by apply length_pos.
Qed.

(** *** The three fields of a prompt *)

Lemma prompt_shape (op : operation) (template : string) (email : email_record) :
  template ++ nl ++ nl ++ context_of op email
  = labelled_prompt template (opening_of op) (labels_of op).1.1
      (labels_of op).1.2 (labels_of op).2
      (email_sender email) (email_subject email) (email_body email).
Proof. destruct op; reflexivity. Qed.

Lemma found_group (r : regex) (s v : string) :
  group_one <$> re_search r s = Some v →
  match re_search r s with
  | Some m => str_strip (group_one m)
  | None => ""
  end = str_strip v.
Proof. destruct (re_search r s); cbn; [by intros [= ->] | done]. Qed.

Section Fields.
Variables (template pre lf ls lb sender subject body : string).
Hypothesis template_free : marker_free template.
Hypothesis lf_from : str_lower lf = "from:".
Hypothesis ls_subject : str_lower ls = "subject:".
Hypothesis lb_body : str_lower lb = "body:".
Hypothesis pre_from : no_opening "from:" (str_lower (String nl_char pre)) = true.
Hypothesis pre_subject :
  str_in "subject:" (str_lower (String nl_char (pre ++ lf))) = false.
Hypothesis pre_body :
  str_in "body:" (str_lower (String nl_char (pre ++ lf))) = false.
Hypothesis ls_body :
  str_in "body:" (str_lower (String nl_char (EmailProcessor.indent8 ++ ls))) = false.
Hypothesis sender_line : one_line sender.
Hypothesis sender_filled : not_blank sender.
Hypothesis sender_subject : str_in "subject:" (str_lower sender) = false.
Hypothesis sender_body : str_in "body:" (str_lower sender) = false.
Hypothesis subject_line : one_line subject.
Hypothesis subject_filled : not_blank subject.
Hypothesis subject_body : str_in "body:" (str_lower subject) = false.
Hypothesis body_filled : not_blank body.

Let prompt : string :=
  labelled_prompt template pre lf ls lb sender subject body.

Lemma sender_is_read :
  group_one <$> re_search FreeLLMService.from_re prompt
  = Some (str_lstrip sender).
Proof using template_free lf_from pre_from sender_line sender_filled.
  unfold prompt, labelled_prompt, FreeLLMService.from_re, cat. cbn [foldr].
  rewrite (search_skips_piece "FROM:");
    [|reflexivity|apply template_free; unfold field_markers; in_list].
  match goal with
  | |- context [String nl_char (pre ++ lf ++ ?X)] =>
      change (String nl_char (pre ++ lf ++ X)) with (String nl_char pre ++ lf ++ X)
  end.
  rewrite (search_past_prefix "FROM:") by exact pre_from.
  by apply (line_field "FROM:").
Qed.

Lemma piece_is_free (m a label value : string) :
  m ≠ "" → str_in " " m = false →
  str_in m (str_lower (String nl_char (a ++ label))) = false →
  str_in m (str_lower value) = false →
  str_in m (str_lower (String nl_char (a ++ label ++ String " " value))) = false.
Proof.
  intros Hm Hsp Hconst Hvalue.
  replace (String nl_char (a ++ label ++ String " " value))
    with (String nl_char (a ++ label) ++ String " " value)
    by (cbn [String.append]; by rewrite app_assoc_str).
  rewrite str_lower_app.
  change (str_lower (String " " value)) with (String " "%char (str_lower value)).
  rewrite str_in_cut by done. by rewrite Hconst, Hvalue.
Qed.

Lemma past_first_line (m : string) (r : regex) (tail : string) :
  m ≠ "" → str_in " " (str_lower m) = false → str_in nl (str_lower m) = false →
  str_in (str_lower m) (str_lower template) = false →
  str_in (str_lower m) (str_lower (String nl_char (pre ++ lf))) = false →
  str_in (str_lower m) (str_lower sender) = false →
  re_search (Cat (ilit m) r)
    (template ++ String nl_char
                   (pre ++ lf ++ String " " (sender ++ String nl_char tail)))
  = re_search (Cat (ilit m) r) (String nl_char tail).
Proof.
  intros Hm Hsp Hnl Ht Hconst Hsender.
  rewrite search_skips_piece by done.
  replace (String nl_char (pre ++ lf ++ String " " (sender ++ String nl_char tail)))
    with (String nl_char (pre ++ lf ++ String " " sender) ++ String nl_char tail)
    by (cbn [String.append]; by rewrite !app_assoc_str).
  rewrite search_skips_piece; [reflexivity | exact Hnl|].
  apply piece_is_free; try done. by destruct m.
Qed.

Lemma subject_is_read :
  group_one <$> re_search FreeLLMService.subject_re prompt
  = Some (str_lstrip subject).
Proof using template_free ls_subject pre_subject sender_subject subject_line
  subject_filled.
  unfold prompt, labelled_prompt, FreeLLMService.subject_re, cat. cbn [foldr].
  rewrite (past_first_line "SUBJECT:"); try done;
    [|apply template_free; unfold field_markers; in_list].
  match goal with
  | |- context [String nl_char (EmailProcessor.indent8 ++ ls ++ ?X)] =>
      change (String nl_char (EmailProcessor.indent8 ++ ls ++ X))
        with (String nl_char EmailProcessor.indent8 ++ ls ++ X)
  end.
  rewrite (search_past_prefix "SUBJECT:") by reflexivity.
  by apply (line_field "SUBJECT:").
Qed.

Lemma body_is_read :
  group_one <$> re_search FreeLLMService.body_re prompt
  = Some (str_lstrip (body ++ String nl_char EmailProcessor.indent8)).
Proof using template_free lb_body pre_body ls_body sender_body subject_body
  body_filled.
  unfold prompt, labelled_prompt, FreeLLMService.body_re, cat. cbn [foldr].
  rewrite (past_first_line "BODY:"); try done;
    [|apply template_free; unfold field_markers; in_list].
  match goal with
  | |- context [String nl_char (EmailProcessor.indent8 ++ ls
                                ++ String " " (subject ++ String nl_char ?X))] =>
      replace (String nl_char (EmailProcessor.indent8 ++ ls
                               ++ String " " (subject ++ String nl_char X)))
        with (String nl_char (EmailProcessor.indent8 ++ ls ++ String " " subject)
              ++ String nl_char X)
        by (cbn [String.append]; by rewrite !app_assoc_str)
  end.
  rewrite (search_skips_piece "BODY:"); [|reflexivity|].
  - match goal with
    | |- context [String nl_char (EmailProcessor.indent8 ++ lb ++ ?X)] =>
        change (String nl_char (EmailProcessor.indent8 ++ lb ++ X))
          with (String nl_char EmailProcessor.indent8 ++ lb ++ X)
    end.
    rewrite (search_past_prefix "BODY:") by reflexivity.
    apply (rest_field "BODY:"); [by rewrite lb_body|].
    rewrite lstrip_app by by apply not_blank_lstrip.
    pose proof (not_blank_lstrip body body_filled).
    by destruct (str_lstrip body).
  - by apply (piece_is_free "body:").
Qed.

Lemma fields_of_labelled_prompt :
  let content := FreeLLMService._extract_email_content prompt in
  FreeLLMService.sender content = str_strip sender
  ∧ FreeLLMService.subject content = str_strip subject
  ∧ FreeLLMService.body content = str_strip body.
Proof using All.
  unfold FreeLLMService._extract_email_content.
  cbn [FreeLLMService.sender FreeLLMService.subject FreeLLMService.body].
  rewrite (found_group _ _ _ sender_is_read), (found_group _ _ _ subject_is_read).
  pose proof body_is_read as Hb.
  destruct (re_search FreeLLMService.body_re prompt) as [m|]; [|done].
  cbn in Hb. injection Hb as ->.
  rewrite !strip_lstrip. split; [done|]. split; [done|].
  by apply strip_app_blank.
Qed.

End Fields.

Lemma fields_of_context (op : operation) (template : string)
    (email : email_record) :
  marker_free template →
  readable email →
  let content :=
    FreeLLMService._extract_email_content
      (template ++ nl ++ nl ++ context_of op email) in
  FreeLLMService.sender content = str_strip (email_sender email)
  ∧ FreeLLMService.subject content = str_strip (email_subject email)
  ∧ FreeLLMService.body content = str_strip (email_body email).
Proof.
  intros Hfree (H1 & H2 & H3 & H4 & H5 & H6 & H7 & H8).
  rewrite prompt_shape.
  destruct op; by apply fields_of_labelled_prompt.
Qed.

(** X29.  For a template without field labels and an email whose fields
    can be told apart, the content that [_extract_email_content] reads out
    of the prompt of each of the three operations holds the sender, the
    subject and the body of the email, stripped. *)
Theorem fields_are_read_back (op : operation) (template : string)
    (email : email_record) :
  marker_free template →
  readable email →
  let content :=
    FreeLLMService._extract_email_content
      (template ++ nl ++ nl ++ context_of op email) in
  FreeLLMService.sender content = str_strip (email_sender email)
  ∧ FreeLLMService.subject content = str_strip (email_subject email)
  ∧ FreeLLMService.body content = str_strip (email_body email).
Proof.
  intros Hfree (Hline & Hfilled & Hsubject & Hbody & Hline' & Hfilled' & Hbody'
                & Hfilled'').
  rewrite prompt_shape.
  destruct op; cbn [labels_of opening_of fst snd];
    by apply fields_of_labelled_prompt.
Qed.

(** The first email of the mock inbox in a summarisation prompt. *)

Lemma fields_are_read_back_witness :
  let content :=
    FreeLLMService._extract_email_content
      ("Summarize briefly" ++ nl ++ nl
       ++ EmailProcessor.summarize_context (nth_mock_email 0)) in
  FreeLLMService.sender content = "project.manager@company.com"
  ∧ FreeLLMService.subject content = "Weekly Project Update - Urgent Review Needed".
Proof.
  intros content.
  destruct (fields_are_read_back Summarization "Summarize briefly"
              (nth_mock_email 0)) as (Hs & Hj & _).
  - intros marker Hm. unfold field_markers in Hm. each_by_evaluation Hm.
  - unfold readable, one_line, not_blank. vm_compute. repeat split; discriminate.
  - split; [exact Hs | exact Hj].
Defined.

(** ** Categorisation end to end *)

Lemma cleaner_fixes_labels (label : string) :
  label ∈ EmailProcessor.valid_categories →
  EmailProcessor._clean_category_response label = label.
Proof.
  unfold EmailProcessor.valid_categories. intros Hl.
  repeat (apply elem_of_cons in Hl as [->|Hl]; [reflexivity|]).
  by apply elem_of_nil in Hl.
Qed.

(** X30.  Under a categorisation prompt that holds "categorize" and no
    field label, the category that [_categorize_email] of the email
    processor returns for an email whose fields can be told apart is the
    answer of the pattern classifier on the stripped sender, subject and
    body of that email. *)
Theorem categorization_reads_the_email `{JsonDecoder} (email : email_record)
    (w w' : world) (template : string) :
  PromptManager.get_prompt "categorization" w = (inr (PStr template), w') →
  occurs_ignoring_case "categorize" template →
  marker_free template →
  readable email →
  EmailProcessor._categorize_email email w
  = (inr (FreeLLMService._categorize_email (stripped_fields email)), w').
Proof.
  intros Hget Hocc Hfree Hread.
  unfold EmailProcessor._categorize_email, bind. rewrite Hget. cbn [py_str].
  unfold ret. do 2 f_equal.
  unfold FreeLLMService.generate_response, FreeLLMService._smart_pattern_matcher.
  rewrite str_lower_app.
  rewrite (str_in_app_l "categorize") by (by apply (occurs_lower "categorize")).
  rewrite cleaner_fixes_labels by apply classifier_labels.
  destruct (fields_of_context Categorization template email Hfree Hread)
    as (Hs & Hj & Hb).
  cbn [context_of] in Hs, Hj, Hb.
  unfold FreeLLMService._categorize_email.
  rewrite Hs, Hj, Hb. reflexivity.
Qed.

(** The first email of the mock inbox under the default prompts. *)
Lemma categorization_reads_the_email_witness :
  fst (EmailProcessor._categorize_email (H := RefJson.decoder) (nth_mock_email 0)
         default_world)
  = inr "Important".
Proof.
  refine (f_equal fst
            (categorization_reads_the_email (H := RefJson.decoder)
               (nth_mock_email 0) default_world
               (snd (PromptManager.get_prompt (H := RefJson.decoder)
                       "categorization" default_world))
               (match PromptManager.default_prompts with
                | PDict kvs => py_str (default (PStr "")
                                         (dict_get kvs "categorization"))
                | _ => ""
                end) _ _ _ _)).
  - vm_compute. reflexivity.
  - exists "", "Categorize",
      " this email into one of these categories: Important, Newsletter, Spam, To-Do. To-Do emails must include a direct request requiring user action. Respond with only the category name.".
    split; reflexivity.
  - intros marker Hm. unfold field_markers in Hm. each_by_evaluation Hm.
  - unfold readable, one_line, not_blank. vm_compute. repeat split; discriminate.
Defined.
